(** * pyinaturalist: pagination and response normalisation

    A shallow embedding of the parts of [pyinaturalist] that page through
    the observation search endpoint ([node_api.py]) and that post-process
    parsed JSON responses ([node_api.py], [v1/observations.py]), together
    with the properties of these functions.

    Python values are embedded as a small tree type, a dict as an
    association list in insertion order, and an exception as a value of
    [exn].  A function with side effects is a function of the state of the
    remote service that answers, with its result, the next state of the
    service and the trace of the events it caused: the HTTP requests with
    their responses, and the calls of [sleep]. *)

From Stdlib Require Import ZArith List String Ascii Bool Lia PrimFloat.
From Stdlib Require Import DecimalString Sorted.
Import ListNotations.

#[local] Open Scope Z_scope.
#[local] Open Scope string_scope.
#[local] Open Scope list_scope.

(** ** Python values *)

Module Py.

(** A [datetime.datetime]: the calendar fields and, when the timestamp is
    aware, the offset from UTC in minutes. *)
Record datetime : Type := mk_datetime {
  dt_year : Z; dt_month : Z; dt_day : Z;
  dt_hour : Z; dt_minute : Z; dt_second : Z;
  dt_offset : option Z
}.

Unset Elimination Schemes.
Inductive value : Type :=
| PNone
| PBool (b : bool)
| PInt (z : Z)
| PFloat (f : float)
| PStr (s : string)
| PDatetime (t : datetime)
| PList (l : list value)
| PDict (d : list (string * value)).
Set Elimination Schemes.

(** A [dict] with string keys, in insertion order. *)
Definition dict : Type := list (string * value).

(** The induction principle that reaches the elements of a list and the
    values of a dict. *)
Definition value_nested_ind (P : value -> Prop)
    (HNone : P PNone)
    (HBool : forall b, P (PBool b))
    (HInt : forall z, P (PInt z))
    (HFloat : forall f, P (PFloat f))
    (HStr : forall s, P (PStr s))
    (HDatetime : forall t, P (PDatetime t))
    (HList : forall l, Forall P l -> P (PList l))
    (HDict : forall d, Forall (fun kv => P (snd kv)) d -> P (PDict d)) :
    forall v, P v :=
  fix go (v : value) : P v :=
    match v with
    | PNone => HNone
    | PBool b => HBool b
    | PInt z => HInt z
    | PFloat f => HFloat f
    | PStr s => HStr s
    | PDatetime t => HDatetime t
    | PList l =>
        HList l ((fix elems (l : list value) : Forall P l :=
                    match l with
                    | [] => Forall_nil P
                    | x :: l' => Forall_cons x (go x) (elems l')
                    end) l)
    | PDict d =>
        HDict d ((fix fields (d : dict) : Forall (fun kv => P (snd kv)) d :=
                    match d with
                    | [] => Forall_nil _
                    | kv :: d' => Forall_cons kv (go (snd kv)) (fields d')
                    end) d)
    end.

(** The exceptions that the modelled code raises or lets through. *)
Inductive exn : Type :=
| IndexError
| KeyError (k : string)
| TypeError
| AttributeError
| ValueError
| HTTPError (status : Z)
| ConnectionError
| ObservationNotFound.

Inductive result (A : Type) : Type :=
| Ok (a : A)
| Raise (e : exn).
Arguments Ok {A} a.
Arguments Raise {A} e.

(** *** Dict operations *)

(** [d.get(k)] *)
Fixpoint dict_get (k : string) (d : dict) : option value :=
  match d with
  | [] => None
  | (k', v) :: d' => if String.eqb k k' then Some v else dict_get k d'
  end.

(** [k in d] *)
Definition dict_mem (k : string) (d : dict) : bool :=
  match dict_get k d with Some _ => true | None => false end.

(** [d[k] = v]: an existing key keeps its position, a new key goes last. *)
Fixpoint dict_set (k : string) (v : value) (d : dict) : dict :=
  match d with
  | [] => [(k, v)]
  | (k', v') :: d' =>
      if String.eqb k k' then (k, v) :: d' else (k', v') :: dict_set k v d'
  end.

(** [del d[k]] *)
Fixpoint dict_del (k : string) (d : dict) : dict :=
  match d with
  | [] => []
  | (k', v') :: d' =>
      if String.eqb k k' then dict_del k d' else (k', v') :: dict_del k d'
  end.

(** [d.update(e)], and with it [{**d, **e}] *)
Definition dict_update (d e : dict) : dict :=
  fold_left (fun acc kv => dict_set (fst kv) (snd kv) acc) e d.

(** *** Operators on values *)

(** Exact conversion of a binary positive below 2^53 (rounded above). *)
Fixpoint float_of_pos (p : positive) : float :=
  match p with
  | xH => 1%float
  | xO q => (2 * float_of_pos q)%float
  | xI q => (2 * float_of_pos q + 1)%float
  end.

(** [float(z)] *)
Definition float_of_Z (z : Z) : float :=
  match z with
  | Z0 => 0%float
  | Zpos p => float_of_pos p
  | Zneg p => (- float_of_pos p)%float
  end.

(** [bool(v)] *)
Definition truthy (v : value) : bool :=
  match v with
  | PNone => false
  | PBool b => b
  | PInt z => negb (Z.eqb z 0)
  | PFloat f => negb (PrimFloat.eqb f 0%float)
  | PStr s => negb (String.eqb s "")
  | PDatetime _ => true
  | PList l => match l with [] => false | _ => true end
  | PDict d => match d with [] => false | _ => true end
  end.

(** [v.get(k, default)]: only a dict has the method. *)
Definition py_get (v : value) (k : string) (default : value) : result value :=
  match v with
  | PDict d => Ok (match dict_get k d with Some x => x | None => default end)
  | _ => Raise AttributeError
  end.

(** [v[k]] for a string key [k] *)
Definition py_getitem (v : value) (k : string) : result value :=
  match v with
  | PDict d => match dict_get k d with Some x => Ok x | None => Raise (KeyError k) end
  | _ => Raise TypeError
  end.

(** [l + v] for a list [l] *)
Definition py_list_add (l : list value) (v : value) : result (list value) :=
  match v with
  | PList l' => Ok (l ++ l')
  | _ => Raise TypeError
  end.

(** [l[-1]] for a list [l] *)
Definition py_last (l : list value) : result value :=
  match rev l with
  | [] => Raise IndexError
  | x :: _ => Ok x
  end.

(** [v[0]] *)
Definition py_first (v : value) : result value :=
  match v with
  | PList [] => Raise IndexError
  | PList (x :: _) => Ok x
  | PStr EmptyString => Raise IndexError
  | PStr (String c _) => Ok (PStr (String c EmptyString))
  | PDict _ => Raise (KeyError "0")
  | _ => Raise TypeError
  end.

(** [v <= n] for an int [n]: numbers compare by value, a bool as 0 or 1;
    anything else is not ordered against an int. *)
Definition py_le_int (v : value) (n : Z) : result bool :=
  match v with
  | PInt z => Ok (Z.leb z n)
  | PBool b => Ok (Z.leb (if b then 1 else 0) n)
  | PFloat f => Ok (PrimFloat.leb f (float_of_Z n))
  | _ => Raise TypeError
  end.

(** [d.update(v)]: [v] is merged when it is a dict, and refused
    otherwise (an iterable of pairs, which Python would merge as well, is
    not passed by any caller). *)
Definition py_update (d : dict) (v : value) : result dict :=
  match v with
  | PDict e => Ok (dict_update d e)
  | _ => Raise TypeError
  end.


(** [a == b]: numbers compare by value across [bool], [int] and [float],
    lists element by element, dicts key by key whatever the order of
    insertion; values of unrelated types are unequal.  The comparison never
    raises. *)
Definition datetime_eqb (a b : datetime) : bool :=
  Z.eqb (dt_year a) (dt_year b) && Z.eqb (dt_month a) (dt_month b)
  && Z.eqb (dt_day a) (dt_day b) && Z.eqb (dt_hour a) (dt_hour b)
  && Z.eqb (dt_minute a) (dt_minute b) && Z.eqb (dt_second a) (dt_second b)
  && match dt_offset a, dt_offset b with
     | Some x, Some y => Z.eqb x y
     | None, None => true
     | _, _ => false
     end.

Definition Z_of_bool (b : bool) : Z := if b then 1 else 0.

Fixpoint py_eq (a b : value) {struct a} : bool :=
  match a, b with
  | PNone, PNone => true
  | PBool x, PBool y => Bool.eqb x y
  | PBool x, PInt y => Z.eqb (Z_of_bool x) y
  | PInt x, PBool y => Z.eqb x (Z_of_bool y)
  | PInt x, PInt y => Z.eqb x y
  | PBool x, PFloat y => PrimFloat.eqb (float_of_Z (Z_of_bool x)) y
  | PInt x, PFloat y => PrimFloat.eqb (float_of_Z x) y
  | PFloat x, PBool y => PrimFloat.eqb x (float_of_Z (Z_of_bool y))
  | PFloat x, PInt y => PrimFloat.eqb x (float_of_Z y)
  | PFloat x, PFloat y => PrimFloat.eqb x y
  | PStr x, PStr y => String.eqb x y
  | PDatetime x, PDatetime y => datetime_eqb x y
  | PList l, PList l' =>
      (fix elems (l l' : list value) {struct l} : bool :=
         match l, l' with
         | [], [] => true
         | x :: r, y :: r' => py_eq x y && elems r r'
         | _, _ => false
         end) l l'
  | PDict d, PDict d' =>
      Nat.eqb (List.length d) (List.length d')
      && (fix fields (d : dict) {struct d} : bool :=
            match d with
            | [] => true
            | (k, v) :: r =>
                match dict_get k d' with
                | Some v' => py_eq v v' && fields r
                | None => false
                end
            end) d
  | _, _ => false
  end.

(** [v[k] = x] for a string key [k] *)
Definition py_setitem (v : value) (k : string) (x : value) : result value :=
  match v with
  | PDict d => Ok (PDict (dict_set k x d))
  | _ => Raise TypeError
  end.

(** [str(v)] for the values that an identifier takes; other values are
    not spelled out. *)
Definition py_str (v : value) : string :=
  match v with
  | PInt z => NilZero.string_of_int (Z.to_int z)
  | PStr s => s
  | PBool true => "True"
  | PBool false => "False"
  | PNone => "None"
  | _ => "<object>"
  end.

(** [[f(x) for x in l]] for an [f] that may raise: the first exception
    ends the comprehension. *)
Fixpoint result_map {A B : Type} (f : A -> result B) (l : list A)
    : result (list B) :=
  match l with
  | [] => Ok []
  | x :: r =>
      match f x with
      | Raise e => Raise e
      | Ok y =>
          match result_map f r with
          | Raise e => Raise e
          | Ok ys => Ok (y :: ys)
          end
      end
  end.

(** The characters of a string, each as a string. *)
Fixpoint chars (s : string) : list value :=
  match s with
  | EmptyString => []
  | String c r => PStr (String c EmptyString) :: chars r
  end.

(** [iter(v)]: the elements of a list, the keys of a dict, the characters
    of a string; nothing else is iterable. *)
Definition py_iter (v : value) : result (list value) :=
  match v with
  | PList l => Ok l
  | PDict d => Ok (map (fun kv => PStr (fst kv)) d)
  | PStr s => Ok (chars s)
  | _ => Raise TypeError
  end.

(** The keyword arguments of a call [f(k1=v1, ..., **d)]: a key of [d]
    that is given already is a [TypeError] of the call. *)
Fixpoint kw_merge (given d : dict) : result dict :=
  match d with
  | [] => Ok given
  | (k, v) :: r =>
      if dict_mem k given then Raise TypeError
      else kw_merge (given ++ [(k, v)]) r
  end.

(** The dict [v] once the object under its key [k] has been changed in
    place and holds [x].  No assignment is made: the dict refers to the
    same object as before, and sees what became of it. *)
Definition changed_in_place (v : value) (k : string) (x : value) : value :=
  match v with
  | PDict d => PDict (dict_set k x d)
  | _ => v
  end.

End Py.
Export Py.

(** ** Converters

    The module [pyinaturalist.converters] (in older releases
    [pyinaturalist.response_format]) is imported by the code below and is
    not part of the sources at hand.  Its functions are modelled from
    section 4.1 of the specification. *)

Module Converters.

(** Which keys of a record hold a timestamp and which hold a coordinate
    pair is a table of the converters module. *)
Class Fields : Type := {
  is_timestamp_field : string -> bool;
  is_coordinate_field : string -> bool
}.

#[local] Notation "'do?' x <- e ; k" :=
  (match e with Some x => k | None => None end)
  (at level 10, x pattern, e at level 100, k at level 200).

(** *** Reading numbers *)

Definition digit_of (c : ascii) : option Z :=
  let n := Z.of_nat (nat_of_ascii c) in
  if Z.leb 48 n && Z.leb n 57 then Some (n - 48) else None.

(** The digits of a decimal literal with at most one point: the integer
    made of all its digits, and how many of them follow the point. *)
Fixpoint scan_decimal (s : string) (seen_point : bool) (mantissa : Z)
    (fraction digits : nat) : option (Z * nat) :=
  match s with
  | EmptyString =>
      match digits with O => None | S _ => Some (mantissa, fraction) end
  | String c s' =>
      if Ascii.eqb c "."%char then
        if seen_point then None
        else scan_decimal s' true mantissa fraction digits
      else
        do? d <- digit_of c;
        scan_decimal s' seen_point (10 * mantissa + d)
          (if seen_point then S fraction else fraction) (S digits)
  end.

(** Modelled from the spec: [float(s)] on a decimal literal in plain
    notation, an optional sign, digits and at most one point.  The
    quotient of two floats is rounded once, so the result is the double
    nearest to the literal as long as its digits make an integer below
    2^53.  Other spellings that Python reads (an exponent, [inf], [nan],
    surrounding blanks) count as malformed here. *)
Definition parse_float (s : string) : option float :=
  let '(negative, body) :=
    match s with
    | String "-"%char r => (true, r)
    | String "+"%char r => (false, r)
    | _ => (false, s)
    end in
  do? (mantissa, fraction) <- scan_decimal body false 0 O O;
  let f := (float_of_Z mantissa / float_of_Z (10 ^ Z.of_nat fraction))%float in
  Some (if negative then (- f)%float else f).

(** [s.split(sep)] for a separator of one character *)
Fixpoint split_on (sep : ascii) (s : string) : list string :=
  match s with
  | EmptyString => [EmptyString]
  | String c s' =>
      if Ascii.eqb c sep then EmptyString :: split_on sep s'
      else match split_on sep s' with
           | [] => [String c EmptyString]
           | h :: t => String c h :: t
           end
  end.

(** *** Reading timestamps *)

(** [n] digits at the head of [s], and what follows them. *)
Fixpoint read_num (n : nat) (acc : Z) (s : string) : option (Z * string) :=
  match n with
  | O => Some (acc, s)
  | S n' =>
      match s with
      | EmptyString => None
      | String c s' => do? d <- digit_of c; read_num n' (10 * acc + d) s'
      end
  end.

Definition expect (c : ascii) (s : string) : option string :=
  match s with
  | String c' s' => if Ascii.eqb c c' then Some s' else None
  | EmptyString => None
  end.

(** The offset from UTC that ends a timestamp, in minutes: nothing (a
    naive timestamp), [Z], or a sign with hours and minutes. *)
Definition parse_offset (s : string) : option (option Z) :=
  match s with
  | EmptyString => Some None
  | String "Z"%char EmptyString => Some (Some 0)
  | String sign r =>
      do? factor <- (if Ascii.eqb sign "+"%char then Some 1
                     else if Ascii.eqb sign "-"%char then Some (-1)
                     else None);
      do? (h, r) <- read_num 2 0 r;
      do? r <- expect ":"%char r;
      do? (m, r) <- read_num 2 0 r;
      match r with
      | EmptyString =>
          if Z.leb h 23 && Z.leb m 59 then Some (Some (factor * (60 * h + m)))
          else None
      | _ => None
      end
  end.

(** Modelled from the spec: "parse ISO-8601 strings with optional UTC
    offset; if offset absent, treat as naive/local; output a structured
    timestamp value carrying both the instant and, if present, the original
    offset".  The forms read are a calendar date, alone or followed by [T]
    or a blank and a time of day [hh:mm] or [hh:mm:ss], with an optional
    offset. *)
Definition parse_iso8601 (s : string) : option datetime :=
  do? (y, r) <- read_num 4 0 s;
  do? r <- expect "-"%char r;
  do? (mo, r) <- read_num 2 0 r;
  do? r <- expect "-"%char r;
  do? (d, r) <- read_num 2 0 r;
  if negb (Z.leb 1 mo && Z.leb mo 12 && Z.leb 1 d && Z.leb d 31) then None
  else
    match r with
    | EmptyString => Some (mk_datetime y mo d 0 0 0 None)
    | String c r =>
        if negb (Ascii.eqb c "T"%char || Ascii.eqb c " "%char) then None
        else
          do? (h, r) <- read_num 2 0 r;
          do? r <- expect ":"%char r;
          do? (mi, r) <- read_num 2 0 r;
          do? (sec, r) <-
            (match r with
             | String ":"%char r' => read_num 2 0 r'
             | _ => Some (0, r)
             end);
          do? off <- parse_offset r;
          if Z.leb h 23 && Z.leb mi 59 && Z.leb sec 59
          then Some (mk_datetime y mo d h mi sec off)
          else None
    end.

(** *** Conversion of one field *)

(** [float(v)] for one coordinate: a number, or a string that reads as a
    number. *)
Definition coordinate (v : value) : option float :=
  match v with
  | PInt z => Some (float_of_Z z)
  | PFloat f => Some f
  | PStr s => parse_float s
  | _ => None
  end.

(** Modelled from the spec: "accept coordinates as a string [lat,lng], as
    a two-element sequence, or already-numeric; produce a pair of 64-bit
    floats".  [None] is the answer when the expected pattern is absent. *)
Definition try_coordinates (v : value) : option value :=
  match v with
  | PStr s =>
      match split_on ","%char s with
      | [a; b] =>
          do? x <- parse_float a;
          do? y <- parse_float b;
          Some (PList [PFloat x; PFloat y])
      | _ => None
      end
  | PList [a; b] =>
      do? x <- coordinate a;
      do? y <- coordinate b;
      Some (PList [PFloat x; PFloat y])
  | _ => None
  end.

(** Modelled from the spec: timestamp conversion of one value; only a
    string that reads as a timestamp has the pattern. *)
Definition try_timestamp (v : value) : option value :=
  match v with
  | PStr s => do? t <- parse_iso8601 s; Some (PDatetime t)
  | _ => None
  end.

(** Modelled from the spec: "best-effort conversion, leaving a field
    unchanged [...] if the expected pattern is absent"; [None] "stays
    [None]". *)
Definition convert_coordinates (v : value) : value :=
  match try_coordinates v with Some w => w | None => v end.

(** Modelled from the spec: the same for a timestamp. *)
Definition convert_timestamp (v : value) : value :=
  match try_timestamp v with Some w => w | None => v end.

(** *** Conversion of a response *)

(** Modelled from the spec: one pass of normalisation over a JSON-shaped
    value.  In every record met, a field whose key is selected and whose
    value has the pattern is replaced by the converted value.  Every other
    value is kept and, as "relationships to other entities" are "nested"
    normalised items, searched in turn. *)
Fixpoint convert_fields (selected : string -> bool)
    (try : value -> option value) (v : value) {struct v} : value :=
  match v with
  | PList l => PList (map (convert_fields selected try) l)
  | PDict d =>
      PDict
        ((fix fields (d : dict) {struct d} : dict :=
            match d with
            | [] => []
            | (k, x) :: r =>
                (k, match (if selected k then try x else None) with
                    | Some w => w
                    | None => convert_fields selected try x
                    end) :: fields r
            end) d)
  | _ => v
  end.

(** What [convert_fields] does to one field of a record. *)
Definition convert_field (selected : string -> bool)
    (try : value -> option value) (kv : string * value) : string * value :=
  (fst kv,
   match (if selected (fst kv) then try (snd kv) else None) with
   | Some w => w
   | None => convert_fields selected try (snd kv)
   end).

Section WithFields.
Context {F : Fields}.

(** Modelled from the spec: [convert_all_coordinates], the coordinate pass
    over the results of a response. *)
Definition convert_all_coordinates (results : value) : value :=
  convert_fields is_coordinate_field try_coordinates results.

(** Modelled from the spec: [convert_location_to_float], the name of the
    coordinate pass in [response_format]. *)
Definition convert_location_to_float (results : value) : value :=
  convert_all_coordinates results.

(** Modelled from the spec: [convert_all_timestamps], the timestamp pass
    over the results of a response. *)
Definition convert_all_timestamps (results : value) : value :=
  convert_fields is_timestamp_field try_timestamp results.

(** Modelled from the spec: [convert_observation_timestamps] and
    [convert_generic_timestamps], the timestamp pass over one record.  Both
    are "pure, total functions": they answer a value and leave their
    argument as it is. *)
Definition convert_observation_timestamps (result : value) : value :=
  convert_fields is_timestamp_field try_timestamp result.

Definition convert_generic_timestamps (result : value) : value :=
  convert_fields is_timestamp_field try_timestamp result.

(** The normalisation pipeline of [get_observations]: coordinates first,
    timestamps second. *)
Definition normalize (results : value) : value :=
  convert_all_timestamps (convert_all_coordinates results).

End WithFields.

End Converters.
Export Converters.

(** ** Effects: the remote service, the clock and exceptions *)

Module Effects.

(** What the HTTP layer is called with: the method, the endpoint below the
    base URL of the API, and the keyword arguments of the call. *)
Record request : Type := mk_request {
  req_method : string;
  req_endpoint : string;
  req_kwargs : dict
}.

(** A [requests.Response]: the status, and the body when it is JSON. *)
Record response : Type := mk_response {
  status_code : Z;
  body : option value
}.

(** The events that a run leaves behind. *)
Inductive event : Type :=
| Fetch (req : request) (res : result response)
| Sleep (seconds : Z).

(** The remote service, a collaborator of the library: from its state and
    a request, its next state and a response or a failure of the
    transport. *)
Class Service : Type := {
  service_state : Type;
  serve : service_state -> request -> service_state * result response
}.

(** The constants of [pyinaturalist.constants] that the code reads. *)
Class Constants : Type := {
  PER_PAGE_RESULTS : Z;
  THROTTLING_DELAY : Z;
  V1_OBS_ORDER_BY_PROPERTIES : list string
}.

(** The checks of [pyinaturalist.request_params] that the code calls. *)
Class RequestParams : Type := {
  is_int : value -> bool;
  is_int_list : value -> bool;
  validate_multiple_choice_param : dict -> string -> list string -> result unit
}.

(** How a loop that has no bound ends: with a result, or still running
    when the rounds it was given are spent. *)
Inductive run (A : Type) : Type :=
| Done (r : result A)
| OutOfFuel.
Arguments Done {A} r.
Arguments OutOfFuel {A}.

Section Monad.
Context {Sv : Service}.

(** A computation: from the state of the service, the events it causes,
    the next state of the service, and a value or an exception. *)
Definition M (A : Type) : Type :=
  service_state -> list event * service_state * result A.

Definition ret {A} (a : A) : M A := fun s => ([], s, Ok a).

Definition raise {A} (e : exn) : M A := fun s => ([], s, Raise e).

Definition lift {A} (r : result A) : M A := fun s => ([], s, r).

Definition bind {A B} (m : M A) (f : A -> M B) : M B :=
  fun s =>
    match m s with
    | (t, s', Ok a) => let '(t', s'', r) := f a s' in (t ++ t', s'', r)
    | (t, s', Raise e) => (t, s', Raise e)
    end.

(** [time.sleep] *)
Definition sleep (seconds : Z) : M unit := fun s => ([Sleep seconds], s, Ok tt).

(** Modelled from the spec: the transport [performRequest] of section 6,
    which [api_requests] wraps: one round trip to the service, which
    answers or raises. *)
Definition perform (req : request) : M response :=
  fun s => let '(s', res) := serve s req in ([Fetch req res], s', res).

(** [r.json()] *)
Definition json (r : response) : result value :=
  match body r with Some v => Ok v | None => Raise ValueError end.

(** [r.raise_for_status()] *)
Definition raise_for_status (r : response) : result unit :=
  if Z.leb 400 (status_code r) && Z.ltb (status_code r) 600
  then Raise (HTTPError (status_code r)) else Ok tt.

(** [while True: body], with the loop variables in [st]: the body either
    returns from the function ([inl]) or goes round again ([inr]).  [fuel]
    bounds the number of rounds. *)
Fixpoint while_true {St A} (fuel : nat) (body : St -> M (A + St)) (st : St)
    (s : service_state) : list event * service_state * run A :=
  match fuel with
  | O => ([], s, OutOfFuel)
  | S fuel' =>
      match body st s with
      | (t, s', Raise e) => (t, s', Done (Raise e))
      | (t, s', Ok (inl a)) => (t, s', Done (Ok a))
      | (t, s', Ok (inr st')) =>
          let '(t', s'', r) := while_true fuel' body st' s' in
          (t ++ t', s'', r)
      end
  end.

End Monad.

Module Notations.
Notation "x <- m ;; k" := (bind m (fun x => k))
  (at level 61, m at next level, right associativity).
Notation "m ;;; k" := (bind m (fun _ => k))
  (at level 61, right associativity).
End Notations.

(** *** Reading a trace *)

(** The query parameter [k] of a request. *)
Definition req_param (req : request) (k : string) : option value :=
  match dict_get "params" (req_kwargs req) with
  | Some (PDict p) => dict_get k p
  | _ => None
  end.

(** The items of the page that a fetch brought back, as the loop reads
    them: [page_obs.get("results", [])]. *)
Definition page_items (res : result response) : option (list value) :=
  match res with
  | Ok r =>
      match body r with
      | Some page_obs =>
          match py_get page_obs "results" (PList []) with
          | Ok (PList l) => Some l
          | _ => None
          end
      | None => None
      end
  | Raise _ => None
  end.

(** The pages of a trace, in the order of their fetches. *)
Fixpoint pages (t : list event) : list (list value) :=
  match t with
  | [] => []
  | Fetch _ res :: t' =>
      match page_items res with
      | Some l => l :: pages t'
      | None => pages t'
      end
  | Sleep _ :: t' => pages t'
  end.

(** The identifier of an item, when it is an integer. *)
Definition item_id (item : value) : option Z :=
  match py_getitem item "id" with
  | Ok (PInt z) => Some z
  | _ => None
  end.

(** A trace in which each fetch but the last is followed by one delay of
    [d] seconds, and nothing else happens: no delay comes first, and two
    fetches in a row are one delay apart. *)
Fixpoint paced (d : Z) (t : list event) : Prop :=
  match t with
  | [] => True
  | Fetch _ _ :: t' =>
      match t' with
      | [] => True
      | Sleep d' :: t'' => d' = d /\ paced d t''
      | Fetch _ _ :: _ => False
      end
  | Sleep _ :: _ => False
  end.

Definition is_fetch (e : event) : bool :=
  match e with Fetch _ _ => true | Sleep _ => false end.

Definition is_sleep (e : event) : bool :=
  match e with Sleep _ => true | Fetch _ _ => false end.

(** The number of page fetches and of delays in a trace. *)
Definition fetches (t : list event) : nat := List.length (filter is_fetch t).
Definition sleeps (t : list event) : nat := List.length (filter is_sleep t).

(** What the items of a page say about the next request: nothing when
    the page is empty, the cursor it has to carry when the last item has an
    identifier, and that there is no next request otherwise. *)
Inductive expectation : Type :=
| AnyCursor
| Cursor (c : value)
| NoFetch.

Definition next_cursor (res : result response) : expectation :=
  match page_items res with
  | Some items =>
      match py_last items with
      | Ok last =>
          match py_getitem last "id" with
          | Ok c => Cursor c
          | Raise _ => NoFetch
          end
      | Raise _ => AnyCursor
      end
  | None => NoFetch
  end.

(** Keyset pagination along a trace: each request asks for ascending
    identifiers, and carries the cursor that the page before it calls
    for. *)
Fixpoint keyset (e : expectation) (t : list event) : Prop :=
  match t with
  | [] => True
  | Sleep _ :: t' => keyset e t'
  | Fetch req res :: t' =>
      req_param req "order_by" = Some (PStr "id")
      /\ req_param req "order" = Some (PStr "asc")
      /\ match e with
         | AnyCursor => True
         | Cursor c => req_param req "id_above" = Some c
         | NoFetch => False
         end
      /\ keyset (next_cursor res) t'
  end.

(** Items whose identifiers are integers above [c], in strictly ascending
    order. *)
Fixpoint ascending_above (c : Z) (items : list value) : Prop :=
  match items with
  | [] => True
  | x :: r => exists i, item_id x = Some i /\ c < i /\ ascending_above i r
  end.

(** The identifier of the last of [items], or [c] when there is none. *)
Fixpoint last_id (c : Z) (items : list value) : Z :=
  match items with
  | [] => c
  | x :: r => match item_id x with Some i => last_id i r | None => c end
  end.

(** A service that honours keyset pagination: asked for the items above a
    cursor in ascending order of identifier, it answers with such items. *)
Definition honours_keyset {Sv : Service} : Prop :=
  forall (s s' : service_state) (req : request) (res : result response) (c : Z),
    serve s req = (s', res) ->
    req_param req "id_above" = Some (PInt c) ->
    req_param req "order_by" = Some (PStr "id") ->
    req_param req "order" = Some (PStr "asc") ->
    match page_items res with
    | Some items => ascending_above c items
    | None => True
    end.

(** A trace whose pages, one after the other, list items in strictly
    ascending order above [c]; a fetch without a page ends the trace. *)
Fixpoint increasing (c : Z) (t : list event) : Prop :=
  match t with
  | [] => True
  | Sleep _ :: t' => increasing c t'
  | Fetch _ res :: t' =>
      match page_items res with
      | Some items => ascending_above c items /\ increasing (last_id c items) t'
      | None => t' = []
      end
  end.

(** Whether a page is the last one for the loop of
    [get_all_observations]: [page_obs["total_results"] <= limit], when the
    page has a total that compares with an int. *)
Definition page_is_last (limit : Z) (res : result response) : option bool :=
  match res with
  | Ok r =>
      match body r with
      | Some page_obs =>
          match py_getitem page_obs "total_results" with
          | Ok total =>
              match py_le_int total limit with
              | Ok b => Some b
              | Raise _ => None
              end
          | Raise _ => None
          end
      | None => None
      end
  | Raise _ => None
  end.

(** A service whose transport does not fail: it answers every request
    with a response, whatever its status. *)
Definition always_answers {Sv : Service} : Prop :=
  forall (s : service_state) (req : request),
    exists s' resp, serve s req = (s', Ok resp).

(** The functions of [pyinaturalist.response_format] and
    [pyinaturalist.converters] that the code calls, with the constant
    [DEFAULT_OBSERVATION_ATTRS].  A generator expression handed to
    [as_geojson_feature_collection] is the list of what its items
    evaluate to, each a value or an exception. *)
Class ResponseFormat : Type := {
  format_taxon : value -> result value;
  _get_rank_range : value -> value -> result value;
  flatten_nested_params : value -> result value;
  as_geojson_feature_collection : list (result value) -> value -> result value;
  ensure_list : value -> list value;
  DEFAULT_OBSERVATION_ATTRS : value
}.

(** What a call of [convert_generic_timestamps] leaves in the object that
    it is handed.  The function belongs to [pyinaturalist.converters],
    which is not among the sources.  The specification words the
    converters as functions of a value, which gives the value of a call;
    but a Python function can change a dict that it is handed, and the
    calling code does not tell whether the converter builds a new record
    or converts the record of the response in place.  [argument_after v]
    is what the object that held [v] holds after the call: [v] for a
    converter that builds a new record, the converted record for one that
    works in place. *)
Class InPlace : Type := {
  argument_after : value -> value
}.

End Effects.
Export Effects.

(** ** [pyinaturalist/node_api.py] *)

Module NodeApi.
Import Effects.Notations.

Section WithCollaborators.
Context {Sv : Service} {K : Constants} {RP : RequestParams} {F : Fields}.

(** [api_requests.get(urljoin(INAT_NODE_API_BASE_URL, endpoint), **kwargs)] *)
Definition make_inaturalist_api_get_call (endpoint : string) (kwargs : dict)
    : M response :=
  perform (mk_request "GET" endpoint kwargs).

(** [get_observations(params=None, user_agent=None, **kwargs)].  The
    deprecation warning leaves no event. *)
Definition get_observations (params user_agent : value) (kwargs : dict)
    : M value :=
  kwargs <- (if truthy params then lift (py_update kwargs params)
             else ret kwargs) ;;
  r <- make_inaturalist_api_get_call "observations"
         [("params", PDict kwargs); ("user_agent", user_agent)] ;;
  lift (json r).

(** [get_observations] called with the dict [d] unpacked into keyword
    arguments: the keys [params] and [user_agent] of [d] bind the named
    parameters, the others make up [kwargs]. *)
Definition get_observations_kw (d : dict) : M value :=
  get_observations
    (match dict_get "params" d with Some v => v | None => PNone end)
    (match dict_get "user_agent" d with Some v => v | None => PNone end)
    (dict_del "user_agent" (dict_del "params" d)).

(** [get_observation] *)
Definition get_observation (observation_id user_agent : value) : M value :=
  r <- get_observations PNone user_agent [("id", observation_id)] ;;
  results <- lift (py_getitem r "results") ;;
  if truthy results then lift (py_first results)
  else raise ObservationNotFound.

(** The statements of [get_all_observations] before its loop: the merge of
    the deprecated [params], the removal of [page], and the pagination
    parameters laid over the caller's. *)
Definition pagination_params_of (params user_agent : value) (kwargs : dict)
    : result dict :=
  match (if truthy params then py_update kwargs params else Ok kwargs) with
  | Raise e => Raise e
  | Ok kwargs =>
      let kwargs := if dict_mem "page" kwargs then dict_del "page" kwargs
                    else kwargs in
      Ok (dict_update kwargs
            [("order_by", PStr "id"); ("order", PStr "asc");
             ("per_page", PInt PER_PAGE_RESULTS); ("user_agent", user_agent)])
  end.

(** The variables of the loop: [pagination_params], [results], [id_above]. *)
Definition page_state : Type := dict * list value * value.

(** The body of the loop of [get_all_observations]. *)
Definition page_step (st : page_state) : M (list value + page_state) :=
  let '(pagination_params, results, id_above) := st in
  let pagination_params := dict_set "id_above" id_above pagination_params in
  page_obs <- get_observations_kw pagination_params ;;
  page <- lift (py_get page_obs "results" (PList [])) ;;
  results <- lift (py_list_add results page) ;;
  total_results <- lift (py_getitem page_obs "total_results") ;;
  last_page <- lift (py_le_int total_results PER_PAGE_RESULTS) ;;
  if last_page : bool then ret (inl results)
  else
    sleep THROTTLING_DELAY ;;;
    last <- lift (py_last results) ;;
    id_above <- lift (py_getitem last "id") ;;
    ret (inr (pagination_params, results, id_above)).

(** [get_all_observations(params=None, user_agent=None, **kwargs)] *)
Definition get_all_observations (fuel : nat) (params user_agent : value)
    (kwargs : dict) (s : service_state)
    : list event * service_state * run (list value) :=
  match pagination_params_of params user_agent kwargs with
  | Raise e => ([], s, Done (Raise e))
  | Ok pagination_params =>
      while_true fuel page_step (pagination_params, [], PInt 0) s
  end.

(** [get_places_by_id] *)
Definition get_places_by_id (place_id user_agent : value) : M value :=
  if negb (is_int place_id || is_int_list place_id) then raise ValueError
  else
    r <- make_inaturalist_api_get_call "places"
           [("resources", place_id); ("user_agent", user_agent)] ;;
    lift (raise_for_status r) ;;;
    response <- lift (json r) ;;
    results <- lift (py_getitem response "results") ;;
    response <- lift (py_setitem response "results"
                        (convert_location_to_float results)) ;;
    ret response.

End WithCollaborators.

Section MoreEndpoints.
Context {Sv : Service} {K : Constants} {RP : RequestParams} {F : Fields}
        {RF : ResponseFormat}.

(** The request that [get_observations] makes when it is called with the
    dict [d] unpacked and [d] has no entry [params]. *)
Definition observations_request (d : dict) : request :=
  mk_request "GET" "observations"
    [("params", PDict (dict_del "user_agent" (dict_del "params" d)));
     ("user_agent",
      match dict_get "user_agent" d with Some v => v | None => PNone end)].

(** [get_all_observations] called with the dict [d] unpacked into keyword
    arguments. *)
Definition get_all_observations_kw (fuel : nat) (d : dict)
    (s : service_state) : list event * service_state * run (list value) :=
  get_all_observations fuel
    (match dict_get "params" d with Some v => v | None => PNone end)
    (match dict_get "user_agent" d with Some v => v | None => PNone end)
    (dict_del "user_agent" (dict_del "params" d)) s.

(** [get_observation_species_counts(user_agent=None, **kwargs)] *)
Definition get_observation_species_counts (user_agent : value) (kwargs : dict)
    : M value :=
  r <- make_inaturalist_api_get_call "observations/species_counts"
         [("params", PDict kwargs); ("user_agent", user_agent)] ;;
  lift (raise_for_status r) ;;;
  lift (json r).

(** [get_geojson_observations(properties=None, **kwargs)] *)
Definition get_geojson_observations (fuel : nat) (properties : value)
    (kwargs : dict) (s : service_state)
    : list event * service_state * run value :=
  let kwargs := dict_set "mappable" (PBool true) kwargs in
  match get_all_observations_kw fuel kwargs s with
  | (t, s', Done (Ok observations)) =>
      (t, s',
       Done (as_geojson_feature_collection
               (map flatten_nested_params observations)
               (match properties with
                | PNone => DEFAULT_OBSERVATION_ATTRS
                | _ => properties
                end)))
  | (t, s', Done (Raise e)) => (t, s', Done (Raise e))
  | (t, s', OutOfFuel) => (t, s', OutOfFuel)
  end.

(** [_convert_all_locations_to_float] *)
Definition _convert_all_locations_to_float (response : value) : result value :=
  match py_getitem response "results" with
  | Raise e => Raise e
  | Ok results =>
      match py_get results "standard" PNone with
      | Raise e => Raise e
      | Ok standard =>
          match py_get results "community" PNone with
          | Raise e => Raise e
          | Ok community =>
              py_setitem response "results"
                (PDict [("standard", convert_location_to_float standard);
                        ("community", convert_location_to_float community)])
          end
      end
  end.

(** [get_places_nearby] *)
Definition get_places_nearby (nelat nelng swlat swlng name user_agent : value)
    : M value :=
  r <- make_inaturalist_api_get_call "places/nearby"
         [("params", PDict [("nelat", nelat); ("nelng", nelng);
                            ("swlat", swlat); ("swlng", swlng);
                            ("name", name)]);
          ("user_agent", user_agent)] ;;
  lift (raise_for_status r) ;;;
  response <- lift (json r) ;;
  lift (_convert_all_locations_to_float response).

(** [get_places_autocomplete] *)
Definition get_places_autocomplete (q user_agent : value) : M value :=
  r <- make_inaturalist_api_get_call "places/autocomplete"
         [("params", PDict [("q", q)]); ("user_agent", user_agent)] ;;
  lift (raise_for_status r) ;;;
  response <- lift (json r) ;;
  results <- lift (py_getitem response "results") ;;
  response <- lift (py_setitem response "results"
                      (convert_location_to_float results)) ;;
  ret response.

(** [get_taxa_by_id] *)
Definition get_taxa_by_id (taxon_id user_agent : value) : M value :=
  if negb (is_int taxon_id || is_int_list taxon_id) then raise ValueError
  else
    r <- make_inaturalist_api_get_call "taxa"
           [("resources", taxon_id); ("user_agent", user_agent)] ;;
    lift (raise_for_status r) ;;;
    lift (json r).

(** [get_taxa(min_rank=None, max_rank=None, user_agent=None, **params)] *)
Definition get_taxa (min_rank max_rank user_agent : value) (params : dict)
    : M value :=
  params <- (if truthy min_rank || truthy max_rank then
               rank <- lift (_get_rank_range min_rank max_rank) ;;
               ret (dict_set "rank" rank params)
             else ret params) ;;
  r <- make_inaturalist_api_get_call "taxa"
         [("params", PDict params); ("user_agent", user_agent)] ;;
  lift (raise_for_status r) ;;;
  lift (json r).

(** [get_taxa_autocomplete(user_agent=None, minify=False, **params)] *)
Definition get_taxa_autocomplete (user_agent minify : value) (params : dict)
    : M value :=
  r <- make_inaturalist_api_get_call "taxa/autocomplete"
         [("params", PDict params); ("user_agent", user_agent)] ;;
  lift (raise_for_status r) ;;;
  json_response <- lift (json r) ;;
  if truthy minify then
    results <- lift (py_getitem json_response "results") ;;
    taxa <- lift (py_iter results) ;;
    formatted <- lift (result_map format_taxon taxa) ;;
    lift (py_setitem json_response "results" (PList formatted))
  else ret json_response.

End MoreEndpoints.
End NodeApi.

(** ** [pyinaturalist/v1/observations.py] *)

Module V1.
Import Effects.Notations.

Section WithCollaborators.
Context {Sv : Service} {K : Constants} {RP : RequestParams} {F : Fields}.

(** Modelled from the spec: [get_v1] of [pyinaturalist.v1], the page
    fetcher of section 4.2.  It "delegates to the transport collaborator"
    and fails "when the transport reports a non-success status". *)
Definition get_v1 (endpoint : string) (params : dict) : M response :=
  r <- perform (mk_request "GET" endpoint [("params", PDict params)]) ;;
  lift (raise_for_status r) ;;;
  ret r.

(** [get_observations].  Its decorators document the function and add
    the [page='all'] mode; a call is taken to reach the body as it is. *)
Definition get_observations (params : dict) : M value :=
  lift (validate_multiple_choice_param params "order_by"
          V1_OBS_ORDER_BY_PROPERTIES) ;;;
  response <- get_v1 "observations" params ;;
  observations <- lift (json response) ;;
  results <- lift (py_getitem observations "results") ;;
  observations <- lift (py_setitem observations "results"
                          (convert_all_coordinates results)) ;;
  results <- lift (py_getitem observations "results") ;;
  observations <- lift (py_setitem observations "results"
                          (convert_all_timestamps results)) ;;
  ret observations.

(** [get_observation(observation_id, **params)]; [id] given twice is a
    [TypeError] of the call. *)
Definition get_observation (observation_id : value) (params : dict) : M value :=
  if dict_mem "id" params then raise TypeError
  else
    response <- get_observations (("id", observation_id) :: params) ;;
    results <- lift (py_getitem response "results") ;;
    if truthy results then
      first <- lift (py_first results) ;;
      ret (convert_observation_timestamps first)
    else raise ObservationNotFound.

Context {IP : InPlace}.

(** [get_observation_taxon_summary(observation_id, **params)].  The two
    statements after the request are comparisons ([==]), not assignments.
    Each evaluates its left operand, a field of [results]; evaluates the
    right operand, which hands the same object to the converter; compares
    the two and drops the outcome.  The object is still the field of
    [results], and holds what the converter left in it. *)
Definition get_observation_taxon_summary (observation_id : value)
    (params : dict) : M value :=
  r <- get_v1 ("observations/" ++ py_str observation_id ++ "/taxon_summary")
         params ;;
  results <- lift (json r) ;;
  conservation_status <- lift (py_getitem results "conservation_status") ;;
  argument <- lift (py_getitem results "conservation_status") ;;
  let converted := convert_generic_timestamps argument in
  let results :=
    changed_in_place results "conservation_status" (argument_after argument) in
  ret (py_eq (argument_after conservation_status) converted) ;;;
  listed_taxon <- lift (py_getitem results "listed_taxon") ;;
  argument <- lift (py_getitem results "listed_taxon") ;;
  let converted := convert_generic_timestamps argument in
  let results :=
    changed_in_place results "listed_taxon" (argument_after argument) in
  ret (py_eq (argument_after listed_taxon) converted) ;;;
  ret results.

End WithCollaborators.

Section Writes.
Context {Sv : Service} {RF : ResponseFormat}.

(** Modelled from the spec: [post_v1] and [delete_v1] of
    [pyinaturalist.v1], which hand their keyword arguments to the
    transport.  The status of the response is checked unless the caller
    passes [raise_for_status=False], as [upload] and [delete_observation]
    do before they check it themselves. *)
Definition request_v1 (method endpoint : string) (kwargs : dict) : M response :=
  r <- perform (mk_request method endpoint kwargs) ;;
  if match dict_get "raise_for_status" kwargs with
     | Some v => truthy v
     | None => true
     end
  then lift (raise_for_status r) ;;; ret r
  else ret r.

Definition post_v1 (endpoint : string) (kwargs : dict) : M response :=
  request_v1 "POST" endpoint kwargs.

Definition delete_v1 (endpoint : string) (kwargs : dict) : M response :=
  request_v1 "DELETE" endpoint kwargs.

(** One of the two loops of [upload]: each file is posted to [endpoint]
    with the observation under [key], and the response is appended to
    [responses]. *)
Fixpoint post_files (endpoint key : string) (observation_id : value)
    (params : dict) (files : list value) : M (list response) :=
  match files with
  | [] => ret []
  | file :: rest =>
      kwargs <- lift (kw_merge [("files", file); (key, observation_id)]
                        params) ;;
      response <- post_v1 endpoint kwargs ;;
      responses <- post_files endpoint key observation_id params rest ;;
      ret (response :: responses)
  end.

(** [upload(observation_id, photos=None, sounds=None, **params)] *)
Definition upload (observation_id photos sounds : value) (params : dict)
    : M (list value) :=
  let params := dict_set "raise_for_status" (PBool false) params in
  photo_responses <-
    post_files "observation_photos" "observation_photo[observation_id]"
      observation_id params (ensure_list photos) ;;
  sound_responses <-
    post_files "observation_sounds" "observation_sound[observation_id]"
      observation_id params (ensure_list sounds) ;;
  let responses := photo_responses ++ sound_responses in
  lift (result_map raise_for_status responses) ;;;
  lift (result_map json responses).

(** [delete_observation(observation_id, access_token=None, **params)];
    it returns [None]. *)
Definition delete_observation (observation_id access_token : value)
    (params : dict) : M value :=
  kwargs <- lift (kw_merge [("access_token", access_token);
                            ("raise_for_status", PBool false)] params) ;;
  response <- delete_v1 ("observations/" ++ py_str observation_id) kwargs ;;
  if Z.eqb (status_code response) 404 then raise ObservationNotFound
  else
    lift (raise_for_status response) ;;;
    ret PNone.

End Writes.
End V1.

(** ** Simulated services *)

Module Simulation.

(** An observation with nothing but its identifier. *)
Definition obs (id : Z) : value := PDict [("id", PInt id)].

(** A successful response with a page of results. *)
Definition page_of (total_results : Z) (results : list value) : result response :=
  Ok (mk_response 200
        (Some (PDict [("total_results", PInt total_results);
                      ("results", PList results)]))).

(** A service that plays a script: one response for each request, in
    order, and a failure of the connection once the script is over. *)
Definition scripted : Service := {|
  service_state := list (result response);
  serve := fun script _ =>
    match script with
    | [] => ([], Raise ConnectionError)
    | r :: script' => (script', r)
    end
|}.

(** A service that holds the observations [ids], in ascending order, and
    honours [id_above], [id] and [per_page]: a page holds the first
    [per_page] matching observations.  The total it reports is that of
    the matching observations above the cursor, or, with [whole_total],
    that of all the observations whatever the cursor. *)
Definition matching (ids : list Z) (req : request) : list Z :=
  filter (fun i =>
            match req_param req "id_above" with
            | Some (PInt c) => Z.ltb c i
            | _ => true
            end
            && match req_param req "id" with
               | Some (PInt j) => Z.eqb i j
               | _ => true
               end) ids.

Definition catalogue (whole_total : bool) (ids : list Z) : Service := {|
  service_state := unit;
  serve := fun _ req =>
    let found := matching ids req in
    let size :=
      match req_param req "per_page" with
      | Some (PInt n) => Z.to_nat n
      | _ => 30%nat
      end in
    (tt, page_of (Z.of_nat (List.length (if whole_total then ids else found)))
                 (map obs (firstn size found)))
|}.

(** Pages of two observations, a delay of one second. *)
Definition small_pages : Constants := {|
  PER_PAGE_RESULTS := 2;
  THROTTLING_DELAY := 1;
  V1_OBS_ORDER_BY_PROPERTIES := ["id"; "created_at"; "observed_on"]
|}.

Definition all_ints (v : value) : bool :=
  match v with
  | PList l => forallb (fun x => match x with PInt _ => true | _ => false end) l
  | _ => false
  end.

Definition plain_checks : RequestParams := {|
  is_int := fun v => match v with PInt _ => true | _ => false end;
  is_int_list := all_ints;
  validate_multiple_choice_param := fun params key choices =>
    match dict_get key params with
    | Some (PStr c) =>
        if existsb (String.eqb c) choices then Ok tt else Raise ValueError
    | _ => Ok tt
    end
|}.

Definition usual_fields : Fields := {|
  is_timestamp_field := fun k =>
    existsb (String.eqb k) ["created_at"; "updated_at"; "observed_on"];
  is_coordinate_field := fun k => String.eqb k "location"
|}.

(** What a consumer of the sequence of results has when it stops after
    [k] items: the items it took and the number of page fetches that have
    taken place by then.  [get_all_observations] hands the results over as
    a list, when it returns. *)
Definition consume {Sv : Service} (k : nat)
    (outcome : list event * service_state * run (list value))
    : option (list value * nat) :=
  match outcome with
  | (t, _, Done (Ok results)) =>
      if Nat.leb k (List.length results) then Some (firstn k results, fetches t)
      else None
  | _ => None
  end.

(** The number of pages of [size] items that hold [k] items. *)
Definition ceil_div (k size : nat) : nat := Nat.div (k + size - 1) size.

(** *** Runs against simulated services *)

(** One page of two observations, which is all there is. *)
Definition one_page : list (result response) := [page_of 2 [obs 1; obs 2]].

Definition one_page_run :=
  @NodeApi.get_all_observations scripted small_pages 1 PNone PNone [] one_page.

(** A first page without items, under a total of nine. *)
Definition empty_first_page : list (result response) := [page_of 9 []].

Definition empty_first_page_run :=
  @NodeApi.get_all_observations scripted small_pages 1 PNone PNone [] empty_first_page.

(** A second page whose only item has no identifier. *)
Definition page_without_id : list (result response) :=
  [page_of 9 [obs 1]; page_of 9 [PDict []]].

Definition page_without_id_run :=
  @NodeApi.get_all_observations scripted small_pages 5 PNone PNone [] page_without_id.

(** Three observations, fetched in pages of two. *)
Definition three_observations : Service := catalogue false [1; 2; 3].

Definition three_observations_run :=
  @NodeApi.get_all_observations three_observations small_pages 5 PNone PNone [] tt.

(** The same three observations, behind a service that reports the total
    of the whole result set on every page. *)
Definition whole_total : Service := catalogue true [1; 2; 3].

Definition whole_total_run (fuel : nat) :=
  @NodeApi.get_all_observations whole_total small_pages fuel PNone PNone [] tt.

(** The pagination parameters of these runs, before the first request and
    with the cursor on the last observation. *)
Definition plain_params : dict :=
  [("order_by", PStr "id"); ("order", PStr "asc"); ("per_page", PInt 2);
   ("user_agent", PNone)].

Definition params_above (c : Z) : dict := plain_params ++ [("id_above", PInt c)].

(** A call that passes [order] and [id_above] inside an entry [params] of
    the deprecated dict of parameters. *)
Definition smuggled_params : value :=
  PDict [("params", PDict [("order", PStr "desc"); ("id_above", PInt 7)])].

Definition smuggled_run :=
  @NodeApi.get_all_observations three_observations small_pages 5 smuggled_params
    PNone [] tt.

(** A call that pins the cursor: [id_above] and [order] inside an entry
    [params] of the deprecated dict of parameters. *)
Definition pinned : dict := [("id_above", PInt 0); ("order", PStr "desc")].

Definition pinned_run (fuel : nat) :=
  @NodeApi.get_all_observations three_observations small_pages fuel
    (PDict [("params", PDict pinned)]) PNone [] tt.

(** A taxon summary, and a place. *)
Definition taxon_summary : value :=
  PDict [("conservation_status",
          PDict [("status", PStr "EN"); ("created_at", PStr "2018-09-05")]);
         ("listed_taxon", PNone);
         ("wikipedia_summary", PStr "A weevil.")].

Definition taxon_summary_script : list (result response) :=
  [Ok (mk_response 200 (Some taxon_summary))].

(** A taxon summary of a taxon that has no conservation status. *)
Definition bare_summary : value :=
  PDict [("listed_taxon", PNone); ("wikipedia_summary", PStr "A weevil.")].

(** A converter that builds a new record and leaves the one it is handed
    as it was, and a converter that converts in place the record it is
    handed. *)
Definition builds_new : InPlace := {| argument_after := fun v => v |}.

Definition converts_in_place : InPlace := {|
  argument_after := convert_generic_timestamps (F := usual_fields)
|}.

Definition taxon_summary_run (IP : InPlace) (summary : value) :=
  @V1.get_observation_taxon_summary scripted usual_fields IP (PInt 7849808) []
    [Ok (mk_response 200 (Some summary))].

Definition place (location : value) : dict :=
  [("id", PInt 93735); ("location", location)].

Definition places_script : list (result response) :=
  [Ok (mk_response 200
         (Some (PDict [("total_results", PInt 1);
                       ("results", PList [PDict (place (PStr "abc"))])])))].

(** *** More services and runs *)

(** A service that gives the same response to every request. *)
Definition fixed (resp : response) : Service := {|
  service_state := unit;
  serve := fun _ _ => (tt, Ok resp)
|}.

(** Stand-ins for the formatting functions: a taxon is formatted as its
    name, the range of ranks is the pair of its bounds, flattening keeps a
    record as it is, and a feature collection lists its features. *)
Definition plain_format : ResponseFormat := {|
  format_taxon := fun taxon => py_getitem taxon "name";
  _get_rank_range := fun min_rank max_rank => Ok (PList [min_rank; max_rank]);
  flatten_nested_params := fun observation => Ok observation;
  as_geojson_feature_collection := fun features properties =>
    match result_map (fun feature => feature) features with
    | Ok l => Ok (PDict [("type", PStr "FeatureCollection");
                         ("features", PList l);
                         ("properties", properties)])
    | Raise e => Raise e
    end;
  ensure_list := fun v =>
    match v with
    | PNone => []
    | PList l => l
    | _ => [v]
    end;
  DEFAULT_OBSERVATION_ATTRS := PList [PStr "id"; PStr "species_guess"]
|}.

(** A first page, then a failure of the connection. *)
Definition broken_connection : list (result response) :=
  [page_of 9 [obs 1]; Raise ConnectionError].

Definition broken_connection_run :=
  @NodeApi.get_all_observations scripted small_pages 5 PNone PNone []
    broken_connection.

(** An error document under the status 500. *)
Definition error_document : response :=
  mk_response 500 (Some (PDict [("error", PStr "Internal server error");
                               ("status", PInt 500)])).

Definition error_document_run :=
  @NodeApi.get_all_observations scripted small_pages 1 PNone PNone []
    [Ok error_document].

(** A search restricted to a taxon, with pagination parameters of the
    caller's own. *)
Definition taxon_search : dict :=
  [("taxon_id", PInt 3); ("page", PInt 4); ("per_page", PInt 100)].

Definition taxon_search_run :=
  @NodeApi.get_all_observations three_observations small_pages 5 PNone
    (PStr "agent") taxon_search tt.

Definition geojson_run :=
  @NodeApi.get_geojson_observations three_observations small_pages
    plain_format 5 PNone [("mappable", PBool false)] tt.

(** Two photos and a sound, refused by the service. *)
Definition refused : response := mk_response 422 (Some PNone).

Definition refused_upload :=
  @V1.upload (fixed refused) plain_format (PInt 1234)
    (PList [PStr "a.jpg"; PStr "b.jpg"]) (PStr "c.mp3")
    [("access_token", PStr "token")] tt.

(** Taxa to choose from. *)
Definition taxa_response : response :=
  mk_response 200
    (Some (PDict [("total_results", PInt 2);
                  ("results", PList [PDict [("id", PInt 1); ("name", PStr "Lixus")];
                                     PDict [("id", PInt 2); ("name", PStr "Danaus")]])])).

(** Places nearby, with a curated place and nothing from the community. *)
Definition nearby_response : response :=
  mk_response 200
    (Some (PDict [("total_results", PInt 1);
                  ("results", PDict [("standard", PList [PDict (place PNone)]);
                                     ("other", PInt 0)])])).

End Simulation.

(** * Properties

    ** Facts about dicts and lists *)

Section DictFacts.

Lemma dict_get_set_same (k : string) (v : value) (d : dict) :
  dict_get k (dict_set k v d) = Some v.
Proof.
  induction d as [|[k' v'] d IH]; simpl.
  - now rewrite String.eqb_refl.
  - destruct (String.eqb k k') eqn:E; simpl.
    + now rewrite String.eqb_refl.
    + now rewrite E.
Qed.

Lemma dict_get_set_other (k k' : string) (v : value) (d : dict) :
  k <> k' -> dict_get k (dict_set k' v d) = dict_get k d.
Proof.
  intros Hne. induction d as [|[k0 v0] d IH]; simpl.
  - destruct (String.eqb_spec k k'); congruence.
  - destruct (String.eqb_spec k' k0) as [->|]; simpl.
    + destruct (String.eqb_spec k k0); congruence.
    + destruct (String.eqb_spec k k0); auto.
Qed.

Lemma dict_get_del_other (k k' : string) (d : dict) :
  k <> k' -> dict_get k (dict_del k' d) = dict_get k d.
Proof.
  intros Hne. induction d as [|[k0 v0] d IH]; simpl; auto.
  destruct (String.eqb_spec k' k0) as [->|]; simpl.
  - destruct (String.eqb_spec k k0); congruence.
  - destruct (String.eqb_spec k k0); auto.
Qed.

Lemma dict_get_del_same (k : string) (d : dict) :
  dict_get k (dict_del k d) = None.
Proof.
  induction d as [|[k0 v0] d IH]; simpl; auto.
  destruct (String.eqb_spec k k0) as [->|]; simpl; auto.
  destruct (String.eqb_spec k k0); congruence.
Qed.

Lemma dict_set_set_same (k : string) (v v' : value) (d : dict) :
  dict_set k v (dict_set k v' d) = dict_set k v d.
Proof.
  induction d as [|[k0 v0] d IH]; simpl.
  - now rewrite String.eqb_refl.
  - destruct (String.eqb k k0) eqn:E; simpl.
    + now rewrite String.eqb_refl.
    + rewrite E. congruence.
Qed.

End DictFacts.

Lemma py_last_app (l l' : list value) :
  l' <> [] -> py_last (l ++ l') = py_last l'.
Proof.
  intros Hne. unfold py_last. rewrite rev_app_distr.
  destruct (rev l') eqn:E; simpl; auto.
  apply (f_equal (@rev value)) in E. rewrite rev_involutive in E. simpl in E.
  congruence.
Qed.

Lemma py_last_In (l : list value) (x : value) : py_last l = Ok x -> In x l.
Proof.
  unfold py_last. destruct (rev l) eqn:E; [discriminate|].
  intros [= <-]. apply in_rev. rewrite E. now left.
Qed.

(** ** The loop of [get_all_observations] *)

Import NodeApi.

Section Pagination.
Context {Sv : Service} {K : Constants} {RP : RequestParams} {F : Fields}.

(** A call of [get_observations] makes at most one request; when it
    returns, it has made one, and returns the body of the response. *)
Lemma get_observations_kw_inv (d : dict) (s s' : service_state)
    (t : list event) (r : result value) :
  get_observations_kw d s = (t, s', r) ->
  (t = [] /\ s' = s /\ exists e, r = Raise e)
  \/ exists req res,
       t = [Fetch req res] /\ serve s req = (s', res)
       /\ (dict_get "params" d = None ->
           forall k, req_param req k
                     = dict_get k (dict_del "user_agent" (dict_del "params" d)))
       /\ match r with
          | Ok page_obs => exists resp, res = Ok resp /\ body resp = Some page_obs
          | Raise _ => True
          end.
Proof.
  unfold get_observations_kw, get_observations, make_inaturalist_api_get_call.
  unfold bind, lift, ret, perform.
  destruct (dict_get "params" d) as [p|] eqn:Hp.
  - destruct (truthy p).
    + destruct (py_update _ p) as [kw|e].
      * destruct (serve s _) as [s1 res] eqn:Hs.
        intros H. right. eexists _, res. 
        destruct res as [resp|e]; simpl in H.
        -- unfold json in H. destruct (body resp) eqn:Hb;
             injection H as <- <- <-; (repeat split; eauto; try discriminate).
        -- injection H as <- <- <-. repeat split; eauto; discriminate.
      * intros [= <- <- <-]. left. eauto.
    + destruct (serve s _) as [s1 res] eqn:Hs.
      intros H. right. eexists _, res.
      destruct res as [resp|e]; simpl in H.
      * unfold json in H. destruct (body resp) eqn:Hb;
          injection H as <- <- <-; (repeat split; eauto; try discriminate).
      * injection H as <- <- <-. repeat split; eauto; discriminate.
  - simpl. destruct (serve s _) as [s1 res] eqn:Hs.
    intros H. right. eexists _, res.
    destruct res as [resp|e]; simpl in H.
    + unfold json in H. destruct (body resp) eqn:Hb;
        injection H as <- <- <-; (repeat split; eauto).
    + injection H as <- <- <-. repeat split; eauto.
Qed.

(** One round of the loop, read off its outcome: it makes no request and
    raises; or it makes one request and then raises, returns the results,
    or sleeps and either raises on the cursor or goes round again. *)
Lemma page_step_inv (pp : dict) (results : list value) (c : value)
    (s s' : service_state) (t : list event)
    (r : result (list value + page_state)) :
  page_step (pp, results, c) s = (t, s', r) ->
  let pp' := dict_set "id_above" c pp in
  (t = [] /\ exists e, r = Raise e)
  \/ exists req res,
       serve s req = (s', res)
       /\ (dict_get "params" pp' = None ->
           forall k, req_param req k
                     = dict_get k (dict_del "user_agent" (dict_del "params" pp')))
       /\ ((t = [Fetch req res] /\ exists e, r = Raise e)
           \/ exists items,
                page_items res = Some items
                /\ ((t = [Fetch req res] /\ r = Ok (inl (results ++ items)))
                    \/ (t = [Fetch req res; Sleep THROTTLING_DELAY]
                        /\ ((exists e, r = Raise e
                               /\ (py_last (results ++ items) = Raise e
                                   \/ exists last,
                                        py_last (results ++ items) = Ok last
                                        /\ py_getitem last "id" = Raise e))
                            \/ exists last c',
                                 py_last (results ++ items) = Ok last
                                 /\ py_getitem last "id" = Ok c'
                                 /\ r = Ok (inr (pp', results ++ items, c')))))).
Proof.
  intros Hstep pp'. unfold page_step in Hstep. fold pp' in Hstep.
  unfold bind, lift, ret, sleep in Hstep.
  destruct (get_observations_kw pp' s) as [[t0 s0] r0] eqn:Hcall.
  apply get_observations_kw_inv in Hcall
    as [(-> & -> & e & ->)|(req & res & -> & Hserve & Hparams & Hbody)].
  { injection Hstep as <- <- <-. left. eauto. }
  right. exists req, res.
  assert (forall P : Prop, P -> serve s req = (s0, res) /\
            ((dict_get "params" pp' = None ->
              forall k, req_param req k
                = dict_get k (dict_del "user_agent" (dict_del "params" pp')))
             /\ P)) as Hpack by auto.
  destruct r0 as [page_obs|e].
  2:{ injection Hstep as <- <- <-. apply Hpack. left. eauto. }
  destruct Hbody as (resp & -> & Hbody).
  destruct (py_get page_obs "results" (PList [])) as [page|e] eqn:Hget.
  2:{ injection Hstep as <- <- <-. apply Hpack. left. eauto. }
  destruct (py_list_add results page) as [rs|e] eqn:Hadd.
  2:{ injection Hstep as <- <- <-. apply Hpack. left. eauto. }
  assert (exists items, page = PList items /\ rs = results ++ items)
    as (items & -> & ->).
  { destruct page; try discriminate. injection Hadd as <-. eauto. }
  assert (page_items (Ok resp) = Some items) as Hitems.
  { unfold page_items. now rewrite Hbody, Hget. }
  destruct (py_getitem page_obs "total_results") as [total|e].
  2:{ injection Hstep as <- <- <-. apply Hpack. left. eauto. }
  destruct (py_le_int total PER_PAGE_RESULTS) as [[|]|e].
  3:{ injection Hstep as <- <- <-. apply Hpack. left. eauto. }
  { injection Hstep as <- <- <-. apply Hpack. right. exists items. auto. }
  destruct (py_last (results ++ items)) as [last|e] eqn:Hlast.
  2:{ injection Hstep as <- <- <-. apply Hpack. right. exists items.
      split; [exact Hitems|]. right. split; eauto. }
  destruct (py_getitem last "id") as [c'|e] eqn:Hid.
  2:{ injection Hstep as <- <- <-. apply Hpack. right. exists items.
      split; [exact Hitems|]. right. split; eauto 8. }
  injection Hstep as <- <- <-. apply Hpack. right. exists items.
  split; [exact Hitems|]. right. split; eauto 8.
Qed.


(** *** The delays of a run *)

(** Every run of the loop is paced, and it has as many delays as fetches,
    or one less; one less when it returns. *)
Lemma loop_paced (fuel : nat) (st : page_state) (s s' : service_state)
    (t : list event) (r : run (list value)) :
  while_true fuel page_step st s = (t, s', r) ->
  paced THROTTLING_DELAY t
  /\ match r with
     | Done (Ok _) => fetches t = S (sleeps t)
     | _ => (sleeps t <= fetches t <= S (sleeps t))%nat
     end.
Proof.
  revert st s s' t r.
  induction fuel as [|fuel IH]; intros [[pp results] c] s s' t r;
    cbn [while_true].
  - intros [= <- <- <-]. simpl. split; [exact I|]. unfold fetches, sleeps. simpl. lia.
  - destruct (page_step (pp, results, c) s) as [[t1 s1] r1] eqn:Hstep.
    apply page_step_inv in Hstep. cbv zeta in Hstep.
    destruct Hstep as [(-> & e & ->)|(req & res & _ & _ & Hcases)].
    { intros [= <- <- <-]. simpl. split; [exact I|]. unfold fetches, sleeps. simpl. lia. }
    destruct Hcases as [(-> & e & ->)|(items & _ & Hcases)].
    { intros [= <- <- <-]. simpl. split; [exact I|]. unfold fetches, sleeps. simpl. lia. }
    destruct Hcases as [(-> & ->)|(-> & Hcases)].
    { intros [= <- <- <-]. simpl. split; [exact I|]. reflexivity. }
    destruct Hcases as [(e & -> & _)|(last & c' & _ & _ & ->)].
    { intros [= <- <- <-]. simpl. split; [auto|]. unfold fetches, sleeps. simpl. lia. }
    destruct (while_true fuel page_step _ s1) as [[t2 s2] r2] eqn:Hrest.
    apply IH in Hrest as [Hpaced Hcount].
    intros [= <- <- <-]. simpl. split; [auto|].
    unfold fetches, sleeps in *. simpl.
    destruct r2 as [[?|?]|]; lia.
Qed.


(** *** The results of a run *)

(** When the loop returns, it returns the results it started with and,
    after them, the pages it fetched; each fetch brought one page. *)
Lemma loop_results (fuel : nat) (pp : dict) (results : list value) (c : value)
    (s s' : service_state) (t : list event) (rs : list value) :
  while_true fuel page_step (pp, results, c) s = (t, s', Done (Ok rs)) ->
  rs = results ++ List.concat (pages t)
  /\ List.length (pages t) = fetches t.
Proof.
  revert pp results c s s' t rs.
  induction fuel as [|fuel IH]; intros pp results c s s' t rs;
    cbn [while_true]; [discriminate|].
  destruct (page_step (pp, results, c) s) as [[t1 s1] r1] eqn:Hstep.
  apply page_step_inv in Hstep. cbv zeta in Hstep.
  destruct Hstep as [(-> & e & ->)|(req & res & _ & _ & Hcases)];
    [discriminate|].
  destruct Hcases as [(-> & e & ->)|(items & Hitems & Hcases)];
    [discriminate|].
  destruct Hcases as [(-> & ->)|(-> & Hcases)].
  { intros [= <- <- <-]. unfold fetches. simpl. rewrite Hitems. simpl.
    now rewrite app_nil_r. }
  destruct Hcases as [(e & -> & _)|(last & c' & _ & _ & ->)]; [discriminate|].
  destruct (while_true fuel page_step _ s1) as [[t2 s2] r2] eqn:Hrest.
  intros [= <- <- ->]. apply IH in Hrest as [-> Hlen].
  unfold fetches in *. simpl. rewrite Hitems. simpl.
  now rewrite app_assoc, Hlen.
Qed.

(** *** The cursor of a run *)

Lemma keyset_any (c : value) (t : list event) :
  keyset (Cursor c) t -> keyset AnyCursor t.
Proof.
  induction t as [|[req res|d] t IH]; simpl; auto.
  intros (? & ? & _ & ?). auto.
Qed.

(** The requests of a run ask for ascending identifiers and carry the
    cursor of the loop, as long as the pagination parameters hold no entry
    [params], which the call of [get_observations] would merge over
    them. *)
Lemma loop_keyset (fuel : nat) (pp : dict) (results : list value) (c : value)
    (s s' : service_state) (t : list event) (r : run (list value)) :
  dict_get "params" pp = None ->
  dict_get "order_by" pp = Some (PStr "id") ->
  dict_get "order" pp = Some (PStr "asc") ->
  while_true fuel page_step (pp, results, c) s = (t, s', r) ->
  keyset (Cursor c) t.
Proof.
  revert pp results c s s' t r.
  induction fuel as [|fuel IH]; intros pp results c s s' t r Hnone Hby Hasc;
    cbn [while_true].
  { intros [= <- <- <-]. exact I. }
  destruct (page_step (pp, results, c) s) as [[t1 s1] r1] eqn:Hstep.
  apply page_step_inv in Hstep. cbv zeta in Hstep.
  destruct Hstep as [(-> & e & ->)|(req & res & _ & Hparams & Hcases)].
  { intros [= <- <- <-]. exact I. }
  assert (dict_get "params" (dict_set "id_above" c pp) = None) as Hnone'
    by (rewrite dict_get_set_other; [exact Hnone|discriminate]).
  specialize (Hparams Hnone').
  assert (req_param req "order_by" = Some (PStr "id")
          /\ req_param req "order" = Some (PStr "asc")
          /\ req_param req "id_above" = Some c) as (Hq1 & Hq2 & Hq3).
  { rewrite !Hparams, !dict_get_del_other by discriminate.
    rewrite dict_get_set_same, !dict_get_set_other by discriminate. auto. }
  destruct Hcases as [(-> & e & ->)|(items & Hitems & Hcases)].
  { intros [= <- <- <-]. simpl. auto. }
  destruct Hcases as [(-> & ->)|(-> & Hcases)].
  { intros [= <- <- <-]. simpl. auto. }
  destruct Hcases as [(e & -> & _)|(last & c' & Hlast & Hid & ->)].
  { intros [= <- <- <-]. simpl. auto. }
  destruct (while_true fuel page_step _ s1) as [[t2 s2] r2] eqn:Hrest.
  intros [= <- <- <-].
  apply IH in Hrest;
    [|rewrite dict_get_set_other by discriminate; assumption..].
  simpl. repeat split; auto.
  unfold next_cursor. rewrite Hitems.
  destruct items as [|x items].
  - simpl. now apply keyset_any with c'.
  - rewrite py_last_app in Hlast by discriminate.
    now rewrite Hlast, Hid.
Qed.

(** A fetch inside a trace meets the requirement of keyset pagination,
    and the rest of the trace starts from the cursor of its page. *)
Lemma keyset_at (e : expectation) (t1 t2 : list event) (req : request)
    (res : result response) :
  keyset e (t1 ++ Fetch req res :: t2) ->
  req_param req "order_by" = Some (PStr "id")
  /\ req_param req "order" = Some (PStr "asc")
  /\ keyset (next_cursor res) t2.
Proof.
  revert e. induction t1 as [|[req' res'|d] t1 IH]; intros e; simpl.
  - intros (? & ? & _ & ?). auto.
  - intros (_ & _ & _ & H). eauto.
  - eauto.
Qed.


(** *** Ascending pages *)

Lemma item_id_getitem (x : value) (i : Z) :
  item_id x = Some i -> py_getitem x "id" = Ok (PInt i).
Proof.
  unfold item_id. destruct (py_getitem x "id") as [[]|]; congruence.
Qed.

Lemma ascending_above_last (c : Z) (items : list value) :
  ascending_above c items -> items <> [] ->
  exists last, py_last items = Ok last /\ item_id last = Some (last_id c items).
Proof.
  revert c. induction items as [|x items IH]; intros c Hasc Hne; [congruence|].
  destruct Hasc as (i & Hi & _ & Hasc). simpl. rewrite Hi.
  destruct items as [|y items].
  - exists x. auto.
  - destruct (IH i Hasc) as (last & Hlast & Hid); [discriminate|].
    exists last. split; [|exact Hid].
    change (x :: y :: items) with ([x] ++ y :: items).
    now rewrite py_last_app by discriminate.
Qed.

Lemma ascending_above_bounds (c : Z) (items : list value) (x : value) (i : Z) :
  ascending_above c items -> In x items -> item_id x = Some i ->
  c < i <= last_id c items.
Proof.
  revert c. induction items as [|y items IH]; intros c Hasc Hin Hid; [easy|].
  destruct Hasc as (j & Hj & Hcj & Hasc). simpl. rewrite Hj.
  assert (j <= last_id j items) as Hmono.
  { clear -Hasc. revert j Hasc. induction items as [|z items IH]; intros j Hasc;
      simpl; [lia|].
    destruct Hasc as (k & -> & Hjk & Hasc). specialize (IH k Hasc). lia. }
  destruct Hin as [->|Hin].
  - assert (i = j) as -> by congruence. lia.
  - specialize (IH j Hasc Hin Hid). lia.
Qed.

(** Against a service that honours keyset pagination, the pages of a run
    list items in strictly ascending order, from one page to the next. *)
Lemma loop_increasing (fuel : nat) (pp : dict) (results : list value) (z : Z)
    (s s' : service_state) (t : list event) (r : run (list value)) :
  honours_keyset ->
  dict_get "params" pp = None ->
  dict_get "order_by" pp = Some (PStr "id") ->
  dict_get "order" pp = Some (PStr "asc") ->
  (forall last, py_last results = Ok last -> item_id last = Some z) ->
  while_true fuel page_step (pp, results, PInt z) s = (t, s', r) ->
  increasing z t.
Proof.
  intros Hhonest. revert pp results z s s' t r.
  induction fuel as [|fuel IH]; intros pp results z s s' t r Hnone Hby Hasc Hinv;
    cbn [while_true].
  { intros [= <- <- <-]. exact I. }
  destruct (page_step (pp, results, PInt z) s) as [[t1 s1] r1] eqn:Hstep.
  apply page_step_inv in Hstep. cbv zeta in Hstep.
  destruct Hstep as [(-> & e & ->)|(req & res & Hserve & Hparams & Hcases)].
  { intros [= <- <- <-]. exact I. }
  assert (dict_get "params" (dict_set "id_above" (PInt z) pp) = None) as Hnone'
    by (rewrite dict_get_set_other; [exact Hnone|discriminate]).
  specialize (Hparams Hnone').
  assert (match page_items res with
          | Some items => ascending_above z items
          | None => True
          end) as Hpage.
  { apply (Hhonest s s1 req res z Hserve);
      rewrite Hparams, !dict_get_del_other by discriminate.
    - apply dict_get_set_same.
    - now rewrite dict_get_set_other by discriminate.
    - now rewrite dict_get_set_other by discriminate. }
  destruct Hcases as [(-> & e & ->)|(items & Hitems & Hcases)].
  { intros [= <- <- <-]. simpl. destruct (page_items res); auto. }
  rewrite Hitems in Hpage.
  destruct Hcases as [(-> & ->)|(-> & Hcases)].
  { intros [= <- <- <-]. simpl. rewrite Hitems. auto. }
  destruct Hcases as [(e & -> & _)|(last & c' & Hlast & Hid & ->)].
  { intros [= <- <- <-]. simpl. rewrite Hitems. auto. }
  destruct (while_true fuel page_step _ s1) as [[t2 s2] r2] eqn:Hrest.
  intros [= <- <- <-]. simpl. rewrite Hitems. split; [exact Hpage|].
  assert (item_id last = Some (last_id z items)) as Hlast_id.
  { destruct items as [|x items].
    - rewrite app_nil_r in Hlast. simpl. auto.
    - rewrite py_last_app in Hlast by discriminate.
      destruct (ascending_above_last z (x :: items) Hpage) as (l & Hl & Hlid);
        [discriminate|]. congruence. }
  assert (c' = PInt (last_id z items)) as ->.
  { apply item_id_getitem in Hlast_id. congruence. }
  apply IH in Hrest; auto.
  - now rewrite dict_get_set_other by discriminate.
  - now rewrite dict_get_set_other by discriminate.
  - intros l Hl. congruence.
Qed.

(** Two fetches in a row inside an ascending trace: the items of the
    second page are above those of the first. *)
Lemma increasing_at (c : Z) (t1 t2 : list event) (req1 req2 : request)
    (res1 res2 : result response) (d : Z) (items1 items2 : list value) :
  increasing c (t1 ++ Fetch req1 res1 :: Sleep d :: Fetch req2 res2 :: t2) ->
  page_items res1 = Some items1 ->
  page_items res2 = Some items2 ->
  exists c1, ascending_above c1 items1
             /\ ascending_above (last_id c1 items1) items2.
Proof.
  intros H H1 H2. revert c H.
  induction t1 as [|[req res|d'] t1 IH]; intros c; simpl.
  - rewrite H1, H2. intros (Ha & Hb & _). eauto.
  - destruct (page_items res).
    + intros (_ & H). eauto.
    + intros H. destruct t1; discriminate.
  - eauto.
Qed.


(** *** The pagination parameters *)

Lemma pagination_params_of_order (params user_agent : value) (kwargs pp : dict) :
  pagination_params_of params user_agent kwargs = Ok pp ->
  dict_get "order_by" pp = Some (PStr "id")
  /\ dict_get "order" pp = Some (PStr "asc").
Proof.
  unfold pagination_params_of.
  destruct (if truthy params then _ else _) as [kw|e]; [|discriminate].
  intros [= <-]. unfold dict_update. cbn [fold_left fst snd].
  split; rewrite !dict_get_set_other by discriminate;
    apply dict_get_set_same.
Qed.

(** *** Properties of [get_all_observations] *)

(** C2.  When the first page reports a total that does not exceed the
    page size, [get_all_observations] returns the items of that page
    after this one fetch, and without any delay. *)
Theorem single_page_is_fetched_once (fuel : nat) (params user_agent : value)
    (kwargs pp : dict) (s s' : service_state) (t : list event)
    (page_obs : value) (items : list value) (n : Z) :
  pagination_params_of params user_agent kwargs = Ok pp ->
  get_observations_kw (dict_set "id_above" (PInt 0) pp) s
    = (t, s', Ok page_obs) ->
  py_get page_obs "results" (PList []) = Ok (PList items) ->
  py_getitem page_obs "total_results" = Ok (PInt n) ->
  n <= PER_PAGE_RESULTS ->
  get_all_observations (S fuel) params user_agent kwargs s
    = (t, s', Done (Ok items))
  /\ fetches t = 1%nat /\ sleeps t = 0%nat.
Proof.
  intros Hpp Hcall Hres Htot Hle. split.
  - unfold get_all_observations. rewrite Hpp. cbn [while_true].
    unfold page_step, bind, lift, ret. rewrite Hcall, Hres. simpl.
    rewrite Htot. simpl.
    assert (Z.leb n PER_PAGE_RESULTS = true) as -> by (apply Z.leb_le; lia).
    now rewrite !app_nil_r.
  - apply get_observations_kw_inv in Hcall
      as [(_ & _ & e & [=])|(req & res & -> & _)].
    split; reflexivity.
Qed.

(** C10.  When the first page holds no item and reports a total above
    the page size, [get_all_observations] sleeps and then raises
    [IndexError], from [results[-1]] on the empty list of results. *)
Theorem empty_first_page_raises_IndexError (fuel : nat)
    (params user_agent : value) (kwargs pp : dict) (s s' : service_state)
    (t : list event) (page_obs : value) (n : Z) :
  pagination_params_of params user_agent kwargs = Ok pp ->
  get_observations_kw (dict_set "id_above" (PInt 0) pp) s
    = (t, s', Ok page_obs) ->
  py_get page_obs "results" (PList []) = Ok (PList []) ->
  py_getitem page_obs "total_results" = Ok (PInt n) ->
  PER_PAGE_RESULTS < n ->
  get_all_observations (S fuel) params user_agent kwargs s
    = (t ++ [Sleep THROTTLING_DELAY], s', Done (Raise IndexError)).
Proof.
  intros Hpp Hcall Hres Htot Hlt.
  unfold get_all_observations. rewrite Hpp. cbn [while_true].
  unfold page_step, bind, lift, ret, sleep. rewrite Hcall, Hres. simpl.
  rewrite Htot. simpl.
  assert (Z.leb n PER_PAGE_RESULTS = false) as -> by (apply Z.leb_gt; lia).
  reflexivity.
Qed.

(** X14.  Let the parameters of the call hold no entry named [params].
    Then every request of [get_all_observations] asks for [order_by=id]
    and [order=asc]; after a page that is not empty, the next request
    carries as [id_above] the [id] of the last item of that page; and,
    against a service that honours these parameters, every identifier of
    the next page is above every identifier of the page before it.  Two
    fetches in a row are always one delay apart, which is how they are
    picked out of the trace here. *)
Theorem keyset_pagination (fuel : nat) (params user_agent : value)
    (kwargs pp : dict) (s s' : service_state) (t : list event)
    (r : run (list value)) :
  pagination_params_of params user_agent kwargs = Ok pp ->
  dict_get "params" pp = None ->
  get_all_observations fuel params user_agent kwargs s = (t, s', r) ->
  (forall t1 req res t2,
      t = t1 ++ Fetch req res :: t2 ->
      req_param req "order_by" = Some (PStr "id")
      /\ req_param req "order" = Some (PStr "asc"))
  /\ (forall t1 req1 res1 d req2 res2 t2 items last,
        t = t1 ++ Fetch req1 res1 :: Sleep d :: Fetch req2 res2 :: t2 ->
        page_items res1 = Some items ->
        py_last items = Ok last ->
        exists c, py_getitem last "id" = Ok c
                  /\ req_param req2 "id_above" = Some c)
  /\ (honours_keyset ->
      forall t1 req1 res1 d req2 res2 t2 items1 items2 x y i j,
        t = t1 ++ Fetch req1 res1 :: Sleep d :: Fetch req2 res2 :: t2 ->
        page_items res1 = Some items1 ->
        page_items res2 = Some items2 ->
        In x items1 -> In y items2 ->
        item_id x = Some i -> item_id y = Some j ->
        i < j).
Proof.
  intros Hpp Hnone Hrun.
  destruct (pagination_params_of_order _ _ _ _ Hpp) as [Hby Hasc].
  unfold get_all_observations in Hrun. rewrite Hpp in Hrun.
  pose proof (loop_keyset _ _ _ _ _ _ _ _ Hnone Hby Hasc Hrun) as Hkey.
  split; [|split].
  - intros t1 req res t2 ->. apply keyset_at in Hkey. tauto.
  - intros t1 req1 res1 d req2 res2 t2 items last -> Hitems Hlast.
    apply keyset_at in Hkey as (_ & _ & Hnext).
    unfold next_cursor in Hnext. rewrite Hitems, Hlast in Hnext.
    simpl in Hnext. destruct (py_getitem last "id") as [c|e].
    + exists c. tauto.
    + tauto.
  - intros Hhonest t1 req1 res1 d req2 res2 t2 items1 items2 x y i j
      -> H1 H2 Hx Hy Hi Hj.
    assert (increasing 0 (t1 ++ Fetch req1 res1 :: Sleep d
                             :: Fetch req2 res2 :: t2)) as Hinc.
    { eapply loop_increasing with (results := []);
        [exact Hhonest|exact Hnone|exact Hby|exact Hasc| |exact Hrun].
      unfold py_last. simpl. discriminate. }
    destruct (increasing_at _ _ _ _ _ _ _ _ _ _ Hinc H1 H2) as (c1 & Ha & Hb).
    pose proof (ascending_above_bounds _ _ _ _ Ha Hx Hi).
    pose proof (ascending_above_bounds _ _ _ _ Hb Hy Hj).
    lia.
Qed.

(** C4, as amended.  Every run of [get_all_observations] is paced: it
    starts with a fetch, never with a delay, and between two fetches in a
    row lies exactly one delay of [THROTTLING_DELAY]; a run that returns
    after n fetches has had n - 1 delays.  A run that does not return has
    had as many delays as fetches, or one less. *)
Theorem delays_separate_fetches (fuel : nat) (params user_agent : value)
    (kwargs : dict) (s : service_state) :
  let '(t, _, r) := get_all_observations fuel params user_agent kwargs s in
  paced THROTTLING_DELAY t
  /\ match r with
     | Done (Ok _) => fetches t = S (sleeps t)
     | _ => (sleeps t <= fetches t <= S (sleeps t))%nat
     end.
Proof.
  unfold get_all_observations.
  destruct (pagination_params_of params user_agent kwargs) as [pp|e].
  - destruct (while_true fuel page_step _ s) as [[t s'] r] eqn:Hrun.
    exact (loop_paced _ _ _ _ _ _ Hrun).
  - simpl. split; [exact I|]. unfold fetches, sleeps. simpl. lia.
Qed.

(** C5, as amended.  [get_all_observations] is eager: it hands over its
    results when it returns, as one list, which is the pages it fetched
    put end to end, one fetch for each page.  A consumer that stops after
    [k] items of this list gets them after all the fetches of the run,
    whatever [k] is. *)
Theorem results_come_after_all_fetches (fuel : nat)
    (params user_agent : value) (kwargs : dict) (s s' : service_state)
    (t : list event) (results : list value) :
  get_all_observations fuel params user_agent kwargs s
    = (t, s', Done (Ok results)) ->
  results = List.concat (pages t)
  /\ List.length (pages t) = fetches t
  /\ forall k, (k <= List.length results)%nat ->
       Simulation.consume k
         (get_all_observations fuel params user_agent kwargs s)
       = Some (firstn k results, fetches t).
Proof.
  intros Hrun. split; [|split].
  - unfold get_all_observations in Hrun.
    destruct (pagination_params_of params user_agent kwargs); [|discriminate].
    now apply loop_results in Hrun as [-> _].
  - unfold get_all_observations in Hrun.
    destruct (pagination_params_of params user_agent kwargs); [|discriminate].
    now apply loop_results in Hrun as [_ ?].
  - intros k Hk. rewrite Hrun. unfold Simulation.consume.
    now apply Nat.leb_le in Hk as ->.
Qed.

End Pagination.




(** ** Normalisation *)

Section Normalisation.

Lemma convert_fields_dict (selected : string -> bool)
    (try : value -> option value) (d : dict) :
  convert_fields selected try (PDict d)
  = PDict (map (convert_field selected try) d).
Proof.
  simpl. f_equal. induction d as [|[k x] d IH]; simpl; [reflexivity|].
  now rewrite IH.
Qed.

(** A pass changes no number and no string, and turns nothing else into
    one: whether a value has the pattern of a coordinate pair, or of a
    timestamp, is the same before and after any pass. *)
Lemma coordinate_convert_fields selected try (v : value) :
  coordinate (convert_fields selected try v) = coordinate v.
Proof. destruct v; reflexivity. Qed.

Lemma try_coordinates_convert_fields selected try (v : value) :
  try_coordinates (convert_fields selected try v) = try_coordinates v.
Proof.
  destruct v as [| | | | | |l|d]; try reflexivity.
  destruct l as [|a [|b [|c l]]]; try reflexivity.
  cbn [convert_fields map try_coordinates].
  now rewrite !coordinate_convert_fields.
Qed.

Lemma try_timestamp_convert_fields selected try (v : value) :
  try_timestamp (convert_fields selected try v) = try_timestamp v.
Proof. destruct v; reflexivity. Qed.

(** What a conversion answers is a pair of floats, or a timestamp. *)
Lemma try_coordinates_Some (v w : value) :
  try_coordinates v = Some w -> exists x y, w = PList [PFloat x; PFloat y].
Proof.
  destruct v as [| | | |s| |l|d]; try discriminate; simpl.
  - destruct (split_on _ s) as [|a [|b [|c l]]]; try discriminate.
    destruct (parse_float a); [|discriminate].
    destruct (parse_float b); [|discriminate].
    intros [= <-]. eauto.
  - destruct l as [|a [|b [|c l]]]; try discriminate.
    destruct (coordinate a); [|discriminate].
    destruct (coordinate b); [|discriminate].
    intros [= <-]. eauto.
Qed.

Lemma try_timestamp_Some (v w : value) :
  try_timestamp v = Some w -> exists t, w = PDatetime t.
Proof.
  destruct v; try discriminate; simpl.
  destruct (parse_iso8601 s); [|discriminate]. intros [= <-]. eauto.
Qed.

(** One pass is idempotent, for a conversion whose answers are left alone
    by the pass and convert to themselves if they convert at all. *)
Lemma convert_fields_idempotent (selected : string -> bool)
    (try : value -> option value) :
  (forall sel' try' v, try (convert_fields sel' try' v) = try v) ->
  (forall v w, try v = Some w ->
               convert_fields selected try w = w
               /\ (try w = None \/ try w = Some w)) ->
  forall v,
    convert_fields selected try (convert_fields selected try v)
    = convert_fields selected try v.
Proof.
  intros Hshape Hout.
  induction v as [| | | | | |l IH|d IH] using value_nested_ind;
    try reflexivity.
  - cbn [convert_fields]. f_equal. rewrite map_map.
    apply map_ext_Forall. exact IH.
  - rewrite !convert_fields_dict. f_equal. rewrite map_map.
    apply map_ext_Forall. eapply Forall_impl; [|exact IH].
    intros [k x] Hx. unfold convert_field. cbn [fst snd] in *. f_equal.
    destruct (selected k); cbn match.
    + destruct (try x) as [w|] eqn:Hw.
      * destruct (Hout _ _ Hw) as [Hfix [-> | ->]]; auto.
      * now rewrite Hshape, Hw.
    + exact Hx.
Qed.

Section WithFields.
Context {F : Fields}.

Lemma convert_all_timestamps_idempotent (v : value) :
  convert_all_timestamps (convert_all_timestamps v) = convert_all_timestamps v.
Proof.
  apply convert_fields_idempotent.
  - intros. apply try_timestamp_convert_fields.
  - intros x w Hw. apply try_timestamp_Some in Hw as [t ->]. auto.
Qed.

(** One field of a record, through the two passes and through them
    again. *)
Lemma normalize_field (k : string) (x : value) :
  normalize (normalize x) = normalize x ->
  convert_field is_timestamp_field try_timestamp
    (convert_field is_coordinate_field try_coordinates
       (convert_field is_timestamp_field try_timestamp
          (convert_field is_coordinate_field try_coordinates (k, x))))
  = convert_field is_timestamp_field try_timestamp
      (convert_field is_coordinate_field try_coordinates (k, x)).
Proof.
  unfold normalize, convert_all_timestamps, convert_all_coordinates.
  intros IH. unfold convert_field. cbn [fst snd]. f_equal.
  destruct (if is_coordinate_field k then try_coordinates x else None)
    as [w|] eqn:Hc.
  - (* the field is converted to a pair of floats *)
    assert (try_coordinates x = Some w) as Hw
      by (destruct (is_coordinate_field k); [exact Hc|discriminate]).
    destruct (try_coordinates_Some _ _ Hw) as (a & b & ->).
    assert (is_coordinate_field k = true) as ->
      by (destruct (is_coordinate_field k); [reflexivity|discriminate]).
    destruct (is_timestamp_field k); reflexivity.
  - (* the coordinate pass searches the value *)
    assert ((if is_coordinate_field k
             then try_coordinates
                    (convert_fields is_timestamp_field try_timestamp
                       (convert_fields is_coordinate_field try_coordinates x))
             else None) = None) as Hc'.
    { destruct (is_coordinate_field k); [|reflexivity].
      now rewrite !try_coordinates_convert_fields. }
    destruct (if is_timestamp_field k
              then try_timestamp
                     (convert_fields is_coordinate_field try_coordinates x)
              else None) as [w|] eqn:Ht.
    + (* the field is converted to a timestamp *)
      assert (exists t, w = PDatetime t) as [t ->].
      { destruct (is_timestamp_field k); [|discriminate].
        now apply try_timestamp_Some in Ht. }
      destruct (is_coordinate_field k), (is_timestamp_field k); reflexivity.
    + (* the timestamp pass searches the value as well *)
      rewrite Hc'.
      assert ((if is_timestamp_field k
               then try_timestamp
                      (convert_fields is_coordinate_field try_coordinates
                         (convert_fields is_timestamp_field try_timestamp
                            (convert_fields is_coordinate_field
                               try_coordinates x)))
               else None) = None) as ->.
      { destruct (is_timestamp_field k); [|reflexivity].
        rewrite !try_timestamp_convert_fields in *. exact Ht. }
      exact IH.
Qed.

(** C7.  Normalisation is idempotent: the pipeline of
    [get_observations], coordinates then timestamps, applied to a value
    that went through it already, gives that value back. *)
Theorem normalization_is_idempotent (item : value) :
  normalize (normalize item) = normalize item.
Proof.
  induction item as [| | | | | |l IH|d IH] using value_nested_ind;
    try reflexivity.
  - unfold normalize, convert_all_timestamps, convert_all_coordinates in *.
    cbn [convert_fields]. f_equal. rewrite !map_map.
    apply map_ext_Forall. exact IH.
  - unfold normalize, convert_all_timestamps, convert_all_coordinates.
    rewrite !convert_fields_dict. f_equal. rewrite !map_map.
    apply map_ext_Forall. eapply Forall_impl; [|exact IH].
    intros [k x] Hx. now apply normalize_field.
Qed.

End WithFields.
End Normalisation.

(** ** Single records *)

Section Records.
Context {Sv : Service} {K : Constants} {RP : RequestParams} {F : Fields}.

(** The field [k] of a record after a pass. *)
Lemma dict_get_convert_field (selected : string -> bool)
    (try : value -> option value) (k : string) (d : dict) :
  dict_get k (map (convert_field selected try) d)
  = option_map
      (fun x => match (if selected k then try x else None) with
                | Some w => w
                | None => convert_fields selected try x
                end)
      (dict_get k d).
Proof.
  induction d as [|[k' x] d IH]; simpl; [reflexivity|].
  destruct (String.eqb_spec k k') as [->|]; [reflexivity|exact IH].
Qed.

(** The results of [get_observations] went through the timestamp pass:
    passing one of them through it again changes nothing. *)
Lemma get_observations_results_converted (params : dict)
    (s s' : service_state) (t : list event) (r : value) (l : list value) :
  V1.get_observations params s = (t, s', Ok r) ->
  py_getitem r "results" = Ok (PList l) ->
  Forall (fun x => convert_observation_timestamps x = x) l.
Proof.
  unfold V1.get_observations, bind, lift, ret.
  destruct (validate_multiple_choice_param _ _ _); [|discriminate].
  destruct (V1.get_v1 "observations" params s) as [[t1 s1] [resp|e]];
    [|discriminate].
  destruct (json resp) as [obs0|e]; [|discriminate]. simpl.
  destruct (py_getitem obs0 "results") as [res0|e]; [|discriminate]. simpl.
  destruct (py_setitem obs0 "results" _) as [obs1|e]; [|discriminate]. simpl.
  destruct (py_getitem obs1 "results") as [res1|e]; [|discriminate]. simpl.
  destruct (py_setitem obs1 "results" _) as [obs2|e] eqn:Hset; [|discriminate].
  simpl. intros [= _ _ <-] Hget.
  destruct obs1 as [| | | | | | |d1]; try discriminate.
  injection Hset as <-. simpl in Hget. rewrite dict_get_set_same in Hget.
  injection Hget as Hget.
  destruct res1 as [| | | | | |l1|d']; try discriminate.
  unfold convert_all_timestamps in Hget. simpl in Hget.
  injection Hget as <-. apply Forall_forall. intros x Hx.
  apply in_map_iff in Hx as (x0 & <- & _).
  apply convert_all_timestamps_idempotent.
Qed.

(** C6.  [get_observation], in [node_api] and in [v1.observations],
    returns the first of the results of the search when there are some,
    and raises [ObservationNotFound] when there are none: it raises this
    error exactly when the list of results is empty, and never returns in
    that case. *)
Theorem get_observation_first_or_not_found :
  (forall (observation_id user_agent : value) (s s' : service_state)
          (t : list event) (r : value) (l : list value),
      NodeApi.get_observations PNone user_agent [("id", observation_id)] s
        = (t, s', Ok r) ->
      py_getitem r "results" = Ok (PList l) ->
      NodeApi.get_observation observation_id user_agent s
      = (t, s', match l with
                | [] => Raise ObservationNotFound
                | first :: _ => Ok first
                end))
  /\ (forall (observation_id : value) (params : dict) (s s' : service_state)
             (t : list event) (r : value) (l : list value),
         dict_mem "id" params = false ->
         V1.get_observations (("id", observation_id) :: params) s
           = (t, s', Ok r) ->
         py_getitem r "results" = Ok (PList l) ->
         V1.get_observation observation_id params s
         = (t, s', match l with
                   | [] => Raise ObservationNotFound
                   | first :: _ => Ok first
                   end)).
Proof.
  split.
  - intros observation_id user_agent s s' t r l Hcall Hres.
    unfold NodeApi.get_observation, bind, lift, raise. rewrite Hcall, Hres.
    destruct l; simpl; now rewrite app_nil_r.
  - intros observation_id params s s' t r l Hid Hcall Hres.
    pose proof (get_observations_results_converted _ _ _ _ _ _ Hcall Hres)
      as Hconv.
    unfold V1.get_observation, bind, lift, raise, ret. rewrite Hid, Hcall, Hres.
    destruct l as [|first l]; simpl.
    + now rewrite app_nil_r.
    + apply Forall_inv in Hconv. now rewrite Hconv, app_nil_r.
Qed.

(** C8.  Coordinate conversion is best-effort.  In a record of the
    results, a coordinate field holding ["50.646894,4.360086"] comes out
    as the pair of floats [50.646894] and [4.360086]; a field that holds
    [None] still holds [None], and a field that is absent is still absent;
    a field holding ["abc"] holds it still.  The conversion is a total
    function of the results: [get_places_by_id] returns, for any results
    in a successful response, the response with its results converted. *)
#[warnings="-inexact-float"] Theorem coordinate_conversion_is_best_effort :
  (forall (k : string) (d : dict),
      is_coordinate_field k = true ->
      exists d',
        convert_location_to_float (PList [PDict d]) = PList [PDict d']
        /\ (dict_get k d = Some (PStr "50.646894,4.360086") ->
            dict_get k d' = Some (PList [PFloat 50.646894; PFloat 4.360086]))
        /\ (dict_get k d = Some PNone -> dict_get k d' = Some PNone)
        /\ (dict_get k d = None -> dict_get k d' = None)
        /\ (dict_get k d = Some (PStr "abc") ->
            dict_get k d' = Some (PStr "abc")))
  /\ (forall (place_id user_agent : value) (s s' : service_state)
             (resp : response) (d : dict) (results : value),
         is_int place_id || is_int_list place_id = true ->
         serve s (mk_request "GET" "places"
                    [("resources", place_id); ("user_agent", user_agent)])
           = (s', Ok resp) ->
         raise_for_status resp = Ok tt ->
         body resp = Some (PDict d) ->
         dict_get "results" d = Some results ->
         exists t,
           get_places_by_id place_id user_agent s
           = (t, s',
              Ok (PDict (dict_set "results"
                           (convert_location_to_float results) d))))
  /\ (convert_coordinates (PStr "50.646894,4.360086")
        = PList [PFloat 50.646894; PFloat 4.360086]
      /\ convert_coordinates PNone = PNone
      /\ convert_coordinates (PStr "abc") = PStr "abc").
Proof.
  split.
  - intros k d Hk.
    exists (map (convert_field is_coordinate_field try_coordinates) d).
    split.
    { unfold convert_location_to_float, convert_all_coordinates.
      now rewrite <- convert_fields_dict. }
    rewrite dict_get_convert_field, Hk.
    repeat split; intros ->; reflexivity.
  - split; [|repeat split].
    intros place_id user_agent s s' resp d results Hid Hserve Hstatus Hbody Hres.
    unfold get_places_by_id. rewrite Hid. cbn [negb].
    unfold make_inaturalist_api_get_call, bind, lift, ret, perform, json.
    rewrite Hserve, Hstatus, Hbody. simpl. rewrite Hres. simpl.
    eauto.
Qed.

End Records.

(** ** The taxon summary of an observation *)

Section TaxonSummary.
Context {Sv : Service} {F : Fields} {IP : InPlace}.

(** Writing into a field what it holds changes nothing. *)
Lemma dict_set_held (k : string) (v : value) (d : dict) :
  dict_get k d = Some v -> dict_set k v d = d.
Proof.
  induction d as [|[k' v'] d IH]; simpl; [discriminate|].
  destruct (String.eqb_spec k k') as [->|Hne].
  - now intros [= ->].
  - intros Hget. now rewrite IH.
Qed.

(** C9.  [get_observation_taxon_summary] subscripts both fields of every
    response.  A successful response whose object has no
    [conservation_status] raises [KeyError] for it, and one that has it
    but no [listed_taxon] raises [KeyError] for that: the parsed response
    is not returned.  With both fields, the call returns the object of the
    response, to which nothing is assigned: the two fields hold what the
    converter left in the records it was handed, every other field is as
    it came, and the response comes back unchanged when the converter
    leaves its arguments as they were. *)
Theorem taxon_summary_subscripts_both_fields (observation_id : value)
    (params : dict) (s s' : service_state) (t : list event) (resp : response)
    (d : dict) :
  V1.get_v1
    ("observations/" ++ py_str observation_id ++ "/taxon_summary")%string
    params s = (t, s', Ok resp) ->
  body resp = Some (PDict d) ->
  (dict_get "conservation_status" d = None ->
   V1.get_observation_taxon_summary observation_id params s
   = (t, s', Raise (KeyError "conservation_status")))
  /\ (dict_get "conservation_status" d <> None ->
      dict_get "listed_taxon" d = None ->
      V1.get_observation_taxon_summary observation_id params s
      = (t, s', Raise (KeyError "listed_taxon")))
  /\ (forall conservation_status listed_taxon : value,
        dict_get "conservation_status" d = Some conservation_status ->
        dict_get "listed_taxon" d = Some listed_taxon ->
        exists returned,
          V1.get_observation_taxon_summary observation_id params s
          = (t, s', Ok (PDict returned))
          /\ dict_get "conservation_status" returned
             = Some (argument_after conservation_status)
          /\ dict_get "listed_taxon" returned
             = Some (argument_after listed_taxon)
          /\ (forall k, k <> "conservation_status" -> k <> "listed_taxon" ->
                dict_get k returned = dict_get k d)
          /\ (argument_after conservation_status = conservation_status ->
              argument_after listed_taxon = listed_taxon ->
              returned = d)).
Proof.
  intros Hcall Hbody.
  unfold V1.get_observation_taxon_summary, bind, lift, ret, json.
  rewrite Hcall, Hbody. cbn [py_getitem changed_in_place].
  split; [|split].
  - intros ->. now rewrite app_nil_r.
  - intros Hsome Hnone.
    destruct (dict_get "conservation_status" d) as [c|]; [|congruence].
    cbn [app]. rewrite dict_get_set_other by discriminate.
    rewrite Hnone. now rewrite !app_nil_r.
  - intros c l Hc Hl. rewrite Hc. cbn [app].
    rewrite dict_get_set_other by discriminate. rewrite Hl. cbn [app].
    eexists. split; [now rewrite !app_nil_r|]. split; [|split; [|split]].
    + rewrite dict_get_set_other by discriminate. apply dict_get_set_same.
    + apply dict_get_set_same.
    + intros k H1 H2. now rewrite !dict_get_set_other.
    + intros -> ->. rewrite (dict_set_held "conservation_status") by exact Hc.
      now apply dict_set_held.
Qed.

End TaxonSummary.

(** ** Simulated runs *)

Import Simulation.

(** The catalogue honours keyset pagination when its observations are in
    ascending order. *)
Lemma ascending_above_catalogue (f : Z -> bool) (ids : list Z) (c : Z)
    (n : nat) :
  StronglySorted Z.lt ids ->
  (forall i, In i ids -> f i = true -> c < i) ->
  ascending_above c (map obs (firstn n (filter f ids))).
Proof.
  intros Hsorted. revert c n.
  induction Hsorted as [|x ids Hsorted IH Hx]; intros c n Hf.
  - now destruct n.
  - simpl. destruct (f x) eqn:Hfx.
    + destruct n as [|n]; [exact I|]. simpl. exists x.
      split; [reflexivity|]. split; [apply Hf; simpl; auto|].
      apply IH. intros i Hi _. rewrite Forall_forall in Hx. auto.
    + apply IH. intros i Hi. apply Hf. now right.
Qed.

Lemma catalogue_honours_keyset (whole : bool) (ids : list Z) :
  StronglySorted Z.lt ids -> @honours_keyset (catalogue whole ids).
Proof.
  intros Hsorted s s' req res c Hserve Hcursor _ _.
  simpl in Hserve. injection Hserve as _ <-.
  unfold page_of, page_items. simpl.
  apply ascending_above_catalogue; [exact Hsorted|].
  intros i _. rewrite Hcursor. intros H.
  apply andb_prop in H as [H _]. now apply Z.ltb_lt.
Qed.

(** C1.  The empty-page exit is missing from the loop.  Against a service
    that reports the total of the whole result set, three observations
    behind pages of two, the third page is empty while the total exceeds
    the page size; [get_all_observations] does not return then: whatever
    the number of rounds it is given, it is still fetching, once per
    round. *)
Theorem empty_page_does_not_end_the_run (fuel : nat) :
  exists t,
    whole_total_run fuel = (t, tt, OutOfFuel)
    /\ fetches t = fuel
    /\ pages (fst (fst (whole_total_run 3)))
       = [[obs 1; obs 2]; [obs 3]; []].
Proof.
  assert (forall n, exists t,
             @while_true whole_total _ _ n (@page_step whole_total small_pages)
               (params_above 3, [obs 1; obs 2; obs 3], PInt 3) tt
             = (t, tt, OutOfFuel) /\ fetches t = n) as Hstuck.
  { induction n as [|n (t & Ht & Hn)].
    - exists []. split; reflexivity.
    - cbn [while_true].
      replace (@page_step whole_total small_pages
                 (params_above 3, [obs 1; obs 2; obs 3], PInt 3) tt)
        with ([Fetch (mk_request "GET" "observations"
                        [("params", PDict [("order_by", PStr "id");
                                           ("order", PStr "asc");
                                           ("per_page", PInt 2);
                                           ("id_above", PInt 3)]);
                         ("user_agent", PNone)])
                 (page_of 3 []);
               Sleep 1], tt,
              Ok (inr (A := list value)
                    (params_above 3, [obs 1; obs 2; obs 3], PInt 3)))
        by reflexivity.
      rewrite Ht. eexists. split; [reflexivity|].
      unfold fetches in *. simpl. now rewrite Hn. }
  destruct fuel as [|[|[|n]]].
  - exists []. repeat split.
  - eexists. repeat split.
  - eexists. repeat split.
  - destruct (Hstuck n) as (t & Ht & Hn).
    unfold whole_total_run, get_all_observations.
    replace (pagination_params_of (K := small_pages) PNone PNone [])
      with (Ok plain_params) by reflexivity.
    cbn [while_true].
    replace (@page_step whole_total small_pages (plain_params, [], PInt 0) tt)
      with ([Fetch (mk_request "GET" "observations"
                      [("params", PDict [("order_by", PStr "id");
                                         ("order", PStr "asc");
                                         ("per_page", PInt 2);
                                         ("id_above", PInt 0)]);
                       ("user_agent", PNone)])
               (page_of 3 [obs 1; obs 2]);
             Sleep 1], tt,
            Ok (inr (A := list value)
                  (params_above 0, [obs 1; obs 2], PInt 2)))
      by reflexivity.
    replace (@page_step whole_total small_pages
               (params_above 0, [obs 1; obs 2], PInt 2) tt)
      with ([Fetch (mk_request "GET" "observations"
                      [("params", PDict [("order_by", PStr "id");
                                         ("order", PStr "asc");
                                         ("per_page", PInt 2);
                                         ("id_above", PInt 2)]);
                       ("user_agent", PNone)])
               (page_of 3 [obs 3]);
             Sleep 1], tt,
            Ok (inr (A := list value)
                  (params_above 2, [obs 1; obs 2; obs 3], PInt 3)))
      by reflexivity.
    replace (@page_step whole_total small_pages
               (params_above 2, [obs 1; obs 2; obs 3], PInt 3) tt)
      with ([Fetch (mk_request "GET" "observations"
                      [("params", PDict [("order_by", PStr "id");
                                         ("order", PStr "asc");
                                         ("per_page", PInt 2);
                                         ("id_above", PInt 3)]);
                       ("user_agent", PNone)])
               (page_of 3 []);
             Sleep 1], tt,
            Ok (inr (A := list value)
                  (params_above 3, [obs 1; obs 2; obs 3], PInt 3)))
      by reflexivity.
    rewrite Ht. eexists. split; [reflexivity|].
    split; [|reflexivity].
    unfold fetches in *. simpl. now rewrite Hn.
Qed.

(** A page of two observations under a total of two: one fetch, no
    delay. *)
Lemma single_page_is_fetched_once_witness :
  snd one_page_run = Done (Ok [obs 1; obs 2])
  /\ fetches (fst (fst one_page_run)) = 1%nat
  /\ sleeps (fst (fst one_page_run)) = 0%nat.
Proof.
  destruct (single_page_is_fetched_once (Sv := scripted) (K := small_pages)
              0 PNone PNone [] plain_params one_page [] (fst (fst one_page_run))
              (PDict [("total_results", PInt 2);
                      ("results", PList [obs 1; obs 2])])
              [obs 1; obs 2] 2
              eq_refl eq_refl eq_refl eq_refl)
    as (Hrun & Hfetches & Hsleeps).
  - simpl. lia.
  - unfold one_page_run. rewrite Hrun. auto.
Defined.

(** An empty first page under a total of nine: [IndexError]. *)
Lemma empty_first_page_raises_IndexError_witness :
  snd empty_first_page_run = Done (Raise IndexError)
  /\ sleeps (fst (fst empty_first_page_run)) = 1%nat.
Proof.
  unfold empty_first_page_run.
  rewrite (empty_first_page_raises_IndexError (Sv := scripted)
             (K := small_pages) 0 PNone PNone [] plain_params empty_first_page
             [] (fst (fst (get_observations_kw (Sv := scripted)
                             (params_above 0) empty_first_page)))
             (PDict [("total_results", PInt 9); ("results", PList [])]) 9
             eq_refl eq_refl eq_refl eq_refl).
  - split; reflexivity.
  - simpl. lia.
Defined.

(** Three observations in pages of two: the second request carries the
    identifier of the second observation, and the third observation is
    above the first two. *)
Lemma keyset_pagination_witness :
  (forall t1 req res t2,
      fst (fst three_observations_run) = t1 ++ Fetch req res :: t2 ->
      req_param req "order_by" = Some (PStr "id")
      /\ req_param req "order" = Some (PStr "asc"))
  /\ (forall t1 req1 res1 d req2 res2 t2 items last,
        fst (fst three_observations_run)
          = t1 ++ Fetch req1 res1 :: Sleep d :: Fetch req2 res2 :: t2 ->
        page_items res1 = Some items ->
        py_last items = Ok last ->
        exists c, py_getitem last "id" = Ok c
                  /\ req_param req2 "id_above" = Some c)
  /\ (forall t1 req1 res1 d req2 res2 t2 items1 items2 x y i j,
        fst (fst three_observations_run)
          = t1 ++ Fetch req1 res1 :: Sleep d :: Fetch req2 res2 :: t2 ->
        page_items res1 = Some items1 ->
        page_items res2 = Some items2 ->
        In x items1 -> In y items2 ->
        item_id x = Some i -> item_id y = Some j ->
        i < j).
Proof.
  destruct (keyset_pagination (Sv := three_observations) (K := small_pages)
              5 PNone PNone [] plain_params tt tt
              (fst (fst three_observations_run)) (snd three_observations_run)
              eq_refl eq_refl eq_refl)
    as (Horder & Hcursor & Hitems).
  split; [exact Horder|]. split; [exact Hcursor|].
  apply Hitems. apply catalogue_honours_keyset.
  repeat constructor; lia.
Defined.

(** C4, a run against the claim as it stands: the second page holds an
    item without [id]; the run has fetched twice and slept twice when it
    raises [KeyError], not once. *)
Lemma delay_after_the_last_fetch :
  fetches (fst (fst page_without_id_run)) = 2%nat
  /\ sleeps (fst (fst page_without_id_run)) = 2%nat
  /\ snd page_without_id_run = Done (Raise (KeyError "id"))
  /\ sleeps (fst (fst page_without_id_run))
     <> (fetches (fst (fst page_without_id_run)) - 1)%nat.
Proof. repeat split. discriminate. Qed.

(** C5, a run against the claim as it stands: of three observations in
    pages of two, a consumer takes one; two pages have been fetched by
    then, and not the one page that holds one item. *)
Lemma first_item_comes_after_two_fetches :
  consume 1 three_observations_run = Some ([obs 1], 2%nat)
  /\ snd three_observations_run = Done (Ok [obs 1; obs 2; obs 3])
  /\ ~ (2 <= ceil_div 1 (Z.to_nat (@PER_PAGE_RESULTS small_pages)))%nat.
Proof. repeat split. vm_compute. lia. Qed.

(** Three observations in pages of two: wherever the consumer stops, two
    fetches have taken place. *)
Lemma results_come_after_all_fetches_witness :
  [obs 1; obs 2; obs 3] = List.concat (pages (fst (fst three_observations_run)))
  /\ List.length (pages (fst (fst three_observations_run))) = 2%nat
  /\ forall k, (k <= 3)%nat ->
       consume k three_observations_run
       = Some (firstn k [obs 1; obs 2; obs 3], 2%nat).
Proof.
  exact (results_come_after_all_fetches (Sv := three_observations)
           (K := small_pages) 5 PNone PNone [] tt tt
           (fst (fst three_observations_run)) [obs 1; obs 2; obs 3] eq_refl).
Defined.

(** The observation 2 is found, the observation 7 is not. *)
Lemma get_observation_first_or_not_found_witness :
  snd (NodeApi.get_observation (Sv := three_observations) (PInt 2) PNone tt)
    = Ok (obs 2)
  /\ snd (NodeApi.get_observation (Sv := three_observations) (PInt 7) PNone tt)
     = Raise ObservationNotFound
  /\ snd (V1.get_observation (Sv := three_observations) (K := small_pages)
            (RP := plain_checks) (F := usual_fields) (PInt 2) [] tt)
     = Ok (obs 2)
  /\ snd (V1.get_observation (Sv := three_observations) (K := small_pages)
            (RP := plain_checks) (F := usual_fields) (PInt 7) [] tt)
     = Raise ObservationNotFound.
Proof.
  destruct (get_observation_first_or_not_found (Sv := three_observations)
              (K := small_pages) (RP := plain_checks) (F := usual_fields))
    as [Hnode Hv1].
  split; [|split; [|split]].
  - now rewrite (Hnode (PInt 2) PNone tt tt _ _ [obs 2] eq_refl eq_refl).
  - now rewrite (Hnode (PInt 7) PNone tt tt _ _ [] eq_refl eq_refl).
  - now rewrite (Hv1 (PInt 2) [] tt tt _ _ [obs 2] eq_refl eq_refl eq_refl).
  - now rewrite (Hv1 (PInt 7) [] tt tt _ _ [] eq_refl eq_refl eq_refl).
Defined.

(** A taxon summary without a conservation status is not returned; one
    with both fields comes back as it was from a converter that builds new
    records, and with the date of its conservation status converted from
    a converter that works in place. *)
Lemma taxon_summary_subscripts_both_fields_witness :
  snd (taxon_summary_run builds_new bare_summary)
  = Raise (KeyError "conservation_status")
  /\ snd (taxon_summary_run builds_new taxon_summary) = Ok taxon_summary
  /\ snd (taxon_summary_run converts_in_place taxon_summary)
     = Ok (PDict [("conservation_status",
                   PDict [("status", PStr "EN");
                          ("created_at",
                           PDatetime (mk_datetime 2018 9 5 0 0 0 None))]);
                  ("listed_taxon", PNone);
                  ("wikipedia_summary", PStr "A weevil.")]).
Proof.
  split; [|split].
  - destruct (taxon_summary_subscripts_both_fields (Sv := scripted)
                (F := usual_fields) (IP := builds_new) (PInt 7849808) []
                [Ok (mk_response 200 (Some bare_summary))] [] _
                (mk_response 200 (Some bare_summary)) _ eq_refl eq_refl)
      as (Hmissing & _ & _).
    unfold taxon_summary_run. now rewrite (Hmissing eq_refl).
  - destruct (taxon_summary_subscripts_both_fields (Sv := scripted)
                (F := usual_fields) (IP := builds_new) (PInt 7849808) []
                taxon_summary_script [] _
                (mk_response 200 (Some taxon_summary)) _ eq_refl eq_refl)
      as (_ & _ & Hboth).
    destruct (Hboth _ _ eq_refl eq_refl) as (returned & Hrun & _ & _ & _ & Hsame).
    unfold taxon_summary_run. fold taxon_summary_script. rewrite Hrun.
    cbn [snd]. now rewrite (Hsame eq_refl eq_refl).
  - destruct (taxon_summary_subscripts_both_fields (Sv := scripted)
                (F := usual_fields) (IP := converts_in_place) (PInt 7849808) []
                taxon_summary_script [] _
                (mk_response 200 (Some taxon_summary)) _ eq_refl eq_refl)
      as (_ & _ & Hboth).
    destruct (Hboth _ _ eq_refl eq_refl) as (returned & Hrun & _).
    unfold taxon_summary_run. fold taxon_summary_script. rewrite Hrun.
    injection Hrun as <-. reflexivity.
Defined.

(** A place whose location is ["abc"], and the four locations of the
    claim in the field [location]. *)
#[warnings="-inexact-float"] Lemma coordinate_conversion_is_best_effort_witness :
  convert_location_to_float (F := usual_fields)
    (PList [PDict (place (PStr "50.646894,4.360086"))])
    = PList [PDict (place (PList [PFloat 50.646894; PFloat 4.360086]))]
  /\ convert_location_to_float (F := usual_fields) (PList [PDict (place PNone)])
     = PList [PDict (place PNone)]
  /\ convert_location_to_float (F := usual_fields)
       (PList [PDict [("id", PInt 93735)]])
     = PList [PDict [("id", PInt 93735)]]
  /\ convert_location_to_float (F := usual_fields)
       (PList [PDict (place (PStr "abc"))])
     = PList [PDict (place (PStr "abc"))]
  /\ snd (get_places_by_id (Sv := scripted) (RP := plain_checks)
            (F := usual_fields) (PInt 93735) PNone places_script)
     = Ok (PDict [("total_results", PInt 1);
                  ("results", PList [PDict (place (PStr "abc"))])]).
Proof.
  destruct (coordinate_conversion_is_best_effort (Sv := scripted)
              (RP := plain_checks) (F := usual_fields)) as (Hfield & Hplaces & Hvalue).
  do 4 (split; [reflexivity|]).
  destruct (Hplaces (PInt 93735) PNone places_script [] _ _ _
              eq_refl eq_refl eq_refl eq_refl eq_refl) as [t ->].
  reflexivity.
Defined.

(** Why the parameters must hold no entry [params]: such an entry of the
    deprecated dict reaches [get_observations], which merges it over the
    pagination parameters; the request then asks for descending order
    above the caller's cursor. *)
Remark params_entry_overrides_pagination :
  map (fun e => match e with
                | Fetch req _ => (req_param req "order", req_param req "id_above")
                | Sleep _ => (None, None)
                end) (fst (fst smuggled_run))
  = [(Some (PStr "desc"), Some (PInt 7))].
Proof. reflexivity. Qed.

(** * Further properties

    ** Every round of [get_all_observations] *)

Section Rounds.
Context {Sv : Service} {K : Constants} {RP : RequestParams} {F : Fields}.

(** Without an entry [params], a call of [get_observations] with [d]
    unpacked is one request, [observations_request d], and answers the
    body of the response. *)
Lemma get_observations_kw_plain (d : dict) (s : service_state) :
  dict_get "params" d = None ->
  get_observations_kw d s
  = (let '(s', res) := serve s (observations_request d) in
     ([Fetch (observations_request d) res], s',
      match res with Ok r => json r | Raise e => Raise e end)).
Proof.
  intros Hnone.
  unfold get_observations_kw, get_observations, make_inaturalist_api_get_call.
  unfold observations_request, bind, lift, ret, perform.
  rewrite Hnone. cbn [truthy].
  destruct (serve s _) as [s' [r|e]]; [|reflexivity].
  now destruct (json r).
Qed.

(** A call of [get_observations] either raises before any request, or
    makes one request and answers the body of its response. *)
Lemma get_observations_kw_cases (d : dict) (s : service_state) :
  (exists e, get_observations_kw d s = ([], s, Raise e))
  \/ exists req,
       (dict_get "params" d = None -> req = observations_request d)
       /\ get_observations_kw d s
          = (let '(s', res) := serve s req in
             ([Fetch req res], s',
              match res with Ok r => json r | Raise e => Raise e end)).
Proof.
  destruct (dict_get "params" d) as [p|] eqn:Hp.
  - unfold get_observations_kw, get_observations,
      make_inaturalist_api_get_call, bind, lift, ret, perform.
    rewrite Hp.
    set (ua := match dict_get "user_agent" d with
               | Some v => v
               | None => PNone
               end).
    destruct (truthy p).
    + destruct (py_update _ p) as [kw|e]; [|left; eauto].
      right.
      exists (mk_request "GET" "observations"
                [("params", PDict kw); ("user_agent", ua)]).
      split; [discriminate|]. cbn [app].
      destruct (serve s _) as [s' [r|e]]; [|reflexivity].
      now destruct (json r).
    + right.
      exists (mk_request "GET" "observations"
                [("params", PDict (dict_del "user_agent" (dict_del "params" d)));
                 ("user_agent", ua)]).
      split; [discriminate|]. cbn [app].
      destruct (serve s _) as [s' [r|e]]; [|reflexivity].
      now destruct (json r).
  - right. exists (observations_request d). split; [reflexivity|].
    now apply get_observations_kw_plain.
Qed.

(** One round of the loop by cases, with the request it makes, the total
    it compares and the exception it lets through. *)
Lemma page_step_cases (pp : dict) (results : list value) (c : value)
    (s s' : service_state) (t : list event)
    (r : result (list value + page_state)) :
  page_step (pp, results, c) s = (t, s', r) ->
  (t = [] /\ s' = s /\ exists e, r = Raise e)
  \/ exists req res,
       serve s req = (s', res)
       /\ (dict_get "params" pp = None ->
           req = observations_request (dict_set "id_above" c pp))
       /\ ((exists e, res = Raise e /\ t = [Fetch req res] /\ r = Raise e)
           \/ (exists resp e,
                 res = Ok resp /\ t = [Fetch req res] /\ r = Raise e
                 /\ (page_items res = None
                     \/ page_is_last PER_PAGE_RESULTS res = None))
           \/ (exists items,
                 page_items res = Some items
                 /\ page_is_last PER_PAGE_RESULTS res = Some true
                 /\ t = [Fetch req res] /\ r = Ok (inl (results ++ items)))
           \/ (exists items,
                 page_items res = Some items
                 /\ page_is_last PER_PAGE_RESULTS res = Some false
                 /\ t = [Fetch req res; Sleep THROTTLING_DELAY]
                 /\ ((exists e, r = Raise e)
                     \/ exists c',
                          r = Ok (inr (dict_set "id_above" c pp,
                                       results ++ items, c'))))).
Proof.
  unfold page_step. set (pp' := dict_set "id_above" c pp).
  unfold bind at 1.
  destruct (get_observations_kw_cases pp' s) as [[e ->]|(req & Hreq & ->)].
  { intros [= <- <- <-]. left. eauto. }
  intros Hstep. right. exists req.
  destruct (serve s req) as [s1 res] eqn:Hserve. exists res.
  assert (dict_get "params" pp = None -> req = observations_request pp')
    as Hreq'.
  { intros Hnone. apply Hreq. unfold pp'.
    now rewrite dict_get_set_other by discriminate. }
  unfold bind, lift, ret, sleep in Hstep.
  destruct res as [resp|e]; cbn match in Hstep.
  2:{ injection Hstep as <- <- <-. repeat split; eauto 8. }
  unfold json in Hstep.
  destruct (body resp) as [page_obs|] eqn:Hbody.
  2:{ injection Hstep as <- <- <-. repeat split; auto. right. left.
      eexists _, _. repeat split. left. unfold page_items. now rewrite Hbody. }
  destruct (py_get page_obs "results" (PList [])) as [page|e] eqn:Hget.
  2:{ injection Hstep as <- <- <-. repeat split; auto. right. left.
      eexists _, _. repeat split. left. unfold page_items.
      now rewrite Hbody, Hget. }
  destruct (py_list_add results page) as [rs|e] eqn:Hadd.
  2:{ injection Hstep as <- <- <-. repeat split; auto. right. left.
      eexists _, _. repeat split. left. unfold page_items.
      rewrite Hbody, Hget. destruct page; try reflexivity. discriminate. }
  assert (exists items, page = PList items /\ rs = results ++ items)
    as (items & -> & ->).
  { destruct page; try discriminate. injection Hadd as <-. eauto. }
  assert (page_items (Ok resp) = Some items) as Hitems.
  { unfold page_items. now rewrite Hbody, Hget. }
  destruct (py_getitem page_obs "total_results") as [total|e] eqn:Htotal.
  2:{ injection Hstep as <- <- <-. repeat split; auto. right. left.
      eexists _, _. repeat split. right. unfold page_is_last.
      now rewrite Hbody, Htotal. }
  destruct (py_le_int total PER_PAGE_RESULTS) as [last_page|e] eqn:Hle.
  2:{ injection Hstep as <- <- <-. repeat split; auto. right. left.
      eexists _, _. repeat split. right. unfold page_is_last.
      now rewrite Hbody, Htotal, Hle. }
  assert (page_is_last PER_PAGE_RESULTS (Ok resp) = Some last_page) as Hlast.
  { unfold page_is_last. now rewrite Hbody, Htotal, Hle. }
  destruct last_page.
  { injection Hstep as <- <- <-. repeat split; auto. right. right. left.
    exists items. auto. }
  destruct (py_last (results ++ items)) as [last|e].
  2:{ injection Hstep as <- <- <-. repeat split; auto. do 3 right.
      exists items. repeat split; eauto. }
  destruct (py_getitem last "id") as [c'|e].
  2:{ injection Hstep as <- <- <-. repeat split; auto. do 3 right.
      exists items. repeat split; eauto. }
  injection Hstep as <- <- <-. repeat split; auto. do 3 right.
  exists items. repeat split; eauto.
Qed.

(** The requests of a run differ by their cursor alone. *)
Lemma loop_requests (fuel : nat) (pp : dict) (results : list value) (c : value)
    (s s' : service_state) (t : list event) (r : run (list value)) :
  dict_get "params" pp = None ->
  while_true fuel page_step (pp, results, c) s = (t, s', r) ->
  forall req res, In (Fetch req res) t ->
    exists c', req = observations_request (dict_set "id_above" c' pp).
Proof.
  revert pp results c s s' t r.
  induction fuel as [|fuel IH]; intros pp results c s s' t r Hnone;
    cbn [while_true].
  { intros [= <- <- <-] req res []. }
  destruct (page_step (pp, results, c) s) as [[t1 s1] r1] eqn:Hstep.
  apply page_step_cases in Hstep
    as [(-> & _ & e & ->)|(req0 & res0 & _ & Hreq & Hcases)].
  { intros [= <- <- <-] req res []. }
  specialize (Hreq Hnone).
  destruct Hcases
    as [(e & _ & -> & ->)
       |[(resp & e & _ & -> & -> & _)
        |[(items & _ & _ & -> & ->)|(items & _ & _ & -> & Hnext)]]].
  1-3: intros [= <- <- <-] req res [[= <- <-]|[]]; eauto.
  destruct Hnext as [(e & ->)|(c' & ->)].
  { intros [= <- <- <-] req res [[= <- <-]|[[=]|[]]]. eauto. }
  destruct (while_true fuel page_step _ s1) as [[t2 s2] r2] eqn:Hrest.
  intros [= <- <- <-] req res [[= <- <-]|[[=]|Hin]]; [eauto|].
  eapply IH in Hrest as [c2 ->]; [| |exact Hin].
  - exists c2. now rewrite dict_set_set_same.
  - now rewrite dict_get_set_other by discriminate.
Qed.

(** A request that fails ends the run with its exception. *)
Lemma loop_failed_request (fuel : nat) (st : page_state)
    (s s' : service_state) (t : list event) (r : run (list value))
    (req : request) (e : exn) :
  while_true fuel page_step st s = (t, s', r) ->
  In (Fetch req (Raise e)) t ->
  r = Done (Raise e) /\ exists t0, t = t0 ++ [Fetch req (Raise e)].
Proof.
  revert st s s' t r.
  induction fuel as [|fuel IH]; intros [[pp results] c] s s' t r;
    cbn [while_true].
  { intros [= <- <- <-] []. }
  destruct (page_step (pp, results, c) s) as [[t1 s1] r1] eqn:Hstep.
  apply page_step_cases in Hstep
    as [(-> & _ & e0 & ->)|(req0 & res0 & _ & _ & Hcases)].
  { intros [= <- <- <-] []. }
  destruct Hcases
    as [(e0 & -> & -> & ->)
       |[(resp & e0 & -> & -> & -> & _)
        |[(items & Hitems & _ & -> & ->)|(items & Hitems & _ & -> & Hnext)]]].
  - intros [= <- <- <-] [[= <- <-]|[]]. split; [reflexivity|]. now exists [].
  - intros [= <- <- <-] [[=]|[]].
  - intros [= <- <- <-] [[= <- ->]|[]]. discriminate.
  - assert (forall x, res0 <> Raise x) as Hok
      by (intros x ->; discriminate).
    destruct Hnext as [(e0 & ->)|(c' & ->)].
    { intros [= <- <- <-] [[= _ H]|[[=]|[]]]. now apply Hok in H. }
    destruct (while_true fuel page_step _ s1) as [[t2 s2] r2] eqn:Hrest.
    intros [= <- <- <-] [[= _ H]|[[=]|Hin]]; [now apply Hok in H|].
    destruct (IH _ _ _ _ _ Hrest Hin) as (-> & t0 & ->).
    split; [reflexivity|].
    now exists (Fetch req0 res0 :: Sleep THROTTLING_DELAY :: t0).
Qed.

(** A fetched page with a total within the page size, and with results to
    read, is where the run returns. *)
Lemma loop_last_page (fuel : nat) (st : page_state)
    (s s' : service_state) (t : list event) (r : run (list value))
    (req : request) (res : result response) :
  while_true fuel page_step st s = (t, s', r) ->
  In (Fetch req res) t ->
  page_is_last PER_PAGE_RESULTS res = Some true ->
  page_items res <> None ->
  (exists results, r = Done (Ok results))
  /\ exists t0, t = t0 ++ [Fetch req res].
Proof.
  intros Hrun Hin Hlast Hread. revert st s s' t r Hrun Hin.
  induction fuel as [|fuel IH]; intros [[pp results] c] s s' t r;
    cbn [while_true].
  { intros [= <- <- <-] []. }
  destruct (page_step (pp, results, c) s) as [[t1 s1] r1] eqn:Hstep.
  apply page_step_cases in Hstep
    as [(-> & _ & e0 & ->)|(req0 & res0 & _ & _ & Hcases)].
  { intros [= <- <- <-] []. }
  destruct Hcases
    as [(e0 & -> & -> & ->)
       |[(resp & e0 & -> & -> & -> & Hbad)
        |[(items & Hitems & _ & -> & ->)|(items & Hitems & Hmore & -> & Hnext)]]].
  - intros [= <- <- <-] [[= <- <-]|[]]. discriminate.
  - intros [= <- <- <-] [[= <- <-]|[]]. destruct Hbad; congruence.
  - intros [= <- <- <-] [[= <- <-]|[]]. split; [eauto|]. now exists [].
  - destruct Hnext as [(e0 & ->)|(c' & ->)].
    { intros [= <- <- <-] [[= <- <-]|[[=]|[]]]. congruence. }
    destruct (while_true fuel page_step _ s1) as [[t2 s2] r2] eqn:Hrest.
    intros [= <- <- <-] [[= <- <-]|[[=]|Hin]]; [congruence|].
    destruct (IH _ _ _ _ _ Hrest Hin) as (Hr & t0 & ->).
    split; [exact Hr|].
    now exists (Fetch req0 res0 :: Sleep THROTTLING_DELAY :: t0).
Qed.

(** A run that returns ends on a page with a total within the page size,
    after pages with a total above it. *)
Lemma loop_earlier_pages (fuel : nat) (st : page_state)
    (s s' : service_state) (t : list event) (results : list value) :
  while_true fuel page_step st s = (t, s', Done (Ok results)) ->
  exists t0 req res,
    t = t0 ++ [Fetch req res]
    /\ page_is_last PER_PAGE_RESULTS res = Some true
    /\ forall req' res', In (Fetch req' res') t0 ->
         page_is_last PER_PAGE_RESULTS res' = Some false.
Proof.
  revert st s s' t.
  induction fuel as [|fuel IH]; intros [[pp rs] c] s s' t;
    cbn [while_true]; [discriminate|].
  destruct (page_step (pp, rs, c) s) as [[t1 s1] r1] eqn:Hstep.
  apply page_step_cases in Hstep
    as [(-> & _ & e0 & ->)|(req0 & res0 & _ & _ & Hcases)]; [discriminate|].
  destruct Hcases
    as [(e0 & -> & -> & ->)
       |[(resp & e0 & -> & -> & -> & Hbad)
        |[(items & Hitems & Hlast & -> & ->)
         |(items & Hitems & Hmore & -> & Hnext)]]]; try discriminate.
  - intros [= <- <- <-]. exists [], req0, res0. repeat split; auto.
    intros ? ? [].
  - destruct Hnext as [(e0 & ->)|(c' & ->)]; [discriminate|].
    destruct (while_true fuel page_step _ s1) as [[t2 s2] r2] eqn:Hrest.
    intros [= <- <- ->].
    destruct (IH _ _ _ _ Hrest) as (t0 & req & res & -> & Hlast & Hbefore).
    exists (Fetch req0 res0 :: Sleep THROTTLING_DELAY :: t0), req, res.
    repeat split; auto.
    intros req' res' [[= <- <-]|[[=]|Hin]]; eauto.
Qed.

Lemma dict_mem_false (k : string) (d : dict) :
  dict_mem k d = false -> dict_get k d = None.
Proof. unfold dict_mem. now destruct (dict_get k d). Qed.

(** The pagination parameters by key: the four keys that the function
    sets, [page] that it removes, and the caller's own for the rest. *)
Lemma pagination_params_of_get (params user_agent : value) (kwargs kw pp : dict) :
  (if truthy params then py_update kwargs params else Ok kwargs) = Ok kw ->
  pagination_params_of params user_agent kwargs = Ok pp ->
  dict_get "per_page" pp = Some (PInt PER_PAGE_RESULTS)
  /\ dict_get "user_agent" pp = Some user_agent
  /\ dict_get "page" pp = None
  /\ forall k, ~ In k ["order_by"; "order"; "per_page"; "user_agent"; "page"] ->
       dict_get k pp = dict_get k kw.
Proof.
  unfold pagination_params_of. intros ->. intros [= <-].
  unfold dict_update. cbn [fold_left fst snd].
  assert (dict_get "page"
            (if dict_mem "page" kw then dict_del "page" kw else kw) = None)
    as Hpage.
  { destruct (dict_mem "page" kw) eqn:Hmem.
    - apply dict_get_del_same.
    - now apply dict_mem_false. }
  assert (forall k, k <> "page" ->
            dict_get k (if dict_mem "page" kw then dict_del "page" kw else kw)
            = dict_get k kw) as Hother.
  { intros k Hk. destruct (dict_mem "page" kw); [|reflexivity].
    now apply dict_get_del_other. }
  split; [|split; [|split]].
  - rewrite dict_get_set_other by discriminate. apply dict_get_set_same.
  - apply dict_get_set_same.
  - now rewrite !dict_get_set_other by discriminate.
  - intros k Hk. simpl in Hk.
    rewrite !dict_get_set_other by (intros ->; tauto).
    apply Hother. intros ->. tauto.
Qed.

(** The requests of a run of [get_all_observations], and the query
    parameters of such a request. *)
Lemma run_requests (fuel : nat) (params user_agent : value) (kwargs : dict)
    (s s' : service_state) (t : list event) (r : run (list value))
    (req : request) (res : result response) :
  get_all_observations fuel params user_agent kwargs s = (t, s', r) ->
  In (Fetch req res) t ->
  exists pp,
    pagination_params_of params user_agent kwargs = Ok pp
    /\ (dict_get "params" pp = None ->
        exists c, req = observations_request (dict_set "id_above" c pp)).
Proof.
  unfold get_all_observations. intros Hrun Hin.
  destruct (pagination_params_of params user_agent kwargs) as [pp|e].
  - exists pp. split; [reflexivity|]. intros Hnone.
    exact (loop_requests _ _ _ _ _ _ _ _ Hnone Hrun _ _ Hin).
  - injection Hrun as <- _ _. destruct Hin.
Qed.

Lemma observations_request_param (d : dict) (k : string) :
  k <> "user_agent" -> k <> "params" ->
  req_param (observations_request d) k = dict_get k d.
Proof.
  intros H1 H2. unfold req_param, observations_request.
  cbn [req_kwargs dict_get String.eqb Ascii.eqb Bool.eqb].
  now rewrite !dict_get_del_other.
Qed.

(** X1.  Explicit pagination parameters are ignored: every request of
    [get_all_observations] is a GET of [observations] with the caller's
    user agent beside the query, asks for [PER_PAGE_RESULTS] items a page,
    has no [page], and carries every other parameter of the caller as it
    was given. *)
Theorem pagination_parameters_are_forced (fuel : nat)
    (params user_agent : value) (kwargs kw : dict) (s s' : service_state)
    (t : list event) (r : run (list value)) :
  (if truthy params then py_update kwargs params else Ok kwargs) = Ok kw ->
  dict_get "params" kw = None ->
  get_all_observations fuel params user_agent kwargs s = (t, s', r) ->
  forall req res, In (Fetch req res) t ->
    req_method req = "GET"
    /\ req_endpoint req = "observations"
    /\ dict_get "user_agent" (req_kwargs req) = Some user_agent
    /\ req_param req "per_page" = Some (PInt PER_PAGE_RESULTS)
    /\ req_param req "page" = None
    /\ req_param req "user_agent" = None
    /\ forall k,
         ~ In k ["order_by"; "order"; "per_page"; "user_agent"; "page";
                 "id_above"] ->
         req_param req k = dict_get k kw.
Proof.
  intros Hkw Hnone Hrun req res Hin.
  destruct (run_requests _ _ _ _ _ _ _ _ _ _ Hrun Hin) as (pp & Hpp & Hreq).
  destruct (pagination_params_of_get _ _ _ _ _ Hkw Hpp)
    as (Hper & Hua & Hpage & Hrest).
  assert (dict_get "params" pp = None) as Hnone'.
  { rewrite Hrest; [exact Hnone|]. simpl. intuition discriminate. }
  destruct (Hreq Hnone') as [c ->].
  unfold observations_request, req_param. cbn [req_method req_endpoint
    req_kwargs dict_get String.eqb Ascii.eqb Bool.eqb].
  rewrite (dict_get_set_other "user_agent") by discriminate. rewrite Hua.
  repeat split.
  - rewrite !dict_get_del_other, dict_get_set_other by discriminate.
    exact Hper.
  - rewrite !dict_get_del_other, dict_get_set_other by discriminate.
    exact Hpage.
  - apply dict_get_del_same.
  - intros k Hk. simpl in Hk.
    destruct (String.eqb_spec k "params") as [->|Hp].
    + rewrite dict_get_del_other by discriminate.
      now rewrite dict_get_del_same, Hnone.
    + rewrite !dict_get_del_other by (try exact Hp; intros ->; tauto).
      rewrite dict_get_set_other by (intros ->; tauto).
      apply Hrest. simpl. tauto.
Qed.

(** X2.  A request that fails ends the run: [get_all_observations] raises
    the exception of the transport, and has made no request and taken no
    delay after the one that failed. *)
Theorem failed_request_ends_the_run (fuel : nat) (params user_agent : value)
    (kwargs : dict) (s s' : service_state) (t : list event)
    (r : run (list value)) (req : request) (e : exn) :
  get_all_observations fuel params user_agent kwargs s = (t, s', r) ->
  In (Fetch req (Raise e)) t ->
  r = Done (Raise e) /\ exists t0, t = t0 ++ [Fetch req (Raise e)].
Proof.
  unfold get_all_observations.
  destruct (pagination_params_of params user_agent kwargs) as [pp|e0].
  - apply loop_failed_request.
  - intros [= <- _ _] [].
Qed.

(** X3.  The loop has one exit.  A fetched page that reports a total
    within the page size, and has results to read, is the last event of
    the run, which returns; and a run that returns ends on such a page,
    every page before it having reported a total above the page size. *)
Theorem run_returns_on_the_first_small_total (fuel : nat)
    (params user_agent : value) (kwargs : dict) (s s' : service_state)
    (t : list event) (r : run (list value)) :
  get_all_observations fuel params user_agent kwargs s = (t, s', r) ->
  (forall req res,
      In (Fetch req res) t ->
      page_is_last PER_PAGE_RESULTS res = Some true ->
      page_items res <> None ->
      (exists results, r = Done (Ok results))
      /\ exists t0, t = t0 ++ [Fetch req res])
  /\ (forall results,
        r = Done (Ok results) ->
        exists t0 req res,
          t = t0 ++ [Fetch req res]
          /\ page_is_last PER_PAGE_RESULTS res = Some true
          /\ forall req' res', In (Fetch req' res') t0 ->
               page_is_last PER_PAGE_RESULTS res' = Some false).
Proof.
  unfold get_all_observations.
  destruct (pagination_params_of params user_agent kwargs) as [pp|e0].
  - intros Hrun. split.
    + intros req res. now apply loop_last_page with (1 := Hrun).
    + intros results ->. now apply loop_earlier_pages in Hrun.
  - intros [= <- _ <-]. split; [intros ? ? []|discriminate].
Qed.

(** X5.  [get_observations] does not look at the status of the response.
    When the service answers the first request with a JSON object that
    has no [total_results], an error document for one, whatever the
    status, [get_all_observations] raises [KeyError] for that key after
    this one request; no [HTTPError] is raised. *)
Theorem error_document_raises_KeyError (fuel : nat)
    (params user_agent : value) (kwargs pp : dict) (s s' : service_state)
    (resp : response) (d : dict) (items : list value) :
  pagination_params_of params user_agent kwargs = Ok pp ->
  dict_get "params" pp = None ->
  serve s (observations_request (dict_set "id_above" (PInt 0) pp))
    = (s', Ok resp) ->
  body resp = Some (PDict d) ->
  py_get (PDict d) "results" (PList []) = Ok (PList items) ->
  dict_get "total_results" d = None ->
  get_all_observations (S fuel) params user_agent kwargs s
  = ([Fetch (observations_request (dict_set "id_above" (PInt 0) pp)) (Ok resp)],
     s', Done (Raise (KeyError "total_results"))).
Proof.
  intros Hpp Hnone Hserve Hbody Hres Htotal.
  unfold get_all_observations. rewrite Hpp. cbn [while_true].
  unfold page_step, bind, lift, ret.
  rewrite get_observations_kw_plain
    by (rewrite dict_get_set_other; [exact Hnone|discriminate]).
  rewrite Hserve. unfold json. rewrite Hbody, Hres.
  cbn [py_list_add py_getitem]. now rewrite Htotal.
Qed.

End Rounds.

(** ** Paging through a catalogue *)

Section CatalogueRuns.
Context {K : Constants} {RP : RequestParams} {F : Fields}.
Variable ids : list Z.

Lemma StronglySorted_app_lt (a b : list Z) (i j : Z) :
  StronglySorted Z.lt (a ++ b) -> In i a -> In j b -> i < j.
Proof.
  induction a as [|x a IH]; intros Hsorted Hi Hj; [destruct Hi|].
  simpl in Hsorted. apply StronglySorted_inv in Hsorted as [Hsorted Hx].
  destruct Hi as [->|Hi]; [|auto].
  rewrite Forall_forall in Hx. apply Hx, in_or_app. now right.
Qed.

Lemma filter_above (c : Z) (done rest : list Z) :
  Forall (fun i => i <= c) done ->
  Forall (fun i => c < i) rest ->
  filter (fun i => Z.ltb c i && true) (done ++ rest) = rest.
Proof.
  intros Hdone Hrest. rewrite filter_app.
  replace (filter _ done) with (@nil Z).
  - simpl. induction Hrest as [|x rest Hx _ IH]; [reflexivity|].
    simpl. apply Z.ltb_lt in Hx as ->. simpl. now rewrite IH.
  - induction Hdone as [|x done Hx _ IH]; [reflexivity|].
    simpl. apply Z.ltb_ge in Hx as ->. exact IH.
Qed.

(** What the catalogue answers to a request of the loop. *)
Lemma catalogue_serves (d : dict) (c p : Z) (done rest : list Z) :
  ids = done ++ rest ->
  Forall (fun i => i <= c) done ->
  Forall (fun i => c < i) rest ->
  dict_get "params" d = None ->
  dict_get "id" d = None ->
  dict_get "per_page" d = Some (PInt p) ->
  dict_get "id_above" d = Some (PInt c) ->
  @serve (Simulation.catalogue false ids) tt (observations_request d)
  = (tt, Simulation.page_of (Z.of_nat (List.length rest))
           (map Simulation.obs (firstn (Z.to_nat p) rest))).
Proof.
  intros Hids Hdone Hrest Hnone Hid Hper Hcursor.
  cbn [serve Simulation.catalogue]. unfold Simulation.matching.
  assert (forall k, k <> "user_agent" -> k <> "params" ->
            req_param (observations_request d) k = dict_get k d) as Hparam.
  { intros k H1 H2. unfold req_param, observations_request.
    cbn [req_kwargs dict_get String.eqb Ascii.eqb Bool.eqb].
    now rewrite !dict_get_del_other. }
  rewrite !Hparam by discriminate. rewrite Hcursor, Hid, Hper.
  now rewrite Hids, filter_above.
Qed.

Lemma py_last_obs (before : list value) (l : list Z) (x : Z) :
  py_last (before ++ map Simulation.obs (l ++ [x])) = Ok (Simulation.obs x).
Proof.
  unfold py_last. now rewrite map_app, app_assoc, rev_app_distr.
Qed.

(** From any point of the catalogue, the loop returns all of it. *)
Lemma catalogue_loop (fuel : nat) (done rest : list Z) (c : Z) (pp : dict) :
  ids = done ++ rest ->
  StronglySorted Z.lt ids ->
  Forall (fun i => i <= c) done ->
  Forall (fun i => c < i) rest ->
  dict_get "params" pp = None ->
  dict_get "id" pp = None ->
  dict_get "per_page" pp = Some (PInt PER_PAGE_RESULTS) ->
  1 <= PER_PAGE_RESULTS ->
  (List.length rest < fuel)%nat ->
  exists t,
    @while_true (Simulation.catalogue false ids) _ _ fuel page_step
      (pp, map Simulation.obs done, PInt c) tt
    = (t, tt, Done (Ok (map Simulation.obs ids))).
Proof.
  revert done rest c pp.
  induction fuel as [|fuel IH];
    intros done rest c pp Hids Hsorted Hdone Hrest Hnone Hid Hper Hpos Hfuel;
    [lia|].
  cbn [while_true]. unfold page_step at 1. unfold bind, lift, ret, sleep.
  rewrite get_observations_kw_plain
    by (rewrite dict_get_set_other; [exact Hnone|discriminate]).
  rewrite (catalogue_serves _ c PER_PAGE_RESULTS done rest Hids Hdone Hrest);
    try (rewrite dict_get_set_other by discriminate; assumption);
    [|apply dict_get_set_same].
  unfold Simulation.page_of, json.
  cbn [body py_get dict_get String.eqb Ascii.eqb Bool.eqb py_list_add
       py_getitem py_le_int app].
  destruct (Z.leb_spec (Z.of_nat (List.length rest)) PER_PAGE_RESULTS)
    as [Hle|Hgt].
  - (* the page holds what is left *)
    rewrite firstn_all2 by lia. eexists. rewrite Hids, map_app.
    reflexivity.
  - (* the page is full, and more is left *)
    set (p := Z.to_nat PER_PAGE_RESULTS) in *.
    assert (1 <= p < List.length rest)%nat as Hp by (unfold p; lia).
    destruct (exists_last (l := firstn p rest)) as (l & x & Hpage).
    { intros Hnil. apply (f_equal (@List.length Z)) in Hnil.
      rewrite length_firstn in Hnil. simpl in Hnil. lia. }
    rewrite Hpage, py_last_obs.
    cbn [Simulation.obs py_getitem dict_get String.eqb Ascii.eqb Bool.eqb].
    assert (ids = (done ++ l ++ [x]) ++ skipn p rest) as Hids'.
    { rewrite <- app_assoc, <- Hpage, firstn_skipn. exact Hids. }
    assert (In x rest) as Hx.
    { rewrite <- (firstn_skipn p rest), Hpage.
      apply in_or_app. left. apply in_or_app. right. now left. }
    destruct (IH (done ++ l ++ [x]) (skipn p rest) x
                (dict_set "id_above" (PInt c) pp)) as [t Ht]; auto.
    + apply Forall_app. split.
      * rewrite Forall_forall in *. intros i Hi.
        specialize (Hdone i Hi). specialize (Hrest x Hx). lia.
      * apply Forall_app. split; [|constructor; [lia|constructor]].
        apply Forall_forall. intros i Hi.
        assert (i < x); [|lia].
        apply (StronglySorted_app_lt (done ++ l) ([x] ++ skipn p rest)).
        -- rewrite Hids' in Hsorted. now rewrite <- !app_assoc in *.
        -- apply in_or_app. now right.
        -- now left.
    + apply Forall_forall. intros j Hj.
      apply (StronglySorted_app_lt (done ++ l ++ [x]) (skipn p rest));
        [now rewrite <- Hids'| |exact Hj].
      apply in_or_app. right. apply in_or_app. right. now left.
    + now rewrite dict_get_set_other by discriminate.
    + now rewrite dict_get_set_other by discriminate.
    + now rewrite dict_get_set_other by discriminate.
    + rewrite length_skipn. lia.
    + rewrite <- map_app, Ht. eexists. reflexivity.
Qed.

(** X4.  Against a service that holds observations with positive
    identifiers in ascending order, honours [id_above] and [per_page], and
    reports the total of what is left above the cursor,
    [get_all_observations] returns every observation, once and in order,
    whatever the page size, given as many rounds as there are
    observations and one more. *)
Theorem get_all_observations_returns_the_catalogue (fuel : nat)
    (user_agent : value) (kwargs : dict) :
  StronglySorted Z.lt ids ->
  Forall (fun i => 0 < i) ids ->
  1 <= PER_PAGE_RESULTS ->
  dict_get "params" kwargs = None ->
  dict_get "id" kwargs = None ->
  (List.length ids < fuel)%nat ->
  exists t,
    get_all_observations (Sv := Simulation.catalogue false ids) fuel PNone
      user_agent kwargs tt
    = (t, tt, Done (Ok (map Simulation.obs ids))).
Proof.
  intros Hsorted Hpos Hsize Hnone Hid Hfuel.
  unfold get_all_observations.
  destruct (pagination_params_of PNone user_agent kwargs) as [pp|e] eqn:Hpp;
    [|discriminate].
  destruct (pagination_params_of_get PNone user_agent kwargs kwargs pp
              eq_refl Hpp) as (Hper & _ & _ & Hrest).
  apply (catalogue_loop fuel [] ids 0 pp); auto.
  - rewrite Hrest; [exact Hnone|]. simpl. intuition discriminate.
  - rewrite Hrest; [exact Hid|]. simpl. intuition discriminate.
Qed.

End CatalogueRuns.

(** ** The other endpoints *)

Section Endpoints.
Context {Sv : Service} {K : Constants} {RP : RequestParams} {F : Fields}
        {RF : ResponseFormat}.

(** X6.  [get_geojson_observations] searches mappable observations only:
    unless the caller passes the deprecated dict [params], every request
    it makes carries [mappable=True], whatever [mappable] the caller
    gave; and what it returns is the feature collection of all the
    observations that the search returned, with the default properties
    when none are given. *)
Theorem geojson_requests_are_mappable (fuel : nat) (properties : value)
    (kwargs : dict) (s s' : service_state) (t : list event) (r : run value) :
  dict_get "params" kwargs = None ->
  get_geojson_observations fuel properties kwargs s = (t, s', r) ->
  (forall req res, In (Fetch req res) t ->
     req_param req "mappable" = Some (PBool true))
  /\ (forall collection, r = Done (Ok collection) ->
        exists observations,
          get_all_observations_kw fuel
            (dict_set "mappable" (PBool true) kwargs) s
          = (t, s', Done (Ok observations))
          /\ as_geojson_feature_collection
               (map flatten_nested_params observations)
               (match properties with
                | PNone => DEFAULT_OBSERVATION_ATTRS
                | _ => properties
                end)
             = Ok collection).
Proof.
  intros Hnone. unfold get_geojson_observations.
  destruct (get_all_observations_kw fuel _ s) as [[t0 s0] r0] eqn:Hrun.
  intros Hout.
  assert (t0 = t) as ->
    by (destruct r0 as [[?|?]|]; now injection Hout).
  split.
  - intros req res Hin. unfold get_all_observations_kw in Hrun.
    rewrite (dict_get_set_other "params") in Hrun by discriminate.
    rewrite Hnone in Hrun.
    set (kw := dict_del "user_agent"
                 (dict_del "params" (dict_set "mappable" (PBool true) kwargs)))
      in *.
    assert (dict_get "params" kw = None) as Hkw.
    { unfold kw. rewrite dict_get_del_other by discriminate.
      apply dict_get_del_same. }
    destruct (run_requests _ _ _ _ _ _ _ _ _ _ Hrun Hin) as (pp & Hpp & Hreq).
    destruct (pagination_params_of_get PNone _ kw kw pp eq_refl Hpp)
      as (_ & _ & _ & Hrest).
    destruct Hreq as [c ->].
    { rewrite Hrest; [exact Hkw|]. simpl. intuition discriminate. }
    rewrite observations_request_param by discriminate.
    rewrite dict_get_set_other by discriminate.
    rewrite Hrest by (simpl; intuition discriminate).
    unfold kw. rewrite !dict_get_del_other by discriminate.
    apply dict_get_set_same.
  - intros collection ->.
    destruct r0 as [[observations|e]|]; try discriminate.
    injection Hout as <- Hout. eauto.
Qed.

(** X7.  In [get_taxa], [min_rank] and [max_rank] override [rank]: when
    one of them is given, the query asks for the range of ranks between
    them, whatever [rank] the caller passed, and for the caller's other
    parameters as they are; a range that cannot be computed is raised
    before any request.  When none is given, the caller's parameters are
    the query. *)
Theorem rank_range_overrides_rank :
  (forall (min_rank max_rank user_agent range : value) (params : dict)
          (s : service_state),
      truthy min_rank || truthy max_rank = true ->
      _get_rank_range min_rank max_rank = Ok range ->
      exists req res t s' r,
        get_taxa min_rank max_rank user_agent params s = (t, s', r)
        /\ t = [Fetch req res]
        /\ req_param req "rank" = Some range
        /\ forall k, k <> "rank" -> req_param req k = dict_get k params)
  /\ (forall (min_rank max_rank user_agent : value) (params : dict)
             (s : service_state) (e : exn),
         truthy min_rank || truthy max_rank = true ->
         _get_rank_range min_rank max_rank = Raise e ->
         get_taxa min_rank max_rank user_agent params s = ([], s, Raise e))
  /\ (forall (min_rank max_rank user_agent : value) (params : dict)
             (s : service_state),
         truthy min_rank || truthy max_rank = false ->
         exists res s' r,
           get_taxa min_rank max_rank user_agent params s
           = ([Fetch (mk_request "GET" "taxa"
                        [("params", PDict params); ("user_agent", user_agent)])
                 res], s', r)).
Proof.
  split; [|split].
  - intros min_rank max_rank user_agent range params s Hgiven Hrange.
    unfold get_taxa, make_inaturalist_api_get_call, bind, lift, ret, perform.
    rewrite Hgiven, Hrange. cbn [app].
    destruct (serve s _) as [s1 res] eqn:Hserve.
    eexists _, res. destruct res as [resp|e].
    + destruct (raise_for_status resp); [destruct (json resp)|];
        (eexists _, _, _; split; [reflexivity|]; split; [reflexivity|]);
        (split; [apply dict_get_set_same
                |intros k Hk; unfold req_param; cbn;
                 now apply dict_get_set_other]).
    + eexists _, _, _. split; [reflexivity|]. split; [reflexivity|].
      split; [apply dict_get_set_same|].
      intros k Hk. unfold req_param. cbn. now apply dict_get_set_other.
  - intros min_rank max_rank user_agent params s e Hgiven Hrange.
    unfold get_taxa, bind, lift. now rewrite Hgiven, Hrange.
  - intros min_rank max_rank user_agent params s Hnone.
    unfold get_taxa, make_inaturalist_api_get_call, bind, lift, ret, perform.
    rewrite Hnone. cbn [app].
    destruct (serve s _) as [s1 [resp|e]].
    + destruct (raise_for_status resp); [destruct (json resp)|];
        eexists _, _, _; reflexivity.
    + eexists _, _, _. reflexivity.
Qed.

Lemma result_map_Forall2 {A B : Type} (f : A -> result B) (l : list A)
    (l' : list B) :
  result_map f l = Ok l' -> Forall2 (fun x y => f x = Ok y) l l'.
Proof.
  revert l'. induction l as [|x l IH]; intros l'; simpl.
  - intros [= <-]. constructor.
  - destruct (f x) as [y|e] eqn:Hx; [|discriminate].
    destruct (result_map f l) as [ys|e]; [|discriminate].
    intros [= <-]. constructor; auto.
Qed.

Lemma result_map_Raise {A B : Type} (f : A -> result B) (l : list A)
    (x : A) (e : exn) :
  In x l -> f x = Raise e -> exists e', result_map f l = Raise e'.
Proof.
  induction l as [|y l IH]; intros Hin Hx; [destruct Hin|].
  simpl. destruct (f y) as [z|e0] eqn:Hy; [|eauto].
  destruct Hin as [->|Hin]; [congruence|].
  destruct (IH Hin Hx) as [e' ->]. eauto.
Qed.

(** X8.  [get_taxa_autocomplete] with [minify] keeps the number and the
    order of the results: each result is replaced by what [format_taxon]
    makes of it, and the rest of the response is kept; a taxon that
    cannot be formatted makes the call raise.  Without [minify] the
    response is returned as it was parsed. *)
Theorem minify_formats_each_result (user_agent minify : value) (params : dict)
    (s s' : service_state) (resp : response) (d : dict) :
  serve s (mk_request "GET" "taxa/autocomplete"
             [("params", PDict params); ("user_agent", user_agent)])
    = (s', Ok resp) ->
  raise_for_status resp = Ok tt ->
  body resp = Some (PDict d) ->
  exists t r,
    get_taxa_autocomplete user_agent minify params s = (t, s', r)
    /\ (truthy minify = false -> r = Ok (PDict d))
    /\ (truthy minify = true ->
        forall taxa, dict_get "results" d = Some (PList taxa) ->
          (forall returned, r = Ok returned ->
             exists formatted,
               returned = PDict (dict_set "results" (PList formatted) d)
               /\ Forall2 (fun taxon text => format_taxon taxon = Ok text)
                    taxa formatted)
          /\ (forall taxon e, In taxon taxa -> format_taxon taxon = Raise e ->
                exists e', r = Raise e')).
Proof.
  intros Hserve Hstatus Hbody.
  unfold get_taxa_autocomplete, make_inaturalist_api_get_call.
  unfold bind, lift, ret, perform, json.
  rewrite Hserve, Hstatus, Hbody. cbn [app].
  destruct (truthy minify).
  - cbn [py_getitem].
    destruct (dict_get "results" d) as [results|] eqn:Hres.
    + cbn [app]. destruct (py_iter results) as [taxa0|e] eqn:Hiter.
      * cbn [app].
        destruct (result_map format_taxon taxa0) as [formatted|e] eqn:Hmap.
        -- eexists _, _. split; [reflexivity|]. split; [discriminate|].
           intros _ taxa [= ->]. injection Hiter as <-. split.
           ++ intros returned [= <-]. exists formatted.
              split; [reflexivity|]. now apply result_map_Forall2.
           ++ intros taxon e Hin Hfail.
              destruct (result_map_Raise _ _ _ _ Hin Hfail) as [e' He'].
              congruence.
        -- eexists _, _. split; [reflexivity|]. split; [discriminate|].
           intros _ taxa _. split; [discriminate|eauto].
      * eexists _, _. split; [reflexivity|]. split; [discriminate|].
        intros _ taxa [= ->]. discriminate.
    + eexists _, _. split; [reflexivity|]. split; [discriminate|].
      intros _ taxa [=].
  - eexists _, _. split; [reflexivity|]. split; [reflexivity|discriminate].
Qed.

(** X9.  [get_places_nearby] rebuilds the results of the response: they
    come back as the two lists [standard] and [community], converted,
    with [None] converted in place of a list that the service did not
    send; any other entry of the results is dropped, and every other
    entry of the response is kept. *)
Theorem places_nearby_results_are_rebuilt
    (nelat nelng swlat swlng name user_agent : value) (s s' : service_state)
    (resp : response) (d results : dict) :
  serve s (mk_request "GET" "places/nearby"
             [("params", PDict [("nelat", nelat); ("nelng", nelng);
                                ("swlat", swlat); ("swlng", swlng);
                                ("name", name)]);
              ("user_agent", user_agent)])
    = (s', Ok resp) ->
  raise_for_status resp = Ok tt ->
  body resp = Some (PDict d) ->
  dict_get "results" d = Some (PDict results) ->
  exists t out,
    get_places_nearby nelat nelng swlat swlng name user_agent s
    = (t, s', Ok (PDict out))
    /\ dict_get "results" out
       = Some (PDict
                 [("standard",
                   convert_location_to_float
                     (match dict_get "standard" results with
                      | Some l => l
                      | None => PNone
                      end));
                  ("community",
                   convert_location_to_float
                     (match dict_get "community" results with
                      | Some l => l
                      | None => PNone
                      end))])
    /\ forall k, k <> "results" -> dict_get k out = dict_get k d.
Proof.
  intros Hserve Hstatus Hbody Hres.
  unfold get_places_nearby, make_inaturalist_api_get_call.
  unfold bind, lift, ret, perform, json.
  rewrite Hserve, Hstatus, Hbody. cbn [app].
  unfold _convert_all_locations_to_float. cbn [py_getitem].
  rewrite Hres. cbn [py_get py_setitem].
  eexists _, _. split; [reflexivity|]. split.
  - apply dict_get_set_same.
  - intros k Hk. now apply dict_get_set_other.
Qed.

(** A response with an error status fails the check of the status. *)
Lemma raise_for_status_error (resp : response) :
  400 <= status_code resp < 600 ->
  raise_for_status resp = Raise (HTTPError (status_code resp)).
Proof.
  intros [Hlow Hhigh]. unfold raise_for_status.
  apply Z.leb_le in Hlow. apply Z.ltb_lt in Hhigh.
  now rewrite Hlow, Hhigh.
Qed.

(** A request, the check of the status of its response, and then
    statements that make no request: the request is the only event, and an
    error status is what the call raises. *)
Lemma checked_request {A : Type} (q : request) (k : response -> M A)
    (s s' : service_state) (t : list event) (r : result A)
    (req : request) (resp : response) :
  (forall resp0 s0, fst (fst (k resp0 s0)) = []) ->
  400 <= status_code resp < 600 ->
  bind (make_inaturalist_api_get_call (req_endpoint q) (req_kwargs q))
    (fun r0 => bind (lift (raise_for_status r0)) (fun _ => k r0)) s
  = (t, s', r) ->
  In (Fetch req (Ok resp)) t ->
  r = Raise (HTTPError (status_code resp)) /\ t = [Fetch req (Ok resp)].
Proof.
  intros Hpure Herror.
  unfold make_inaturalist_api_get_call, bind, lift, perform.
  destruct (serve s _) as [s1 [res|e]].
  - destruct (raise_for_status res) as [[]|e] eqn:Hcheck.
    + specialize (Hpure res s1).
      destruct (k res s1) as [[t2 s2] r2]. cbn [fst] in Hpure. subst t2.
      intros [= <- <- <-] [[= <- <-]|[]].
      now rewrite raise_for_status_error in Hcheck.
    + intros [= <- <- <-] [[= <- <-]|[]].
      rewrite raise_for_status_error in Hcheck by exact Herror.
      now injection Hcheck as <-.
  - intros [= <- _ _] [[=]|[]].
Qed.

(** Statements that make no request leave no event. *)
Lemma lift_bind_no_event {A B : Type} (x : result A) (k : A -> M B)
    (s : service_state) :
  (forall a s0, fst (fst (k a s0)) = []) ->
  fst (fst (bind (lift x) k s)) = [].
Proof.
  intros Hk. unfold bind, lift. destruct x as [a|e]; [|reflexivity].
  specialize (Hk a s). now destruct (k a s) as [[t2 s2] r2].
Qed.

(** X13.  Beside the search of observations, every read endpoint checks
    the status of the response before it reads the body: a response with
    a status from 400 to 599 makes the call raise [HTTPError] with that
    status, and the request that it answered is the only one of the
    call. *)
Theorem error_status_raises_HTTPError (req : request) (resp : response)
    (s s' : service_state) (t : list event) (r : result value) :
  400 <= status_code resp < 600 ->
  In (Fetch req (Ok resp)) t ->
  (exists user_agent kwargs,
      get_observation_species_counts user_agent kwargs s = (t, s', r))
  \/ (exists place_id user_agent,
        get_places_by_id place_id user_agent s = (t, s', r))
  \/ (exists nelat nelng swlat swlng name user_agent,
        get_places_nearby nelat nelng swlat swlng name user_agent s
        = (t, s', r))
  \/ (exists q user_agent,
        get_places_autocomplete q user_agent s = (t, s', r))
  \/ (exists taxon_id user_agent,
        get_taxa_by_id taxon_id user_agent s = (t, s', r))
  \/ (exists min_rank max_rank user_agent params,
        get_taxa min_rank max_rank user_agent params s = (t, s', r))
  \/ (exists user_agent minify params,
        get_taxa_autocomplete user_agent minify params s = (t, s', r)) ->
  r = Raise (HTTPError (status_code resp)) /\ t = [Fetch req (Ok resp)].
Proof.
  intros Herror Hin Hcall. revert Hin.
  destruct Hcall
    as [(user_agent & kwargs & Hrun)
       |[(place_id & user_agent & Hrun)
        |[(nelat & nelng & swlat & swlng & name & user_agent & Hrun)
         |[(q & user_agent & Hrun)
          |[(taxon_id & user_agent & Hrun)
           |[(min_rank & max_rank & user_agent & params & Hrun)
            |(user_agent & minify & params & Hrun)]]]]]];
    revert Hrun.
  1: unfold get_observation_species_counts.
  2: unfold get_places_by_id; destruct (negb _); [intros [= <- _ _] []|].
  3: unfold get_places_nearby.
  4: unfold get_places_autocomplete.
  5: unfold get_taxa_by_id; destruct (negb _); [intros [= <- _ _] []|].
  7: unfold get_taxa_autocomplete.
  6: unfold get_taxa; unfold bind at 1;
     destruct (truthy min_rank || truthy max_rank);
     [unfold bind at 1, lift at 1;
      destruct (_get_rank_range min_rank max_rank) as [rank|e];
      [|intros [= <- _ _] []]|];
     cbn [ret]; destruct (bind _ _ s) as [[t2 s2] r2] eqn:Hrun;
     intros [= <- <- <-]; cbn [app]; revert Hrun.
  all: intros Hrun Hin;
    refine (checked_request (mk_request "GET" _ _) _ _ _ _ _ _ _ _ Herror
              Hrun Hin);
    intros; cbv beta;
    repeat first
      [ reflexivity
      | apply lift_bind_no_event; intros; cbv beta
      | match goal with
        | |- context [if ?b then _ else _] => destruct b
        end ].
Qed.

End Endpoints.

(** ** Writes *)

Section WriteProperties.
Context {Sv : Service} {RF : ResponseFormat}.

Lemma dict_get_app (k : string) (a b : dict) :
  dict_get k (a ++ b)
  = match dict_get k a with Some v => Some v | None => dict_get k b end.
Proof.
  induction a as [|[k' v] a IH]; simpl; [reflexivity|].
  now destruct (String.eqb k k').
Qed.

Lemma dict_get_not_in (k : string) (d : dict) :
  ~ In k (map fst d) -> dict_get k d = None.
Proof.
  induction d as [|[k' v] d IH]; simpl; [reflexivity|].
  intros Hnot. destruct (String.eqb_spec k k') as [->|]; [tauto|].
  apply IH. tauto.
Qed.

Lemma dict_set_keys (k k' : string) (v : value) (d : dict) :
  In k' (map fst (dict_set k v d)) -> k' = k \/ In k' (map fst d).
Proof.
  induction d as [|[k0 v0] d IH]; simpl.
  - intros [<-|[]]. now left.
  - destruct (String.eqb_spec k k0) as [->|]; simpl.
    + intros [<-|H]; auto.
    + intros [<-|H]; auto. destruct (IH H); auto.
Qed.

Lemma dict_set_NoDup (k : string) (v : value) (d : dict) :
  NoDup (map fst d) -> NoDup (map fst (dict_set k v d)).
Proof.
  induction d as [|[k0 v0] d IH]; simpl; intros Hd.
  - constructor; [intros []|constructor].
  - apply NoDup_cons_iff in Hd as [Hk0 Hd].
    destruct (String.eqb_spec k k0) as [->|Hne]; simpl.
    + now constructor.
    + constructor; [|auto]. intros Hin.
      apply dict_set_keys in Hin as [->|Hin]; tauto.
Qed.

(** The keyword arguments of a call are those given, then those of the
    dict, when no key comes twice. *)
Lemma kw_merge_ok (given d : dict) :
  NoDup (map fst d) ->
  (forall k, dict_mem k given = true -> dict_get k d = None) ->
  kw_merge given d = Ok (given ++ d).
Proof.
  revert given. induction d as [|[k v] d IH]; intros given Hd Hclash; simpl.
  - now rewrite app_nil_r.
  - apply NoDup_cons_iff in Hd as [Hk Hd]. simpl in Hk.
    destruct (dict_mem k given) eqn:Hmem.
    + specialize (Hclash k Hmem). simpl in Hclash.
      now rewrite String.eqb_refl in Hclash.
    + rewrite IH; [now rewrite <- app_assoc|exact Hd|].
      intros k' Hk'. unfold dict_mem in Hk'.
      rewrite dict_get_app in Hk'.
      destruct (dict_get k' given) eqn:Hg.
      * assert (dict_mem k' given = true) as Hm
          by (unfold dict_mem; now rewrite Hg).
        specialize (Hclash k' Hm). simpl in Hclash.
        now destruct (String.eqb k' k).
      * simpl in Hk'. destruct (String.eqb_spec k' k) as [->|];
          [|discriminate]. now apply dict_get_not_in.
Qed.

Lemma kw_merge_prefix (given d kw : dict) :
  kw_merge given d = Ok kw -> exists rest, kw = given ++ rest.
Proof.
  revert given. induction d as [|[k v] d IH]; intros given; simpl.
  - intros [= <-]. exists []. now rewrite app_nil_r.
  - destruct (dict_mem k given); [discriminate|].
    intros H. apply IH in H as [rest ->].
    exists ((k, v) :: rest). now rewrite <- app_assoc.
Qed.

Lemma raise_for_status_HTTPError (l : list response) (e : exn) :
  result_map raise_for_status l = Raise e -> exists status, e = HTTPError status.
Proof.
  induction l as [|resp l IH]; simpl; [discriminate|].
  unfold raise_for_status at 1.
  destruct (_ && _).
  - intros [= <-]. eauto.
  - destruct (result_map raise_for_status l); [discriminate|].
    intros [= <-]. auto.
Qed.

(** One loop of [upload], against a transport that does not fail: every
    file is posted, whatever the status of the responses. *)
Lemma post_files_posts_each (endpoint key : string) (observation_id : value)
    (params : dict) (files : list value) (s : service_state) :
  always_answers ->
  NoDup (map fst params) ->
  dict_get "files" params = None ->
  dict_get key params = None ->
  key <> "raise_for_status" ->
  dict_get "raise_for_status" params = Some (PBool false) ->
  exists t s' responses,
    V1.post_files endpoint key observation_id params files s
      = (t, s', Ok responses)
    /\ fetches t = List.length files
    /\ sleeps t = 0%nat
    /\ forall req res, In (Fetch req res) t ->
         req_method req = "POST" /\ req_endpoint req = endpoint
         /\ exists resp, res = Ok resp /\ In resp responses.
Proof.
  intros Hanswers Hnodup Hfiles Hkey Hkey' Hflag. revert s.
  induction files as [|file files IH]; intros s.
  - exists [], s, []. do 3 (split; [reflexivity|]). intros ? ? [].
  - cbn [V1.post_files]. unfold bind, lift, ret.
    rewrite kw_merge_ok; [|exact Hnodup|].
    2:{ intros k. unfold dict_mem. cbn [dict_get].
        destruct (String.eqb_spec k "files") as [->|]; [auto|].
        destruct (String.eqb_spec k key) as [->|]; [auto|discriminate]. }
    unfold V1.post_v1, V1.request_v1, bind, perform, ret.
    destruct (Hanswers s (mk_request "POST" endpoint
                            ([("files", file); (key, observation_id)] ++ params)))
      as (s1 & resp & ->).
    assert (dict_get "raise_for_status"
              ([("files", file); (key, observation_id)] ++ params)
            = Some (PBool false)) as ->.
    { rewrite dict_get_app. cbn [dict_get].
      destruct (String.eqb_spec "raise_for_status" "files"); [discriminate|].
      destruct (String.eqb_spec "raise_for_status" key); [congruence|].
      exact Hflag. }
    cbn [truthy app].
    destruct (IH s1) as (t & s' & responses & -> & Hfetches & Hsleeps & Hin).
    eexists _, _, _. split; [reflexivity|].
    unfold fetches, sleeps in *. rewrite !app_nil_r. simpl.
    rewrite Hfetches, Hsleeps. repeat split; auto.
    + destruct H as [[= <- <-]|H]; [reflexivity|]. now apply Hin in H.
    + destruct H as [[= <- <-]|H]; [reflexivity|]. now apply Hin in H.
    + destruct H as [[= <- <-]|H]; [exists resp; simpl; auto|].
      apply Hin in H as (_ & _ & resp' & -> & H). exists resp'. simpl. auto.
Qed.

(** X10.  [upload] waits until all uploads are complete to raise errors:
    when the transport does not fail, every photo is posted to
    [observation_photos] and then every sound to [observation_sounds],
    whatever the status of the responses; if one of the responses has an
    error status, the call raises [HTTPError] after the last upload. *)
Theorem upload_posts_every_file (observation_id photos sounds : value)
    (params : dict) (s : service_state) :
  always_answers ->
  NoDup (map fst params) ->
  dict_get "files" params = None ->
  dict_get "observation_photo[observation_id]" params = None ->
  dict_get "observation_sound[observation_id]" params = None ->
  exists photo_events sound_events s' r,
    V1.upload observation_id photos sounds params s
      = (photo_events ++ sound_events, s', r)
    /\ fetches photo_events = List.length (ensure_list photos)
    /\ fetches sound_events = List.length (ensure_list sounds)
    /\ sleeps (photo_events ++ sound_events) = 0%nat
    /\ (forall req res, In (Fetch req res) photo_events ->
          req_method req = "POST" /\ req_endpoint req = "observation_photos")
    /\ (forall req res, In (Fetch req res) sound_events ->
          req_method req = "POST" /\ req_endpoint req = "observation_sounds")
    /\ (forall req resp,
          In (Fetch req (Ok resp)) (photo_events ++ sound_events) ->
          raise_for_status resp <> Ok tt ->
          exists status, r = Raise (HTTPError status)).
Proof.
  intros Hanswers Hnodup Hfiles Hphoto Hsound.
  unfold V1.upload.
  set (params' := dict_set "raise_for_status" (PBool false) params).
  assert (NoDup (map fst params')) as Hnodup' by now apply dict_set_NoDup.
  assert (dict_get "raise_for_status" params' = Some (PBool false)) as Hflag
    by apply dict_get_set_same.
  assert (forall k, k <> "raise_for_status" -> dict_get k params = None ->
            dict_get k params' = None) as Hother.
  { intros k Hk Hnone. unfold params'. now rewrite dict_get_set_other. }
  unfold bind at 1.
  destruct (post_files_posts_each "observation_photos"
              "observation_photo[observation_id]" observation_id params'
              (ensure_list photos) s)
    as (tp & s1 & rp & -> & Hfp & Hsp & Hinp); auto; try discriminate;
    try (apply Hother; [discriminate|assumption]).
  unfold bind at 1.
  destruct (post_files_posts_each "observation_sounds"
              "observation_sound[observation_id]" observation_id params'
              (ensure_list sounds) s1)
    as (ts & s2 & rs & -> & Hfs & Hss & Hins); auto; try discriminate;
    try (apply Hother; [discriminate|assumption]).
  unfold bind, lift.
  exists tp, ts, s2.
  destruct (result_map raise_for_status (rp ++ rs)) as [checked|e] eqn:Hcheck.
  - eexists. split; [now rewrite !app_nil_r|].
    repeat split; try (intros; edestruct Hinp as (? & ? & _); eauto; fail);
      try (intros; edestruct Hins as (? & ? & _); eauto; fail); auto.
    + unfold sleeps in *. rewrite filter_app, length_app. lia.
    + intros req resp Hin Hbad. exfalso.
      assert (In resp (rp ++ rs)) as Hresp.
      { apply in_or_app. apply in_app_or in Hin as [Hin|Hin].
        - left. apply Hinp in Hin as (_ & _ & resp' & [= <-] & ?). auto.
        - right. apply Hins in Hin as (_ & _ & resp' & [= <-] & ?). auto. }
      destruct (raise_for_status resp) as [[]|e] eqn:Hstatus; [congruence|].
      destruct (result_map_Raise _ _ _ _ Hresp Hstatus). congruence.
  - eexists. split; [now rewrite !app_nil_r|].
    repeat split; try (intros; edestruct Hinp as (? & ? & _); eauto; fail);
      try (intros; edestruct Hins as (? & ? & _); eauto; fail); auto.
    + unfold sleeps in *. rewrite filter_app, length_app. lia.
    + intros req resp _ _.
      destruct (raise_for_status_HTTPError _ _ Hcheck) as [status ->]. eauto.
Qed.

(** X11.  [delete_observation] tells a missing observation from other
    failures: it makes one DELETE request; the status 404 raises
    [ObservationNotFound], any other status from 400 to 599 raises
    [HTTPError] with that status, and with any other status it returns
    [None]. *)
Theorem delete_observation_by_status (observation_id access_token : value)
    (params kwargs : dict) (s s' : service_state) (resp : response) :
  kw_merge [("access_token", access_token); ("raise_for_status", PBool false)]
    params = Ok kwargs ->
  serve s (mk_request "DELETE" ("observations/" ++ py_str observation_id)%string
             kwargs)
    = (s', Ok resp) ->
  exists r,
    V1.delete_observation observation_id access_token params s
    = ([Fetch (mk_request "DELETE"
                 ("observations/" ++ py_str observation_id)%string kwargs)
          (Ok resp)], s', r)
    /\ (status_code resp = 404 -> r = Raise ObservationNotFound)
    /\ (400 <= status_code resp < 600 -> status_code resp <> 404 ->
        r = Raise (HTTPError (status_code resp)))
    /\ (status_code resp < 400 \/ 600 <= status_code resp -> r = Ok PNone).
Proof.
  intros Hkw Hserve.
  unfold V1.delete_observation, V1.delete_v1, V1.request_v1.
  unfold bind, lift, ret, raise, perform.
  rewrite Hkw, Hserve.
  destruct (kw_merge_prefix _ _ _ Hkw) as [rest ->].
  cbn [app dict_get String.eqb Ascii.eqb Bool.eqb truthy].
  unfold raise_for_status.
  destruct (Z.eqb_spec (status_code resp) 404) as [H404|H404].
  - eexists. split; [reflexivity|].
    repeat split; intros; try reflexivity; lia.
  - destruct (Z.leb_spec 400 (status_code resp));
      destruct (Z.ltb_spec (status_code resp) 600); cbn [andb];
      eexists; (split; [reflexivity|]);
      repeat split; intros; try reflexivity; lia.
Qed.

End WriteProperties.

(** ** More simulated runs *)

(** A search with [page] and [per_page] of the caller's own: both are
    ignored, and [taxon_id] goes through. *)
Lemma pagination_parameters_are_forced_witness :
  fetches (fst (fst taxon_search_run)) = 2%nat
  /\ forall req res, In (Fetch req res) (fst (fst taxon_search_run)) ->
    req_method req = "GET"
    /\ req_endpoint req = "observations"
    /\ dict_get "user_agent" (req_kwargs req) = Some (PStr "agent")
    /\ req_param req "per_page" = Some (PInt 2)
    /\ req_param req "page" = None
    /\ req_param req "user_agent" = None
    /\ forall k,
         ~ In k ["order_by"; "order"; "per_page"; "user_agent"; "page";
                 "id_above"] ->
         req_param req k = dict_get k taxon_search.
Proof.
  split; [reflexivity|].
  exact (pagination_parameters_are_forced (Sv := three_observations)
           (K := small_pages) 5 PNone (PStr "agent") taxon_search taxon_search
           tt tt (fst (fst taxon_search_run)) (snd taxon_search_run)
           eq_refl eq_refl eq_refl).
Defined.

(** A connection that breaks on the second request. *)
Lemma failed_request_ends_the_run_witness :
  snd broken_connection_run = Done (Raise ConnectionError)
  /\ fetches (fst (fst broken_connection_run)) = 2%nat.
Proof.
  destruct (failed_request_ends_the_run (Sv := scripted) (K := small_pages)
              5 PNone PNone [] broken_connection []
              (fst (fst broken_connection_run)) (snd broken_connection_run)
              (observations_request (params_above 1)) ConnectionError eq_refl)
    as [Hraise _].
  - simpl. auto.
  - split; [exact Hraise|reflexivity].
Defined.

(** Three observations in pages of two: the run returns on its second
    page, the first one having reported a total of three. *)
Lemma run_returns_on_the_first_small_total_witness :
  exists t0 req res,
    fst (fst three_observations_run) = t0 ++ [Fetch req res]
    /\ page_is_last 2 res = Some true
    /\ forall req' res', In (Fetch req' res') t0 ->
         page_is_last 2 res' = Some false.
Proof.
  destruct (run_returns_on_the_first_small_total (Sv := three_observations)
              (K := small_pages) 5 PNone PNone [] tt tt
              (fst (fst three_observations_run)) (snd three_observations_run)
              eq_refl) as [_ Hreturn].
  exact (Hreturn [obs 1; obs 2; obs 3] eq_refl).
Defined.

(** Five observations in pages of two. *)
Lemma get_all_observations_returns_the_catalogue_witness :
  exists t,
    get_all_observations (Sv := catalogue false [2; 3; 5; 7; 11])
      (K := small_pages) 6 PNone PNone [("taxon_id", PInt 3)] tt
    = (t, tt, Done (Ok (map obs [2; 3; 5; 7; 11]))).
Proof.
  apply (get_all_observations_returns_the_catalogue (K := small_pages)
           [2; 3; 5; 7; 11] 6 PNone [("taxon_id", PInt 3)]).
  - repeat constructor.
  - repeat constructor.
  - simpl. lia.
  - reflexivity.
  - reflexivity.
  - simpl. lia.
Defined.

(** An error document under the status 500. *)
Lemma error_document_raises_KeyError_witness :
  snd error_document_run = Done (Raise (KeyError "total_results"))
  /\ fetches (fst (fst error_document_run)) = 1%nat.
Proof.
  unfold error_document_run.
  rewrite (error_document_raises_KeyError (Sv := scripted) (K := small_pages)
             0 PNone PNone [] plain_params [Ok error_document] []
             error_document _ [] eq_refl eq_refl eq_refl eq_refl eq_refl
             eq_refl).
  split; reflexivity.
Defined.

(** A caller who asks for observations that are not mappable. *)
Lemma geojson_requests_are_mappable_witness :
  (forall req res, In (Fetch req res) (fst (fst geojson_run)) ->
     req_param req "mappable" = Some (PBool true))
  /\ exists features,
       snd geojson_run
       = Done (Ok (PDict [("type", PStr "FeatureCollection");
                          ("features", PList features);
                          ("properties", PList [PStr "id"; PStr "species_guess"])])).
Proof.
  destruct (geojson_requests_are_mappable (Sv := three_observations)
              (K := small_pages) (RF := plain_format) 5 PNone
              [("mappable", PBool false)] tt tt (fst (fst geojson_run))
              (snd geojson_run) eq_refl eq_refl) as [Hmappable _].
  split; [exact Hmappable|]. eexists. reflexivity.
Defined.

(** Ranks between genus and family, against a caller's [rank]. *)
Lemma rank_range_overrides_rank_witness :
  exists req res t s' r,
    get_taxa (Sv := fixed taxa_response) (RF := plain_format)
      (PStr "genus") (PStr "family") PNone
      [("q", PStr "lix"); ("rank", PStr "species")] tt = (t, s', r)
    /\ t = [Fetch req res]
    /\ req_param req "rank" = Some (PList [PStr "genus"; PStr "family"])
    /\ forall k, k <> "rank" ->
         req_param req k = dict_get k [("q", PStr "lix"); ("rank", PStr "species")].
Proof.
  destruct (rank_range_overrides_rank (Sv := fixed taxa_response)
              (RF := plain_format)) as [Hrange _].
  exact (Hrange (PStr "genus") (PStr "family") PNone _ _ tt eq_refl eq_refl).
Defined.

(** Two taxa, each formatted as its name. *)
Lemma minify_formats_each_result_witness :
  snd (get_taxa_autocomplete (Sv := fixed taxa_response) (RF := plain_format)
         PNone (PBool true) [("q", PStr "l")] tt)
  = Ok (PDict [("total_results", PInt 2);
               ("results", PList [PStr "Lixus"; PStr "Danaus"])]).
Proof.
  destruct (minify_formats_each_result (Sv := fixed taxa_response)
              (RF := plain_format) PNone (PBool true) [("q", PStr "l")] tt tt
              taxa_response _ eq_refl eq_refl eq_refl)
    as (t & r & Hrun & _ & Hminify).
  rewrite Hrun. cbn [snd].
  destruct (Hminify eq_refl _ eq_refl) as [Hformatted _].
  injection Hrun as _ <-. reflexivity.
Defined.

(** Places nearby without a list from the community. *)
Lemma places_nearby_results_are_rebuilt_witness :
  exists t out,
    get_places_nearby (Sv := fixed nearby_response) (F := usual_fields)
      (PInt 1) (PInt 2) (PInt 3) (PInt 4) PNone PNone tt
    = (t, tt, Ok (PDict out))
    /\ dict_get "results" out
       = Some (PDict [("standard", PList [PDict (place PNone)]);
                      ("community", PNone)])
    /\ forall k, k <> "results" ->
         dict_get k out
         = dict_get k [("total_results", PInt 1);
                       ("results",
                        PDict [("standard", PList [PDict (place PNone)]);
                               ("other", PInt 0)])].
Proof.
  exact (places_nearby_results_are_rebuilt (Sv := fixed nearby_response)
           (F := usual_fields) (PInt 1) (PInt 2) (PInt 3) (PInt 4) PNone PNone
           tt tt nearby_response _ _ eq_refl eq_refl eq_refl eq_refl).
Defined.

(** Two photos and a sound, each refused: all three are posted. *)
Lemma upload_posts_every_file_witness :
  exists photo_events sound_events s' r,
    refused_upload = (photo_events ++ sound_events, s', r)
    /\ fetches photo_events = 2%nat
    /\ fetches sound_events = 1%nat
    /\ sleeps (photo_events ++ sound_events) = 0%nat
    /\ (forall req res, In (Fetch req res) photo_events ->
          req_method req = "POST" /\ req_endpoint req = "observation_photos")
    /\ (forall req res, In (Fetch req res) sound_events ->
          req_method req = "POST" /\ req_endpoint req = "observation_sounds")
    /\ (forall req resp,
          In (Fetch req (Ok resp)) (photo_events ++ sound_events) ->
          raise_for_status resp <> Ok tt ->
          exists status, r = Raise (HTTPError status)).
Proof.
  apply (upload_posts_every_file (Sv := fixed refused) (RF := plain_format)
           (PInt 1234) (PList [PStr "a.jpg"; PStr "b.jpg"]) (PStr "c.mp3")
           [("access_token", PStr "token")] tt).
  - intros s req. exists tt, refused. reflexivity.
  - repeat constructor. intros [].
  - reflexivity.
  - reflexivity.
  - reflexivity.
Defined.

(** An observation that does not exist. *)
Lemma delete_observation_by_status_witness :
  snd (V1.delete_observation (Sv := fixed (mk_response 404 None))
         (PInt 17932425) (PStr "token") [] tt)
  = Raise ObservationNotFound.
Proof.
  destruct (delete_observation_by_status
              (Sv := fixed (mk_response 404 None)) (PInt 17932425)
              (PStr "token") [] _ tt tt (mk_response 404 None)
              eq_refl eq_refl) as (r & Hrun & H404 & _).
  rewrite Hrun. cbn [snd]. now apply H404.
Defined.

(** A taxon asked by its identifier, refused by the service. *)
Lemma error_status_raises_HTTPError_witness :
  snd (get_taxa_by_id (Sv := fixed refused) (RP := plain_checks)
         (PInt 3) PNone tt)
  = Raise (HTTPError 422)
  /\ fetches (fst (fst (get_taxa_by_id (Sv := fixed refused)
                          (RP := plain_checks) (PInt 3) PNone tt))) = 1%nat.
Proof.
  destruct (error_status_raises_HTTPError (Sv := fixed refused)
              (RP := plain_checks) (F := usual_fields) (RF := plain_format)
              (mk_request "GET" "taxa"
                 [("resources", PInt 3); ("user_agent", PNone)])
              refused tt tt
              (fst (fst (get_taxa_by_id (Sv := fixed refused)
                           (RP := plain_checks) (PInt 3) PNone tt)))
              (snd (get_taxa_by_id (Sv := fixed refused)
                      (RP := plain_checks) (PInt 3) PNone tt)))
    as [Hraise Hone].
  - simpl. lia.
  - simpl. auto.
  - do 4 right. left. exists (PInt 3), PNone. reflexivity.
  - split; [exact Hraise|]. now rewrite Hone.
Defined.

(** ** The order of the results *)

Section Order.
Context {Sv : Service} {K : Constants} {RP : RequestParams} {F : Fields}.

Lemma ascending_above_app (c : Z) (a b : list value) :
  ascending_above c a ->
  ascending_above (last_id c a) b ->
  ascending_above c (a ++ b).
Proof.
  revert c. induction a as [|x a IH]; intros c Ha Hb; simpl in *; [exact Hb|].
  destruct Ha as (i & Hi & Hci & Ha). rewrite Hi in Hb.
  exists i. auto.
Qed.

(** The pages of an ascending trace, put end to end, are ascending. *)
Lemma increasing_concat (c : Z) (t : list event) :
  increasing c t -> ascending_above c (List.concat (pages t)).
Proof.
  revert c. induction t as [|[req res|d] t IH]; intros c; simpl; auto.
  destruct (page_items res) as [items|].
  - intros [Hitems Hrest]. simpl. apply ascending_above_app; auto.
  - intros ->. exact I.
Qed.

(** X12.  Against a service that honours keyset pagination, and for a
    call without an entry [params], the list that [get_all_observations]
    returns holds items with integer identifiers above zero in strictly
    ascending order: no observation comes twice. *)
Theorem returned_identifiers_ascend (fuel : nat) (params user_agent : value)
    (kwargs pp : dict) (s s' : service_state) (t : list event)
    (results : list value) :
  pagination_params_of params user_agent kwargs = Ok pp ->
  dict_get "params" pp = None ->
  honours_keyset ->
  get_all_observations fuel params user_agent kwargs s
    = (t, s', Done (Ok results)) ->
  ascending_above 0 results.
Proof.
  intros Hpp Hnone Hhonest Hrun.
  destruct (pagination_params_of_order _ _ _ _ Hpp) as [Hby Hasc].
  unfold get_all_observations in Hrun. rewrite Hpp in Hrun.
  destruct (loop_results _ _ _ _ _ _ _ _ Hrun) as [-> _].
  apply increasing_concat.
  eapply loop_increasing with (results := []);
    [exact Hhonest|exact Hnone|exact Hby|exact Hasc| |exact Hrun].
  unfold py_last. simpl. discriminate.
Qed.

End Order.

(** Three observations from the catalogue. *)
Lemma returned_identifiers_ascend_witness :
  ascending_above 0 [obs 1; obs 2; obs 3].
Proof.
  apply (returned_identifiers_ascend (Sv := three_observations)
           (K := small_pages) 5 PNone PNone [] plain_params tt tt
           (fst (fst three_observations_run)) [obs 1; obs 2; obs 3]
           eq_refl eq_refl).
  - apply catalogue_honours_keyset. repeat constructor; lia.
  - reflexivity.
Defined.

(** ** An entry [params] among the parameters *)

Section ParamsEntry.
Context {Sv : Service} {K : Constants} {RP : RequestParams} {F : Fields}.

(** An update writes every entry of the dict it merges. *)
Lemma dict_get_update_other (k : string) (d e : dict) :
  dict_get k e = None -> dict_get k (dict_update d e) = dict_get k d.
Proof.
  unfold dict_update. revert d.
  induction e as [|[k' v'] e IH]; intros d; simpl; [reflexivity|].
  destruct (String.eqb_spec k k') as [->|Hne]; [discriminate|].
  intros He. rewrite IH by exact He. now apply dict_get_set_other.
Qed.

Lemma dict_get_update_same (k : string) (v : value) (d e : dict) :
  NoDup (map fst e) -> dict_get k e = Some v ->
  dict_get k (dict_update d e) = Some v.
Proof.
  unfold dict_update. revert d.
  induction e as [|[k' v'] e IH]; intros d Hkeys; simpl; [discriminate|].
  apply NoDup_cons_iff in Hkeys as [Hk' Hkeys]. simpl in Hk'.
  destruct (String.eqb_spec k k') as [->|Hne].
  - intros [= ->].
    change (dict_get k' (dict_update (dict_set k' v d) e) = Some v).
    rewrite dict_get_update_other by now apply dict_get_not_in.
    apply dict_get_set_same.
  - now apply IH.
Qed.

(** The events of two statements in a row. *)
Lemma bind_events {A B : Type} (m : M A) (f : A -> M B)
    (s s' : service_state) (t : list event) (r : result B) :
  bind m f s = (t, s', r) ->
  match m s with
  | (t0, s0, Ok a) => exists t1, f a s0 = (t1, s', r) /\ t = t0 ++ t1
  | (t0, s0, Raise e) => t = t0 /\ s' = s0 /\ r = Raise e
  end.
Proof.
  unfold bind. destruct (m s) as [[t0 s0] [a|e]].
  - destruct (f a s0) as [[t1 s1] r1]. intros [= <- <- <-]. eauto.
  - intros [= <- <- <-]. auto.
Qed.

(** With an entry [params] that is a dict and not empty,
    [get_observations] merges it over its other keyword arguments: the
    request carries every entry of it. *)
Lemma get_observations_kw_params (d p : dict) (s s' : service_state)
    (t : list event) (r : result value) :
  dict_get "params" d = Some (PDict p) ->
  p <> [] ->
  NoDup (map fst p) ->
  get_observations_kw d s = (t, s', r) ->
  forall req res, In (Fetch req res) t ->
    forall k v, dict_get k p = Some v -> req_param req k = Some v.
Proof.
  intros Hp Hne Hkeys.
  unfold get_observations_kw, get_observations, make_inaturalist_api_get_call.
  unfold bind, lift, ret, perform. rewrite Hp.
  assert (truthy (PDict p) = true) as -> by (destruct p; [contradiction|reflexivity]).
  cbn [py_update app].
  destruct (serve s _) as [s1 [resp|e]].
  - destruct (json resp); intros [= <- _ _] req res [[= <- _]|[]] k v Hk;
      unfold req_param; cbn [req_kwargs dict_get String.eqb Ascii.eqb Bool.eqb];
      now apply dict_get_update_same.
  - intros [= <- _ _] req res [[= <- _]|[]] k v Hk.
    unfold req_param. cbn [req_kwargs dict_get String.eqb Ascii.eqb Bool.eqb].
    now apply dict_get_update_same.
Qed.

(** One round of the loop makes the request of its call of
    [get_observations], and goes round again with the same parameters
    but for the cursor. *)
Lemma page_step_params (pp p : dict) (results : list value) (c : value)
    (s s' : service_state) (t : list event)
    (r : result (list value + page_state)) :
  dict_get "params" pp = Some (PDict p) ->
  p <> [] ->
  NoDup (map fst p) ->
  page_step (pp, results, c) s = (t, s', r) ->
  (forall req res, In (Fetch req res) t ->
     forall k v, dict_get k p = Some v -> req_param req k = Some v)
  /\ (forall pp' results' c',
        r = Ok (inr (pp', results', c')) ->
        dict_get "params" pp' = Some (PDict p)).
Proof.
  intros Hp Hne Hkeys Hstep.
  assert (dict_get "params" (dict_set "id_above" c pp) = Some (PDict p))
    as Hp' by now rewrite dict_get_set_other by discriminate.
  pose proof (page_step_inv _ _ _ _ _ _ _ Hstep) as Hinv. cbv zeta in Hinv.
  split.
  - unfold page_step in Hstep. apply bind_events in Hstep.
    destruct (get_observations_kw (dict_set "id_above" c pp) s)
      as [[t0 s0] r0] eqn:Hcall.
    pose proof (get_observations_kw_params _ _ _ _ _ _ Hp' Hne Hkeys Hcall)
      as Hreqs.
    apply get_observations_kw_inv in Hcall
      as [(-> & _ & e & ->)|(req0 & res0 & -> & _)].
    { destruct Hstep as (-> & _). intros ? ? []. }
    assert (exists t1, t = Fetch req0 res0 :: t1) as [t1 Ht].
    { destruct r0 as [a|e].
      - destruct Hstep as (t1 & _ & ->). now exists t1.
      - destruct Hstep as (-> & _). now exists []. }
    intros req res Hin. apply (Hreqs req res).
    destruct Hinv as [(-> & _)|(req1 & res1 & _ & _ & Hcases)]; [destruct Hin|].
    assert (t = [Fetch req1 res1]
            \/ t = [Fetch req1 res1; Sleep THROTTLING_DELAY]) as Hshape.
    { destruct Hcases as [(-> & _)|(items & _ & [(-> & _)|(-> & _)])]; auto. }
    destruct Hshape as [-> | ->]; injection Ht as <- <- _.
    + destruct Hin as [Hin|[]]. now left.
    + destruct Hin as [Hin|[[=]|[]]]. now left.
  - intros pp' results' c' ->.
    destruct Hinv as [[_ [e [=]]]|(req1 & res1 & _ & _ & Hcases)].
    destruct Hcases as [[_ [e [=]]]|(items & _ & [[_ [=]]|[_ Hnext]])].
    destruct Hnext as [(e & [=] & _)|(last & c1 & _ & _ & [= -> _ _])].
    exact Hp'.
Qed.

(** Every request of the loop carries the entries of the dict. *)
Lemma loop_params (fuel : nat) (pp p : dict) (results : list value)
    (c : value) (s s' : service_state) (t : list event)
    (r : run (list value)) :
  dict_get "params" pp = Some (PDict p) ->
  p <> [] ->
  NoDup (map fst p) ->
  while_true fuel page_step (pp, results, c) s = (t, s', r) ->
  forall req res, In (Fetch req res) t ->
    forall k v, dict_get k p = Some v -> req_param req k = Some v.
Proof.
  intros Hp Hne Hkeys. revert pp results c s s' t r Hp.
  induction fuel as [|fuel IH]; intros pp results c s s' t r Hp;
    cbn [while_true].
  { intros [= <- _ _] req res []. }
  destruct (page_step (pp, results, c) s) as [[t1 s1] r1] eqn:Hstep.
  destruct (page_step_params _ _ _ _ _ _ _ _ Hp Hne Hkeys Hstep)
    as [Hreqs Hnext].
  destruct r1 as [[rs|[[pp' rs'] c']]|e].
  - intros [= <- _ _]. exact Hreqs.
  - destruct (while_true fuel page_step _ s1) as [[t2 s2] r2] eqn:Hrest.
    intros [= <- _ _] req res Hin.
    apply in_app_or in Hin as [Hin|Hin]; [now apply (Hreqs req res)|].
    exact (IH _ _ _ _ _ _ _ (Hnext _ _ _ eq_refl) Hrest _ _ Hin).
  - intros [= <- _ _]. exact Hreqs.
Qed.

(** C3.  The cursor and the order are not forced on every call.  When the
    parameters of the call hold an entry [params] (the deprecated dict
    can bring one in), a dict that is not empty, every request of
    [get_all_observations] carries each entry of that dict as it is: an
    [id_above] in it is sent with every request, whatever the last item of
    the page before, and an [order] or [order_by] in it is sent in place
    of [asc] or [id]. *)
Theorem params_entry_overrides_the_cursor (fuel : nat)
    (params user_agent : value) (kwargs pp p : dict) (s s' : service_state)
    (t : list event) (r : run (list value)) :
  pagination_params_of params user_agent kwargs = Ok pp ->
  dict_get "params" pp = Some (PDict p) ->
  p <> [] ->
  NoDup (map fst p) ->
  get_all_observations fuel params user_agent kwargs s = (t, s', r) ->
  forall req res, In (Fetch req res) t ->
    forall k v, dict_get k p = Some v -> req_param req k = Some v.
Proof.
  intros Hpp Hp Hne Hkeys. unfold get_all_observations. rewrite Hpp.
  now apply loop_params.
Qed.

End ParamsEntry.

(** Three observations in pages of two, and a call that pins the cursor
    at zero: after the page of the observations 1 and 2, the next request
    asks again for what lies above zero, in descending order, and is
    answered with the same page. *)
Lemma params_entry_overrides_the_cursor_witness :
  exists req1 res1 req2 res2 rest,
    fst (fst (pinned_run 3))
    = Fetch req1 res1 :: Sleep 1 :: Fetch req2 res2 :: rest
    /\ page_items res1 = Some [obs 1; obs 2]
    /\ req_param req2 "id_above" = Some (PInt 0)
    /\ req_param req2 "order" = Some (PStr "desc")
    /\ page_items res2 = Some [obs 1; obs 2].
Proof.
  pose proof (params_entry_overrides_the_cursor (Sv := three_observations)
                (K := small_pages) 3 (PDict [("params", PDict pinned)]) PNone []
                (("params", PDict pinned) :: plain_params) pinned tt tt
                (fst (fst (pinned_run 3))) (snd (pinned_run 3))
                eq_refl eq_refl) as Hpinned.
  eexists _, _, _, _, _. split; [reflexivity|]. split; [reflexivity|].
  split; [|split; [|reflexivity]].
  - eapply Hpinned;
      [discriminate
      |repeat constructor; simpl; intuition discriminate
      |reflexivity
      |simpl; right; right; left; reflexivity
      |reflexivity].
  - eapply Hpinned;
      [discriminate
      |repeat constructor; simpl; intuition discriminate
      |reflexivity
      |simpl; right; right; left; reflexivity
      |reflexivity].
Defined.
